(** * Pamir-HW-TestScript: the test-session sequencer of [hardware_test.py]

    A shallow embedding of the interactive hardware quality-control harness:
    the result ledger ([TestResult]), the operator prompts, the SSH helpers,
    the SSH test group ([perform_ssh_tests]), the report computation
    ([save_to_excel]) and the session loop ([main]).

    Conventions of the embedding.
    - The program is a computation in a state-and-control monad [M]: the
      state holds the operator's pending input lines, the current ledger
      object, the rows of the results workbook and a trace of interactions;
      the outcome is a return value, a raised Python exception, or a pending
      [continue]/[break] of the session loop.
    - Everything the program cannot decide by itself (wall clock, network,
      removable volume, serial upload, curses menu) is read from an immutable
      environment [Env], indexed by a logical instant that advances at every
      interaction.
    - Text written to the terminal by [print] is not modelled; prompts of
      [input] are recorded in the trace, without their leading line breaks.
    - A string is the UTF-8 encoding of a Python text; [strip], [len] and
      slices count characters, as Python does.  What [isdigit] and [int]
      make of digits outside ASCII, and how many digits [int] converts, is
      the interpreter's and is read from the environment.
    - [KeyboardInterrupt] and [SystemExit] are not modelled (Ctrl+C and the
      Ctrl+X handler, which calls [sys.exit], end the program from outside):
      the exceptions of the model are those of class [Exception].
    - Writing the workbook is taken to succeed: [save_to_excel] is modelled
      up to the row it appends, and the errors of the file system and of
      the spreadsheet library are left out.
    - The functions that look for the RP2 boot volume and the curses menu
      are collaborators of the session; their own code is embedded apart
      ([Volume], [menu]), against a host file system and a terminal given
      round by round. *)

From Stdlib Require Import ZArith QArith Lqa String Ascii List Lia.
From stdpp Require Import gmap strings list fin_maps pretty.

Local Open Scope Z_scope.

(** ** Python string helpers *)

Module PyStr.

Definition lower_ascii (c : ascii) : ascii :=
  let n := nat_of_ascii c in
  if (Nat.leb 65 n && Nat.leb n 90)%bool then ascii_of_nat (n + 32) else c.

Definition upper_ascii (c : ascii) : ascii :=
  let n := nat_of_ascii c in
  if (Nat.leb 97 n && Nat.leb n 122)%bool then ascii_of_nat (n - 32) else c.

Fixpoint map (f : ascii -> ascii) (s : string) : string :=
  match s with
  | EmptyString => EmptyString
  | String c t => String (f c) (map f t)
  end.

(** [s.lower()] and [s.upper()], on the letters of ASCII.  A string is the
    UTF-8 encoding of the Python text, and the bytes of the other characters
    are left as they are.  The program only compares the outcome with words
    made of ASCII letters and digits (['y'], ['yes'], ['n'], ['no'], the
    identifiers [T01]..[T14]), and no character outside ASCII has a lower
    case with one of [y e s n o] in it, or an upper case made of [T] and
    digits only: those comparisons come out as in Python. *)
Definition lower : string -> string := map lower_ascii.
Definition upper : string -> string := map upper_ascii.

(** The white space of [str.strip()] is the set of characters for which
    [str.isspace()] holds: U+0009..U+000D, U+001C..U+0020, U+0085, U+00A0,
    U+1680, U+2000..U+200A, U+2028, U+2029, U+202F, U+205F and U+3000.  In
    UTF-8 they take one, two or three bytes. *)
Definition is_space1 (c : ascii) : bool :=
  let n := nat_of_ascii c in
  (Nat.leb 9 n && Nat.leb n 13) || (Nat.leb 28 n && Nat.leb n 32).

Definition is_space2 (c1 c2 : ascii) : bool :=
  let n1 := nat_of_ascii c1 in
  let n2 := nat_of_ascii c2 in
  Nat.eqb n1 194 && (Nat.eqb n2 133 || Nat.eqb n2 160).

Definition is_space3 (c1 c2 c3 : ascii) : bool :=
  let n1 := nat_of_ascii c1 in
  let n2 := nat_of_ascii c2 in
  let n3 := nat_of_ascii c3 in
  (Nat.eqb n1 225 && Nat.eqb n2 154 && Nat.eqb n3 128)
  || (Nat.eqb n1 226 && Nat.eqb n2 128
      && ((Nat.leb 128 n3 && Nat.leb n3 138)
          || Nat.eqb n3 168 || Nat.eqb n3 169 || Nat.eqb n3 175))
  || (Nat.eqb n1 226 && Nat.eqb n2 129 && Nat.eqb n3 159)
  || (Nat.eqb n1 227 && Nat.eqb n2 128 && Nat.eqb n3 128).

(** [s.lstrip()] *)
Fixpoint lstrip (s : string) : string :=
  match s with
  | EmptyString => EmptyString
  | String c1 t1 =>
      if is_space1 c1 then lstrip t1
      else match t1 with
           | EmptyString => s
           | String c2 t2 =>
               if is_space2 c1 c2 then lstrip t2
               else match t2 with
                    | EmptyString => s
                    | String c3 t3 =>
                        if is_space3 c1 c2 c3 then lstrip t3 else s
                    end
           end
  end.

(** [s.rstrip()], on the bytes of [s] in reverse order: the bytes of a
    character then come last byte first. *)
Fixpoint lstrip_reversed (s : string) : string :=
  match s with
  | EmptyString => EmptyString
  | String c1 t1 =>
      if is_space1 c1 then lstrip_reversed t1
      else match t1 with
           | EmptyString => s
           | String c2 t2 =>
               if is_space2 c2 c1 then lstrip_reversed t2
               else match t2 with
                    | EmptyString => s
                    | String c3 t3 =>
                        if is_space3 c3 c2 c1 then lstrip_reversed t3 else s
                    end
           end
  end.

(** [s.strip()] *)
Definition strip (s : string) : string :=
  String.rev (lstrip_reversed (String.rev (lstrip s))).

(** [needle in hay] on strings *)
Fixpoint str_in (needle hay : string) : bool :=
  if String.prefix needle hay then true
  else match hay with
       | EmptyString => false
       | String _ t => str_in needle t
       end.

(** A byte [10xxxxxx] continues the character begun before it. *)
Definition is_continuation (c : ascii) : bool :=
  let n := nat_of_ascii c in Nat.leb 128 n && Nat.leb n 191.

(** [s[:n]]: the first [n] characters of [s], each with all its bytes *)
Fixpoint take (n : nat) (s : string) : string :=
  match s with
  | EmptyString => EmptyString
  | String c t =>
      if is_continuation c then String c (take n t)
      else match n with
           | O => EmptyString
           | S k => String c (take k t)
           end
  end.

(** [len(s)]: the number of characters of [s] *)
Fixpoint len (s : string) : nat :=
  match s with
  | EmptyString => O
  | String c t => if is_continuation c then len t else S (len t)
  end.

(** No byte of [s] is outside ASCII. *)
Fixpoint is_ascii (s : string) : bool :=
  match s with
  | EmptyString => true
  | String c t => Nat.ltb (nat_of_ascii c) 128 && is_ascii t
  end.

Definition is_digit (c : ascii) : bool :=
  match Ascii.is_nat c with Some _ => true | None => false end.

Fixpoint all_digits (s : string) : bool :=
  match s with
  | EmptyString => true
  | String c t => is_digit c && all_digits t
  end.

(** [s.isdigit()] for a text of ASCII: non-empty and made of digits *)
Definition isdigit (s : string) : bool :=
  match s with EmptyString => false | _ => all_digits s end.

Fixpoint int_go (acc : Z) (s : string) : Z :=
  match s with
  | EmptyString => acc
  | String c t =>
      int_go (10 * acc + Z.of_nat (default 0%nat (Ascii.is_nat c))) t
  end.

(** [int(s)] for a string of ASCII digits *)
Definition int_of_digits (s : string) : Z := int_go 0 s.

Fixpoint split_go (sep : ascii) (cur : string) (s : string) : list string :=
  match s with
  | EmptyString => [String.rev cur]
  | String c t =>
      if Ascii.eqb c sep then String.rev cur :: split_go sep EmptyString t
      else split_go sep (String c cur) t
  end.

(** [s.split(sep)] for a one-character separator *)
Definition split (sep : ascii) (s : string) : list string :=
  split_go sep EmptyString s.

(** [x in ['y', 'yes']] *)
Definition is_yes (s : string) : bool :=
  bool_decide (s = "y") || bool_decide (s = "yes").

(** [x in ['n', 'no']] *)
Definition is_no (s : string) : bool :=
  bool_decide (s = "n") || bool_decide (s = "no").

(** [int(x)] on a float: truncation toward zero *)
Definition int_of_float (q : Q) : Z := Z.quot (Qnum q) (Zpos (Qden q)).

End PyStr.

(** ** Configuration constants *)

Definition CM5_IP_ADDRESS : string := "distiller@192.168.0.30".
Definition RGB_LED_TEST_PATH : string :=
  "/opt/distiller-cm5-sdk/src/distiller_cm5_sdk/hardware/sam/led_interactive_demo.py".
Definition RGB_LED_NUM_ENTERS : nat := 10.
Definition FLASH_NUKE_UF2 : string := "flash_nuke.uf2".
Definition MICROPYTHON_UF2 : string := "RPI_PICO-20240222-v1.22.2.uf2".

Definition PYTHON_FILES : list string :=
  [ "bin/loading1.bin"; "bin/loading2.bin"; "eink_driver_sam.py";
    "pamir_uart_protocols.py"; "neopixel_controller.py"; "power_manager.py";
    "battery.py"; "debug_handler.py"; "uart_handler.py";
    "threaded_task_manager.py"; "main.py" ].

(** The test catalog, in the order of the source dictionary. *)
Definition TEST_ID_ITEMS : list (string * string) :=
  [ ("T01", "Firmware Upload");
    ("T02", "CM5 LED Visual Check");
    ("T03", "RGB LED Visual Check");
    ("T04", "E-ink Display Refresh");
    ("T05", "UI Appears");
    ("T06", "Button Response");
    ("T07", "Voice Transcribed");
    ("T09", "USB MicroPython Detection");
    ("T10", "USB Hub Detection");
    ("T11", "USB Media Detection");
    ("T12", "RGB LED SSH Test");
    ("T13", "SD Card Detection");
    ("T14", "Camera Detection") ].

Definition TEST_IDS : gmap string string := list_to_map TEST_ID_ITEMS.

(** [TEST_IDS.keys()] *)
Definition TEST_ID_KEYS : list string := TEST_ID_ITEMS.*1.

(** ** The result ledger *)

(** The values the program stores in [test_results]: [None] (selected, not
    yet recorded), a boolean, or the string ['SKIPPED']. *)
Inductive py_result : Type :=
| PyNone
| PyBool (b : bool)
| PySKIPPED.

Global Instance py_result_eq_dec : EqDecision py_result.
Proof. solve_decision. Defined.

(** Python truthiness: [None] is false, a non-empty string is true. *)
Definition truthy (v : py_result) : bool :=
  match v with
  | PyNone => false
  | PyBool b => b
  | PySKIPPED => true
  end.

(** [v is not None] *)
Definition is_not_None (v : py_result) : bool :=
  match v with PyNone => false | _ => true end.

(** One line of the per-device log file, before rendering to text. *)
Record LogEntry : Type := mkLogEntry {
  log_time : Q;
  log_test_id : string;
  log_test_name : string;
  log_status : string;
  log_duration : option Z;
  log_details : string
}.

Record TestResult : Type := mkTestResult {
  device_id : Z;
  version : option string;
  manufacture_id : option string;
  timestamp : Q;
  test_results : gmap string py_result;
  test_durations : gmap string (option Z);
  tests_to_run : gset string;
  overall_pass : bool;
  notes : string;
  log_file : list LogEntry
}.

(** The loop of [TestResult.__init__] over [TEST_IDS]. *)
Fixpoint init_tests (ids : list string) (sel : gset string)
    (acc : gmap string py_result * gmap string (option Z))
    : gmap string py_result * gmap string (option Z) :=
  match ids with
  | [] => acc
  | test_id :: rest =>
      init_tests rest sel
        (if bool_decide (test_id ∈ sel)
         then (<[test_id := PyNone]> acc.1, <[test_id := None]> acc.2)
         else (<[test_id := PySKIPPED]> acc.1, <[test_id := Some 0]> acc.2))
  end.

(** [TestResult.__init__], given the clock reading used for [timestamp]. *)
Definition TestResult_init (now : Q) (dev : Z) (sel : gset string)
    (ver man : option string) : TestResult :=
  let maps := init_tests TEST_ID_KEYS sel (∅, ∅) in
  {| device_id := dev; version := ver; manufacture_id := man;
     timestamp := now;
     test_results := maps.1; test_durations := maps.2;
     tests_to_run := sel; overall_pass := false; notes := "";
     log_file := [] |}.

(** ** Environment and program state *)

(** What a call into a library or the outside world does: return, or raise
    an exception (a subclass of [Exception]) with the given text. *)
Inductive io (A : Type) : Type :=
| Returns (a : A)
| Raises (msg : string).
Arguments Returns {A} a.
Arguments Raises {A} msg.

(** One [exec_command] round of paramiko, step by step. *)
Record exec_behaviour : Type := mkExec {
  exec_call : io unit;        (* [ssh_client.exec_command(command)] *)
  stdin_write : io unit;      (* [stdin.write] and [stdin.flush] *)
  stdout_text : io string;    (* [stdout.read().decode('utf-8')] *)
  stderr_text : io string     (* [stderr.read().decode('utf-8')] *)
}.

(** The collaborators, as functions of the logical instant of the call. *)
Record Env : Type := mkEnv {
  clock : nat -> Q;                              (* [time.time()] *)
  ssh_connect : nat -> io unit;                  (* [ssh.connect(...)] *)
  ssh_exec : nat -> string -> exec_behaviour;
  (* an interactive shell round: the chunks received, or an exception *)
  ssh_shell : nat -> string -> nat -> io (list string);
  curses_menu : nat -> io (gset string);         (* [curses.wrapper(menu)] *)
  rp2_appears : nat -> option string;            (* [wait_for_rp2_device()] *)
  rp2_disappears : nat -> bool;                  (* [wait_for_rp2_disappear()] *)
  flash_uf2 : nat -> string -> bool;             (* [flash_uf2_file(name, _)] *)
  uart_ports : nat -> list string;               (* [glob.glob(UART_PORT_PATTERN)] *)
  bhv_exists : nat -> string -> bool;            (* [file_path.exists()] *)
  (* [subprocess.run(ampy put)]: return code and stderr, or an exception *)
  ampy_put : nat -> string -> string -> io (Z * string);
  (* the interpreter: [s.isdigit()] and [int(s)] on a text with characters
     outside ASCII, and [sys.get_int_max_str_digits()] (0: no limit) *)
  unicode_isdigit : string -> bool;
  unicode_int : string -> io Z;
  int_max_str_digits : nat
}.

Inductive event : Type :=
| EvInput (prompt line : string)       (* [input(prompt)] returned [line] *)
| EvConnect (result : io unit)         (* one [ssh.connect] attempt *)
| EvClose                              (* [ssh.close()] *)
| EvExec (command : string)            (* [exec_command] on a live client *)
| EvShell (command : string) (num_enters : nat).

(** One row appended to the results workbook. *)
Record Row : Type := mkRow {
  row_device_id : Z;
  row_version : string;
  row_manufacture_id : string;
  row_timestamp : Q;
  row_tests : list (string * string);     (* test id, cell text *)
  row_failed_tests : string;
  row_overall_pass : bool;
  row_notes : string;
  row_durations : list (string * Z)
}.

Record State : Type := mkState {
  now : nat;                 (* logical instant *)
  stdin : list string;       (* lines the operator will still type *)
  trace : list event;        (* interactions so far, oldest first *)
  excel : list Row;          (* rows of the results workbook *)
  test_result : TestResult;  (* the ledger object bound to [test_result] *)
  ssh : option nat;          (* the variable [ssh] of [perform_ssh_tests] *)
  restart_test : bool        (* the variable [restart_test] of [main] *)
}.

Definition with_now (n : nat) (s : State) : State :=
  mkState n (stdin s) (trace s) (excel s) (test_result s) (ssh s) (restart_test s).
Definition with_stdin (l : list string) (s : State) : State :=
  mkState (now s) l (trace s) (excel s) (test_result s) (ssh s) (restart_test s).
Definition with_trace (t : list event) (s : State) : State :=
  mkState (now s) (stdin s) t (excel s) (test_result s) (ssh s) (restart_test s).
Definition with_excel (x : list Row) (s : State) : State :=
  mkState (now s) (stdin s) (trace s) x (test_result s) (ssh s) (restart_test s).
Definition with_test_result (r : TestResult) (s : State) : State :=
  mkState (now s) (stdin s) (trace s) (excel s) r (ssh s) (restart_test s).
Definition with_ssh (c : option nat) (s : State) : State :=
  mkState (now s) (stdin s) (trace s) (excel s) (test_result s) c (restart_test s).
Definition with_restart_test (b : bool) (s : State) : State :=
  mkState (now s) (stdin s) (trace s) (excel s) (test_result s) (ssh s) b.

(** ** The monad: state, exceptions and loop control *)

Inductive Outcome (A : Type) : Type :=
| Ret (a : A)
| Raise (e : string)     (* a raised [Exception] with text [str(e)] *)
| Continue               (* [continue] of the session loop, pending *)
| Break.                 (* [break] of the session loop, pending *)
Arguments Ret {A} a.
Arguments Raise {A} e.
Arguments Continue {A}.
Arguments Break {A}.

Definition M (A : Type) : Type := State -> Outcome A * State.

Definition ret {A} (a : A) : M A := fun s => (Ret a, s).

Definition bind {A B} (m : M A) (k : A -> M B) : M B :=
  fun s =>
    match m s with
    | (Ret a, s') => k a s'
    | (Raise e, s') => (Raise e, s')
    | (Continue, s') => (Continue, s')
    | (Break, s') => (Break, s')
    end.

Definition raise {A} (e : string) : M A := fun s => (Raise e, s).
Definition loop_continue {A} : M A := fun s => (Continue, s).
Definition loop_break {A} : M A := fun s => (Break, s).

(** [try: body  except Exception as e: handler e] *)
Definition try_except {A} (body : M A) (handler : string -> M A) : M A :=
  fun s =>
    match body s with
    | (Raise e, s') => handler e s'
    | r => r
    end.

Definition gets {A} (f : State -> A) : M A := fun s => (Ret (f s), s).
Definition modify (f : State -> State) : M unit := fun s => (Ret tt, f s).

(** [if c: body] for a statement *)
Definition when (c : bool) (body : M unit) : M unit :=
  if c then body else ret tt.

Declare Scope prog_scope.
Delimit Scope prog_scope with prog.
Notation "'let*' x ':=' m 'in' k" := (bind m (fun x => k))
  (at level 10, x name, m at level 100, k at level 200) : prog_scope.
Notation "'let*' ' p ':=' m 'in' k" :=
  (bind m (fun x => match x with p => k end))
  (at level 10, p pattern, m at level 100, k at level 200) : prog_scope.
Notation "m ;; k" := (bind m (fun _ => k))
  (at level 100, k at level 200, right associativity) : prog_scope.
Local Open Scope prog_scope.

Definition EOF_TEXT : string := "EOF when reading a line".

(** ** Primitive interactions *)

Definition tick : M unit := modify (fun s => with_now (S (now s)) s).

Definition log_event (e : event) : M unit :=
  modify (fun s => with_trace (trace s ++ [e]) s).

(** [input(prompt)]: the next line of the operator, [EOFError] at the end. *)
Definition input (prompt : string) : M string :=
  fun s =>
    match stdin s with
    | [] => (Raise EOF_TEXT, s)
    | line :: rest =>
        (Ret line,
         with_now (S (now s))
           (with_trace (trace s ++ [EvInput prompt line]) (with_stdin rest s)))
    end.

(** [time.sleep(_)] *)
Definition sleep : M unit := tick.

(** Lift the answer of a collaborator into the monad. *)
Definition perform {A} (r : io A) : M A :=
  match r with
  | Returns a => ret a
  | Raises msg => raise msg
  end.

(** ** The program *)

Section Program.

Variable env : Env.

(** [time.time()] and [datetime.now()] *)
Definition time_time : M Q :=
  let* t := gets (fun s => clock env (now s)) in
  tick ;; ret t.

(** [int(time.time() - start_time)] *)
Definition elapsed_since (start_time : Q) : M Z :=
  let* t := time_time in
  ret (PyStr.int_of_float (t - start_time)).

Definition in_tests_to_run (test_id : string) : M bool :=
  gets (fun s => bool_decide (test_id ∈ tests_to_run (test_result s))).

Definition modify_test_result (f : TestResult -> TestResult) : M unit :=
  modify (fun s => with_test_result (f (test_result s)) s).

(** [test_result.notes += text] *)
Definition append_notes (text : string) : M unit :=
  modify_test_result (fun r =>
    mkTestResult (device_id r) (version r) (manufacture_id r) (timestamp r)
      (test_results r) (test_durations r) (tests_to_run r)
      (overall_pass r) (notes r +:+ text) (log_file r)).

(** [test_result.notes = text] *)
Definition assign_notes (text : string) : M unit :=
  modify_test_result (fun r =>
    mkTestResult (device_id r) (version r) (manufacture_id r) (timestamp r)
      (test_results r) (test_durations r) (tests_to_run r)
      (overall_pass r) text (log_file r)).

(** *** [TestResult.set_test_result] *)

(** ['PASS' if result else 'FAIL' if result is not None else 'SKIPPED'] *)
Definition status_text (result : py_result) : string :=
  if truthy result then "PASS"
  else if is_not_None result then "FAIL" else "SKIPPED".

(** The two assignments at the top of [set_test_result]. *)
Definition store_result (test_id : string) (result : py_result)
    (duration : option Z) (r : TestResult) : TestResult :=
  mkTestResult (device_id r) (version r) (manufacture_id r) (timestamp r)
    (<[test_id := result]> (test_results r))
    (match duration with
     | Some d => <[test_id := Some d]> (test_durations r)
     | None => test_durations r
     end)
    (tests_to_run r) (overall_pass r) (notes r) (log_file r).

Definition append_log (entry : LogEntry) (r : TestResult) : TestResult :=
  mkTestResult (device_id r) (version r) (manufacture_id r) (timestamp r)
    (test_results r) (test_durations r) (tests_to_run r)
    (overall_pass r) (notes r) (log_file r ++ [entry]).

Definition set_test_result (test_id : string) (result : py_result)
    (details : string) (duration : option Z) : M unit :=
  modify_test_result (store_result test_id result duration) ;;
  let status := status_text result in
  let* stamp := time_time in
  match TEST_IDS !! test_id with
  | None => raise ("KeyError: " +:+ test_id)
  | Some name =>
      modify_test_result
        (append_log (mkLogEntry stamp test_id name status duration details))
  end.

(** *** Operator prompts *)

(** The [while True] loop of [get_yes_no_input].  Every iteration reads one
    line with [input], which raises at the end of the input; [pending]
    mirrors the lines not yet read and only serves as the measure of the
    recursion. *)
Fixpoint yes_no_loop (prompt : string) (allow_continue_check : bool)
    (start_time : Q) (pending : list string) : M (py_result * Z) :=
  let* line := input (prompt +:+ " (y/n): ") in
  let response := PyStr.lower (PyStr.strip line) in
  if PyStr.is_yes response then
    let* d := elapsed_since start_time in ret (PyBool true, d)
  else if PyStr.is_no response then
    if allow_continue_check then
      let* line2 := input "Test failed. Do you want to continue testing? (y/n): " in
      let continue_test := PyStr.lower (PyStr.strip line2) in
      if negb (PyStr.is_yes continue_test) then
        let* d := elapsed_since start_time in ret (PyNone, d)
      else
        let* d := elapsed_since start_time in ret (PyBool false, d)
    else
      let* d := elapsed_since start_time in ret (PyBool false, d)
  else
    match pending with
    | _ :: rest => yes_no_loop prompt allow_continue_check start_time rest
    | [] => raise EOF_TEXT
    end.

Definition get_yes_no_input (prompt : string) (allow_continue_check : bool)
    : M (py_result * Z) :=
  let* start_time := time_time in
  let* pending := gets stdin in
  yes_no_loop prompt allow_continue_check start_time pending.

Definition wait_for_enter (prompt : string) : M unit :=
  input (prompt +:+ " Press Enter when ready: ") ;; ret tt.

(** [s.isdigit()]: decided here on a text of ASCII, by the interpreter's
    tables otherwise (digits of other scripts, superscripts, ...). *)
Definition isdigit (s : string) : bool :=
  if PyStr.is_ascii s then PyStr.isdigit s else unicode_isdigit env s.

(** [int(s)] for a text that [isdigit] accepts.  A text of ASCII digits has
    its value, unless it has more digits than the interpreter converts, and
    [int] raises [ValueError]; on the other texts [int] is the
    interpreter's, which reads the decimal digits of every script and raises
    [ValueError] on the digits that are not decimal. *)
Definition int_of_str (s : string) : M Z :=
  if PyStr.is_ascii s then
    let limit := int_max_str_digits env in
    if (0 <? limit)%nat && (limit <? String.length s)%nat then
      raise ("Exceeds the limit (" +:+ pretty limit
             +:+ " digits) for integer string conversion: value has "
             +:+ pretty (String.length s)
             +:+ " digits; use sys.set_int_max_str_digits() to increase the limit")
    else ret (PyStr.int_of_digits s)
  else
    match unicode_int env s with
    | Returns z => ret z
    | Raises e => raise e
    end.

(** The [while device_id is None] loop of [get_device_id_with_qr]; the
    camera is disabled, so version and manufacture id stay [None].  The
    conversion is not guarded: its [ValueError] leaves the function. *)
Fixpoint device_id_loop (pending : list string) : M Z :=
  let* id_input := input "Enter device ID (integer): " in
  if isdigit id_input then int_of_str id_input
  else
    match pending with
    | _ :: rest => device_id_loop rest
    | [] => raise EOF_TEXT
    end.

Definition get_device_id_with_qr : M (Z * option string * option string) :=
  let* pending := gets stdin in
  let* device_id := device_id_loop pending in
  ret (device_id, None, None).

(** *** Test selection *)

(** [select_tests_to_run]: the curses menu is a collaborator; when it
    raises, the text-mode fallback reads the ids to skip. *)
Definition select_tests_to_run : M (gset string) :=
  let* menu := gets (fun s => curses_menu env (now s)) in
  tick ;;
  match menu with
  | Returns selected => ret selected
  | Raises _ =>
      let* line := input "Tests to skip (e.g., T01,T05,T10): " in
      let skip_input := PyStr.strip line in
      if bool_decide (skip_input = "") then
        ret (list_to_set TEST_ID_KEYS)
      else
        let skip_tests : gset string :=
          list_to_set
            ((fun t => PyStr.upper (PyStr.strip t)) <$> PyStr.split "," skip_input) in
        ret (list_to_set TEST_ID_KEYS ∖ skip_tests)
  end.

(** *** Firmware upload *)

(** Fail T01 with [details] and the elapsed time; [return False]. *)
Definition fail_T01 (start_time : Q) (details : string) : M bool :=
  let* duration := elapsed_since start_time in
  set_test_result "T01" (PyBool false) details (Some duration) ;;
  ret false.

(** The [for] loop over [PYTHON_FILES]; [true] when it runs to its end,
    [false] when the function returned [False] from inside it. *)
Fixpoint upload_files (port : string) (start_time : Q) (files : list string)
    : M bool :=
  match files with
  | [] => ret true
  | filename :: rest =>
      let* present := gets (fun s => bhv_exists env (now s) filename) in
      tick ;;
      if negb present then upload_files port start_time rest
      else
        let* run := gets (fun s => ampy_put env (now s) port filename) in
        tick ;;
        match run with
        | Returns (returncode, _) =>
            if negb (Z.eqb returncode 0) then
              fail_T01 start_time ("Failed to upload " +:+ filename)
            else upload_files port start_time rest
        | Raises e =>
            fail_T01 start_time
              ("Exception uploading " +:+ filename +:+ ": " +:+ e)
        end
  end.

Definition wait_for_rp2_device : M (option string) :=
  let* v := gets (fun s => rp2_appears env (now s)) in tick ;; ret v.

Definition wait_for_rp2_disappear : M bool :=
  let* b := gets (fun s => rp2_disappears env (now s)) in tick ;; ret b.

Definition flash_uf2_file (uf2_filename : string) : M bool :=
  let* b := gets (fun s => flash_uf2 env (now s) uf2_filename) in tick ;; ret b.

Definition upload_firmware_wipe : M bool :=
  let* start_time := time_time in
  let* volume_path := wait_for_rp2_device in
  if negb (bool_decide (is_Some volume_path)) then
    fail_T01 start_time "No RPI-RP2 volume found"
  else
  let* nuked := flash_uf2_file FLASH_NUKE_UF2 in
  if negb nuked then fail_T01 start_time "Flash nuke failed"
  else
  let* gone := wait_for_rp2_disappear in
  if negb gone then
    fail_T01 start_time "Device did not disappear after flash nuke"
  else
  sleep ;;
  let* volume_path := wait_for_rp2_device in
  if negb (bool_decide (is_Some volume_path)) then
    fail_T01 start_time "Device did not reappear after flash nuke"
  else
  let* flashed := flash_uf2_file MICROPYTHON_UF2 in
  if negb flashed then fail_T01 start_time "MicroPython firmware flash failed"
  else
  wait_for_rp2_disappear ;;
  sleep ;;
  let* ports := gets (fun s => uart_ports env (now s)) in
  tick ;;
  match ports with
  | [] => fail_T01 start_time "No UART port found"
  | port :: _ =>
      let* uploaded := upload_files port start_time PYTHON_FILES in
      if negb uploaded then ret false
      else
        let* duration := elapsed_since start_time in
        set_test_result "T01" (PyBool true) "All files uploaded successfully"
          (Some duration) ;;
        ret true
  end.

(** *** SSH helpers *)

Definition NONE_HAS_NO (attr : string) : string :=
  "'NoneType' object has no attribute '" +:+ attr +:+ "'".

(** [ssh.close()] *)
Definition ssh_close : M unit := log_event EvClose.

(** [if ssh: ssh.close()] *)
Definition close_if_open : M unit :=
  let* c := gets ssh in
  when (bool_decide (is_Some c)) ssh_close.

Definition ssh_execute_command (ssh_client : option nat) (command : string)
    (send_enter : bool) : M (string * string) :=
  try_except
    (match ssh_client with
     | None => raise (NONE_HAS_NO "exec_command")
     | Some _ =>
         let* b := gets (fun s => ssh_exec env (now s) command) in
         tick ;;
         log_event (EvExec command) ;;
         perform (exec_call b) ;;
         when send_enter (perform (stdin_write b)) ;;
         let* output := perform (stdout_text b) in
         let* error := perform (stderr_text b) in
         ret (output, error)
     end)
    (fun e => ret ("", "SSH_ERROR: " +:+ e)).

(** The shell round of [ssh_execute_interactive]: open the shell, send the
    command and the Enter presses, drain the buffered output, close. *)
Definition ssh_execute_interactive (ssh_client : option nat)
    (command : string) (num_enters : nat) : M (string * string) :=
  try_except
    (match ssh_client with
     | None => raise (NONE_HAS_NO "invoke_shell")
     | Some _ =>
         let* r := gets (fun s => ssh_shell env (now s) command num_enters) in
         tick ;;
         log_event (EvShell command num_enters) ;;
         let* chunks := perform r in
         ret (foldr String.app "" chunks, "")
     end)
    (fun e => ret ("", e)).

(** The [for attempt in range(max_attempts)] loop of [reconnect_ssh], from
    iteration [attempt] on, with [remaining] iterations left. *)
Fixpoint reconnect_loop (max_attempts attempt remaining : nat)
    : M (option nat) :=
  match remaining with
  | O => ret None
  | S remaining' =>
      let* t := gets now in
      let r := ssh_connect env t in
      tick ;;
      log_event (EvConnect r) ;;
      match r with
      | Returns _ => ret (Some t)
      | Raises _ =>
          if Nat.ltb attempt (max_attempts - 1) then
            wait_for_enter "Press Enter to retry SSH connection" ;;
            reconnect_loop max_attempts (S attempt) remaining'
          else ret None
      end
  end.

Definition reconnect_ssh (max_attempts : nat) : M (option nat) :=
  reconnect_loop max_attempts 0 max_attempts.

(** [ssh = reconnect_ssh(test_result)] *)
Definition assign_ssh (max_attempts : nat) : M (option nat) :=
  let* c := reconnect_ssh max_attempts in
  modify (with_ssh c) ;; ret c.

(** *** The SSH test group *)

Definition SSH_TEST_IDS : list string :=
  ["T09"; "T10"; "T11"; "T12"; "T13"; "T14"].

(** Mark the selected SSH tests as failed, in the order of the list. *)
Fixpoint fail_ssh_tests (ids : list string) : M unit :=
  match ids with
  | [] => ret tt
  | test_id :: rest =>
      let* selected := in_tests_to_run test_id in
      when selected
        (set_test_result test_id (PyBool false) "SSH connection failed" (Some 0)) ;;
      fail_ssh_tests rest
  end.

(** A plain command followed by the reconnect-and-retry block that follows
    [lsusb], [lsblk] and [libcamera-hello] in the source; [on_failure] is
    the [else] branch taken when the reconnection fails. *)
Definition run_with_reconnect (command : string) (on_failure : M unit)
    : M (string * string) :=
  let* c := gets ssh in
  let* '(output, error) := ssh_execute_command c command false in
  if PyStr.str_in "SSH_ERROR" error then
    close_if_open ;;
    let* c' := assign_ssh 5 in
    match c' with
    | Some _ => ssh_execute_command c' command false
    | None => on_failure ;; ret (output, error)
    end
  else ret (output, error).

(** "Test 1: Check USB devices": T09, T10, T11 *)
Definition ssh_usb_tests : M unit :=
  let* '(output, error) := run_with_reconnect "lsusb" (ret tt) in
  (let* selected := in_tests_to_run "T09" in
   when selected
     (let* start_time := time_time in
      sleep ;;
      let usb_micropython := PyStr.str_in "MicroPython Board in FS mode" output in
      let* duration := elapsed_since start_time in
      set_test_result "T09" (PyBool usb_micropython)
        ("lsusb output: " +:+ PyStr.take 100 output +:+ "...") (Some duration))) ;;
  (let* selected := in_tests_to_run "T10" in
   when selected
     (let* start_time := time_time in
      let usb_hub := PyStr.str_in "QinHeng Electronics USB HUB" output in
      let* duration := elapsed_since start_time in
      set_test_result "T10" (PyBool usb_hub) "" (Some duration))) ;;
  (let* selected := in_tests_to_run "T11" in
   when selected
     (let* start_time := time_time in
      let usb_media :=
        PyStr.str_in "Microchip Technology, Inc. (formerly SMSC) Ultra Fast Media" output in
      let* duration := elapsed_since start_time in
      set_test_result "T11" (PyBool usb_media) "" (Some duration))).

(** "Test 2: RGB LED test": T12 *)
Definition ssh_rgb_led_test : M unit :=
  let* selected := in_tests_to_run "T12" in
  when selected
    (let* start_time := time_time in
     let* c := gets ssh in
     let* '(check_output, check_error) :=
       ssh_execute_command c
         ("test -f " +:+ RGB_LED_TEST_PATH +:+ " && echo 'EXISTS' || echo 'NOT_FOUND'")
         false in
     if PyStr.str_in "NOT_FOUND" check_output then
       let* duration := elapsed_since start_time in
       set_test_result "T12" (PyBool false) "Script not found" (Some duration)
     else
       let command := "python3 " +:+ RGB_LED_TEST_PATH in
       let* '(output, error) :=
         ssh_execute_interactive c command RGB_LED_NUM_ENTERS in
       (if PyStr.str_in "SSH_ERROR" error then
          close_if_open ;;
          let* c' := assign_ssh 5 in
          match c' with
          | Some _ =>
              ssh_execute_interactive c' command RGB_LED_NUM_ENTERS ;; ret tt
          | None => ret tt
          end
        else ret tt) ;;
       sleep ;;
       let* '(rgb_led_result, question_duration) :=
         get_yes_no_input
           "Did you see the RGB LED cycle through different colors?" false in
       let* total_duration := elapsed_since start_time in
       set_test_result "T12" rgb_led_result "" (Some total_duration)).

(** "Test 3: Check SD card": T13 *)
Definition ssh_sd_card_test : M unit :=
  let* selected := in_tests_to_run "T13" in
  when selected
    (let* start_time := time_time in
     sleep ;;
     let* '(output, error) :=
       run_with_reconnect "lsblk"
         (let* duration := elapsed_since start_time in
          set_test_result "T13" (PyBool false) "SSH reconnection failed"
            (Some duration)) in
     let* c := gets ssh in
     when (bool_decide (is_Some c) && negb (PyStr.str_in "SSH_ERROR" error))
       (let sd_card_result := PyStr.str_in "sda1" output in
        let* duration := elapsed_since start_time in
        set_test_result "T13" (PyBool sd_card_result)
          ("lsblk output: " +:+ PyStr.take 100 output +:+ "...") (Some duration))).

(** "Test 4: Check camera": T14 *)
Definition ssh_camera_test : M unit :=
  let* selected := in_tests_to_run "T14" in
  when selected
    (let* start_time := time_time in
     let* '(output, error) :=
       run_with_reconnect "libcamera-hello"
         (let* duration := elapsed_since start_time in
          set_test_result "T14" (PyBool false) "SSH reconnection failed"
            (Some duration)) in
     let* c := gets ssh in
     when (bool_decide (is_Some c) && negb (PyStr.str_in "SSH_ERROR" error))
       (let camera_result :=
          negb (PyStr.str_in "ERROR: *** no cameras available ***" error) in
        let* duration := elapsed_since start_time in
        set_test_result "T14" (PyBool camera_result)
          (if bool_decide (error = "") then "Camera OK" else PyStr.take 100 error)
          (Some duration))).

Definition perform_ssh_tests : M bool :=
  let* c := assign_ssh 5 in
  match c with
  | None =>
      append_notes " Initial SSH connection failed after 5 attempts." ;;
      fail_ssh_tests SSH_TEST_IDS ;;
      ret false
  | Some _ =>
      try_except
        (ssh_usb_tests ;;
         ssh_rgb_led_test ;;
         ssh_sd_card_test ;;
         ssh_camera_test ;;
         close_if_open ;;
         ret true)
        (fun e =>
           append_notes (" SSH error: " +:+ e) ;;
           close_if_open ;;
           ret true)
  end.

(** *** The report *)

(** [[v for v in test_results.values() if v is not None]] *)
Definition test_results_values (r : TestResult) : list py_result :=
  filter (fun v => is_not_None v = true) (map_to_list (test_results r)).*2.

(** [all(values) if values else False] *)
Definition compute_overall_pass (r : TestResult) : bool :=
  match test_results_values r with
  | [] => false
  | values => forallb truthy values
  end.

Definition assign_overall_pass (b : bool) (r : TestResult) : TestResult :=
  mkTestResult (device_id r) (version r) (manufacture_id r) (timestamp r)
    (test_results r) (test_durations r) (tests_to_run r)
    b (notes r) (log_file r).

(** The text of a test's result cell. *)
Definition result_cell (result : option py_result) : string :=
  match result with
  | Some PySKIPPED => "SKIPPED"
  | None | Some PyNone => "NOT RUN"
  | Some (PyBool b) => if b then "PASS" else "FAIL"
  end.

(** The value of a test's duration cell. *)
Definition duration_cell (result : option py_result)
    (duration : option (option Z)) : Z :=
  match result with
  | Some PySKIPPED | None | Some PyNone => 0
  | Some (PyBool _) =>
      match duration with
      | Some (Some d) => d
      | _ => 0
      end
  end.

Fixpoint join (sep : string) (l : list string) : string :=
  match l with
  | [] => ""
  | [x] => x
  | x :: rest => x +:+ sep +:+ join sep rest
  end.

(** The failed tests, in the order in which [__init__] filled the
    dictionary, which is the order of the catalog. *)
Definition failed_tests (r : TestResult) : list string :=
  omap (fun '(tid, name) =>
          match test_results r !! tid with
          | Some (PyBool false) => Some (tid +:+ "(" +:+ name +:+ ")")
          | _ => None
          end) TEST_ID_ITEMS.

Definition make_row (r : TestResult) : Row :=
  {| row_device_id := device_id r;
     row_version := default "" (version r);
     row_manufacture_id := default "" (manufacture_id r);
     row_timestamp := timestamp r;
     row_tests :=
       (fun tid => (tid, result_cell (test_results r !! tid))) <$> TEST_ID_KEYS;
     row_failed_tests :=
       match failed_tests r with
       | [] => "None"
       | l => join ", " l
       end;
     row_overall_pass := overall_pass r;
     row_notes := notes r;
     row_durations :=
       (fun tid => (tid, duration_cell (test_results r !! tid)
                           (test_durations r !! tid))) <$> TEST_ID_KEYS |}.

(** [save_to_excel]: compute [overall_pass], then append one row to the
    workbook (the existing rows are read back and kept).  The write is taken
    to succeed.  Left out: the errors of the file system, the
    [IllegalCharacterError] of openpyxl on a control character in a cell
    (the notes can carry the text of an exception), and the [KeyError] of
    the failed-tests summary on a key outside the catalog with the status
    False, a key that no step of the session stores ([failed_tests] goes
    through the catalog, which is the order of the dictionary for the keys
    of the catalog). *)
Definition save_to_excel : M unit :=
  modify_test_result (fun r => assign_overall_pass (compute_overall_pass r) r) ;;
  modify (fun s => with_excel (excel s ++ [make_row (test_result s)]) s).

(** *** The session loop *)

(** [any(test in tests_to_run for test in tests)] *)
Definition any_selected (tests : list string) : M bool :=
  gets (fun s =>
    existsb (fun t => bool_decide (t ∈ tests_to_run (test_result s))) tests).

(** The block repeated for T02, T03, T04, T05, T06 and T07: ask the
    operator; on the restart signal save the ledger and [continue]; otherwise
    record the answer.  Returns the recorded answer. *)
Definition operator_check (test_id prompt : string) : M py_result :=
  let* '(result, duration) := get_yes_no_input prompt true in
  match result with
  | PyNone =>
      modify (with_restart_test true) ;;
      save_to_excel ;;
      loop_continue
  | _ =>
      set_test_result test_id result "" (Some duration) ;;
      ret result
  end.

(** Step 1 of [main]: firmware upload. *)
Definition firmware_step : M unit :=
  let* selected := in_tests_to_run "T01" in
  when selected
    (wait_for_enter "Put the board into bootloader mode and connect to computer." ;;
     let* firmware_success := upload_firmware_wipe in
     when (negb firmware_success)
       (assign_notes "Firmware upload failed" ;;
        save_to_excel ;;
        loop_continue)).

(** Steps 2 and 3 of [main]: hardware assembly and visual checks. *)
Definition visual_steps : M unit :=
  (let* hardware := any_selected ["T02"; "T03"; "T04"; "T05"; "T06"; "T07"] in
   when hardware
     (wait_for_enter
        "Unplug the board and insert: battery, camera module, e-ink display, SD card, and CM5.")) ;;
  (let* selected := in_tests_to_run "T02" in
   when selected (operator_check "T02" "Does the CM5 LED light up?" ;; ret tt)) ;;
  (let* selected := in_tests_to_run "T03" in
   when selected (operator_check "T03" "Does the RGB LED light up?" ;; ret tt)) ;;
  (let* selected := in_tests_to_run "T04" in
   when selected
     (operator_check "T04" "Does the e-ink bootup screen appear?" ;; ret tt)).

(** Step 4 of [main]: the CM5 UI tests. *)
Definition ui_steps : M unit :=
  let* t05 := in_tests_to_run "T05" in
  let* ui_appears :=
    (if t05 then
       let* result :=
         operator_check "T05"
           "Wait for WIFI UI to show up. Does the WIFI UI appear?" in
       ret (truthy result)
     else ret false) in
  when (ui_appears || negb t05)
    ((let* selected := in_tests_to_run "T06" in
      when selected
        (operator_check "T06" "Press a button. Does the button show on dmesg?" ;;
         ret tt)) ;;
     (let* selected := in_tests_to_run "T07" in
      when selected
        (operator_check "T07" "Was your voice successfully transcribed?" ;;
         ret tt))).

(** Step 5 of [main]: the SSH tests. *)
Definition ssh_step : M unit :=
  let* any_ssh := any_selected SSH_TEST_IDS in
  when any_ssh
    (let* ok := perform_ssh_tests in
     when (negb ok) (append_notes " SSH tests incomplete.")).

(** The optional shutdown of the CM5. *)
Definition shutdown_step : M unit :=
  let* line := input "Press Enter to safely shutdown the CM5, or 'n' to skip: " in
  let shutdown_response := PyStr.lower (PyStr.strip line) in
  when (negb (bool_decide (shutdown_response = "n")))
    (try_except
       (let* c := reconnect_ssh 3 in
        match c with
        | Some _ =>
            ssh_execute_command c "sudo shutdown now" false ;;
            ssh_close
        | None => ret tt
        end)
       (fun _ => ret tt)).

(** The body of the inner [try] of [main]. *)
Definition session_steps : M unit :=
  firmware_step ;;
  visual_steps ;;
  ui_steps ;;
  ssh_step ;;
  save_to_excel ;;
  shutdown_step ;;
  let* line := input "Do you want to test another device? (y/n): " in
  let another := PyStr.lower (PyStr.strip line) in
  when (negb (PyStr.is_yes another)) loop_break.

(** The handler [except Exception as e] of the inner [try]. *)
Definition session_on_error (e : string) : M unit :=
  append_notes (" Error: " +:+ e) ;;
  save_to_excel ;;
  input "Press Enter to restart testing..." ;;
  ret tt.

(** [TestResult(device_id, tests_to_run, version, manufacture_id)] bound
    to [test_result]. *)
Definition new_test_result (dev : Z) (sel : gset string)
    (ver man : option string) : M unit :=
  let* stamp := time_time in
  modify (with_test_result (TestResult_init stamp dev sel ver man)).

(** One iteration of the [while True] loop of [main]. *)
Definition session : M unit :=
  let* selection := select_tests_to_run in
  let* '(dev, ver, man) := get_device_id_with_qr in
  new_test_result dev selection ver man ;;
  modify (with_restart_test false) ;;
  try_except session_steps session_on_error.

(** The [while True] loop of [main], for at most [fuel] iterations: [None]
    when the iterations are used up, otherwise how the loop was left. *)
Fixpoint main_loop (fuel : nat) (s : State) : option (Outcome unit * State) :=
  match fuel with
  | O => None
  | S fuel' =>
      match session s with
      | (Ret _, s') | (Continue, s') => main_loop fuel' s'
      | (Break, s') => Some (Ret tt, s')
      | (Raise e, s') => Some (Raise e, s')
      end
  end.

(** [main]: every iteration reads at least one line, or leaves the loop. *)
Definition main (s : State) : option (Outcome unit * State) :=
  main_loop (S (length (stdin s))) s.

End Program.

(** ** The selection menu

    [menu], the function that [select_tests_to_run] hands to
    [curses.wrapper], against a terminal that is given round by round: the
    size of the screen, what [addstr] does and what [getch] returns.
    [stdscr.clear], [attron] and [attroff] change nothing that the loop
    reads and are left out. *)

(** [curses.KEY_UP] and [curses.KEY_DOWN] *)
Definition KEY_UP : Z := 259.
Definition KEY_DOWN : Z := 258.

Definition MENU_TITLE : string :=
  "Select Tests to Run (Space to toggle, Enter to confirm, A to select all, N to select none)".
Definition MENU_HELP : string :=
  "Use ↑/↓ to navigate, Space to toggle, Enter to confirm".

(** The terminal during one round of the loop. *)
Record Frame : Type := mkFrame {
  getmaxyx : Z * Z;                        (* [stdscr.getmaxyx()]: height, width *)
  addstr : Z -> Z -> string -> io unit;    (* [stdscr.addstr(y, x, text)] *)
  getch : io Z                             (* [stdscr.getch()] *)
}.

(** The [for] loop that displays the tests, from the row [idx] on. *)
Fixpoint draw_rows (f : Frame) (height : Z) (selected_tests : gset string)
    (idx : nat) (items : list (string * string)) : io unit :=
  match items with
  | [] => Returns tt
  | (test_id, test_name) :: rest =>
      let y := Z.of_nat idx + 2 in
      if height - 2 <=? y then Returns tt
      else
        let checkbox :=
          if bool_decide (test_id ∈ selected_tests) then "[X]" else "[ ]" in
        match addstr f y 2 (checkbox +:+ " " +:+ test_id +:+ ": " +:+ test_name) with
        | Raises e => Raises e
        | Returns _ => draw_rows f height selected_tests (S idx) rest
        end
  end.

(** The [while True] loop of [menu].  The result is [None] when the rounds
    end while the menu is still open: it then waits for the next key. *)
Fixpoint menu_loop (frames : list Frame) (selected_tests : gset string)
    (current_row : nat) : option (io (gset string)) :=
  match frames with
  | [] => None
  | f :: rest =>
      let '(height, width) := getmaxyx f in
      match addstr f 0 ((width - Z.of_nat (PyStr.len MENU_TITLE)) / 2) MENU_TITLE with
      | Raises e => Some (Raises e)
      | Returns _ =>
      match draw_rows f height selected_tests 0 TEST_ID_ITEMS with
      | Raises e => Some (Raises e)
      | Returns _ =>
      match addstr f (height - 1) 2 MENU_HELP with
      | Raises e => Some (Raises e)
      | Returns _ =>
      match getch f with
      | Raises e => Some (Raises e)
      | Returns key =>
          if (key =? KEY_UP) && (0 <? current_row)%nat then
            menu_loop rest selected_tests (current_row - 1)
          else if (key =? KEY_DOWN) && (current_row <? length TEST_ID_KEYS - 1)%nat then
            menu_loop rest selected_tests (current_row + 1)
          else if key =? 32 then
            match TEST_ID_KEYS !! current_row with
            | None => Some (Raises "list index out of range")
            | Some test_id =>
                if bool_decide (test_id ∈ selected_tests) then
                  menu_loop rest (selected_tests ∖ {[test_id]}) current_row
                else
                  menu_loop rest (selected_tests ∪ {[test_id]}) current_row
            end
          else if (key =? 97) || (key =? 65) then
            menu_loop rest (list_to_set TEST_ID_KEYS) current_row
          else if (key =? 110) || (key =? 78) then
            menu_loop rest ∅ current_row
          else if key =? 10 then Some (Returns selected_tests)
          else if key =? 27 then Some (Returns (list_to_set TEST_ID_KEYS))
          else menu_loop rest selected_tests current_row
      end end end end
  end.

(** [menu]: the cursor is hidden ([curs_set] is what [curses.curs_set(0)]
    does), every test is selected and the first row is current. *)
Definition menu (curs_set : io unit) (frames : list Frame)
    : option (io (gset string)) :=
  match curs_set with
  | Raises e => Some (Raises e)
  | Returns _ => menu_loop frames (list_to_set TEST_ID_KEYS) 0
  end.

(** ** The RP2 volume on the host

    The four functions that look for the RP2 boot volume and copy a UF2
    file to it, against the host's file system and clock.  In the session
    model above they are collaborators of [upload_firmware_wipe]; here their
    own code is embedded. *)

Module Volume.

Definition UF2_DIRECTORY : string := "ULP".
Definition VOLUME_PATHS : list string :=
  ["/Volumes/RPI-RP2 1"; "/Volumes/RPI-RP2"].

(** The file system at one moment. *)
Record FS : Type := mkFS {
  path_exists : string -> bool;                (* [os.path.exists] *)
  listdir : string -> io (list string);        (* [os.listdir], or [OSError] *)
  copy2 : string -> string -> io unit          (* [shutil.copy2] *)
}.

(** The host, as functions of the logical instant of the call. *)
Record Host : Type := mkHost {
  host_clock : nat -> Q;                       (* [time.time()] *)
  host_fs : nat -> FS
}.

(** [os.path.join a b] for two components *)
Definition path_join (a b : string) : string :=
  if String.prefix "/" b then b
  else if bool_decide (a = "") then b
  else if String.prefix "/" (String.rev a) then a +:+ b
  else a +:+ "/" +:+ b.

(** The [for] loop of [find_rp2_volume]. *)
Fixpoint find_in (fs : FS) (paths : list string) : option string :=
  match paths with
  | [] => None
  | volume_path :: rest =>
      if path_exists fs volume_path then
        match listdir fs volume_path with
        | Returns files =>
            if bool_decide ("INFO_UF2.TXT" ∈ files) then Some volume_path
            else find_in fs rest
        | Raises _ => find_in fs rest
        end
      else find_in fs rest
  end.

Definition find_rp2_volume (fs : FS) : option string :=
  find_in fs VOLUME_PATHS.

(** The [while] loop of [wait_for_rp2_device] from the instant [n] on, for
    at most [fuel] iterations: the volume found or [None] at the timeout,
    with the instant after the loop; no result when the iterations are used
    up.  One iteration reads the clock, looks for the volume and sleeps. *)
Fixpoint wait_for_rp2_device_loop (h : Host) (start_time timeout : Q)
    (fuel n : nat) : option (option string * nat) :=
  match fuel with
  | O => None
  | S fuel' =>
      if Qlt_le_dec (host_clock h n - start_time) timeout then
        match find_rp2_volume (host_fs h (S n)) with
        | Some volume_path => Some (Some volume_path, S (S n))
        | None =>
            wait_for_rp2_device_loop h start_time timeout fuel' (S (S (S n)))
        end
      else Some (None, S n)
  end.

Definition wait_for_rp2_device (h : Host) (timeout : Q) (fuel n : nat)
    : option (option string * nat) :=
  wait_for_rp2_device_loop h (host_clock h n) timeout fuel (S n).

(** Likewise the loop of [wait_for_rp2_disappear]. *)
Fixpoint wait_for_rp2_disappear_loop (h : Host) (start_time timeout : Q)
    (fuel n : nat) : option (bool * nat) :=
  match fuel with
  | O => None
  | S fuel' =>
      if Qlt_le_dec (host_clock h n - start_time) timeout then
        match find_rp2_volume (host_fs h (S n)) with
        | None => Some (true, S (S n))
        | Some _ =>
            wait_for_rp2_disappear_loop h start_time timeout fuel' (S (S (S n)))
        end
      else Some (false, S n)
  end.

Definition wait_for_rp2_disappear (h : Host) (timeout : Q) (fuel n : nat)
    : option (bool * nat) :=
  wait_for_rp2_disappear_loop h (host_clock h n) timeout fuel (S n).

Definition flash_uf2_file (fs : FS) (uf2_filename : string) : bool :=
  let uf2_path := path_join UF2_DIRECTORY uf2_filename in
  if negb (path_exists fs uf2_path) then false
  else
    match find_rp2_volume fs with
    | None => false
    | Some volume_path =>
        let dest_path := path_join volume_path uf2_filename in
        match copy2 fs uf2_path dest_path with
        | Returns _ => true
        | Raises e =>
            PyStr.str_in "RPI_PICO" uf2_filename
            && PyStr.str_in "Invalid argument" e
        end
    end.

(** A path on which the RP2 boot volume is mounted and readable. *)
Definition mounted (fs : FS) (volume_path : string) : Prop :=
  path_exists fs volume_path = true ∧
  ∃ files, listdir fs volume_path = Returns files ∧ "INFO_UF2.TXT" ∈ files.

End Volume.

(** ** Vocabulary of the statements *)

(** The exception, if any, that one [exec_command] round raises inside the
    [try] of [ssh_execute_command], in the order of its statements. *)
Definition first_exception (ssh_client : option nat) (b : exec_behaviour)
    (send_enter : bool) : option string :=
  match ssh_client with
  | None => Some (NONE_HAS_NO "exec_command")
  | Some _ =>
      match exec_call b with
      | Raises e => Some e
      | Returns _ =>
          match (if send_enter then stdin_write b else Returns tt) with
          | Raises e => Some e
          | Returns _ =>
              match stdout_text b with
              | Raises e => Some e
              | Returns _ =>
                  match stderr_text b with
                  | Raises e => Some e
                  | Returns _ => None
                  end
              end
          end
      end
  end.

(** The operator's first line that answers a yes/no prompt: [true] for
    y/yes, [false] for n/no. *)
Fixpoint first_answer (lines : list string) : option bool :=
  match lines with
  | [] => None
  | line :: rest =>
      let response := PyStr.lower (PyStr.strip line) in
      if PyStr.is_yes response then Some true
      else if PyStr.is_no response then Some false
      else first_answer rest
  end.

Global Instance io_eq_dec `{EqDecision A} : EqDecision (io A).
Proof. solve_decision. Defined.
Global Instance event_eq_dec : EqDecision event.
Proof. solve_decision. Defined.

Definition is_exec_of (command : string) (e : event) : bool :=
  bool_decide (e = EvExec command).

Definition is_connect (e : event) : bool :=
  match e with EvConnect _ => true | _ => false end.

(** How often [command] was sent with [exec_command] in a trace. *)
Definition executions (command : string) (t : list event) : nat :=
  length (List.filter (is_exec_of command) t).

(** How many [ssh.connect] attempts a trace holds. *)
Definition connect_attempts (t : list event) : nat :=
  length (List.filter is_connect t).

(** A computation keeps [I] when [I] holds of the state it leaves, however it
    ends (return, exception, [continue] or [break]). *)
Definition preserves {A} (I : State -> Prop) (m : M A) : Prop :=
  forall s, I s -> I (m s).2.

(** A computation that never leaves a pending [continue] or [break]. *)
Definition no_loop_control {A} (m : M A) : Prop :=
  forall s, (m s).1 <> Continue /\ (m s).1 <> Break.

(** Which components of the state a predicate does not look at. *)
Class NowStable (I : State -> Prop) : Prop :=
  now_stable : forall n s, I s -> I (with_now n s).
Class StdinStable (I : State -> Prop) : Prop :=
  stdin_stable : forall l s, I s -> I (with_stdin l s).
Class TraceStable (I : State -> Prop) : Prop :=
  trace_stable : forall t s, I s -> I (with_trace t s).
Class SshStable (I : State -> Prop) : Prop :=
  ssh_stable : forall c s, I s -> I (with_ssh c s).
Class RestartStable (I : State -> Prop) : Prop :=
  restart_stable : forall b s, I s -> I (with_restart_test b s).
Class LedgerStable (I : State -> Prop) : Prop :=
  ledger_stable : forall r s, I s -> I (with_test_result r s).
Class ExcelStable (I : State -> Prop) : Prop :=
  excel_stable : forall x s, I s -> I (with_excel x s).

(** A predicate that survives reading a line of input. *)
Class InputStable (I : State -> Prop) : Prop :=
  input_stable : forall prompt, preserves I (input prompt).

(** The ledger invariant of a session with selection [sel]: the selection
    is the one the ledger was built with, every catalog entry outside it is
    Skipped with duration 0, and no log line was written for it. *)
Definition skipped_frozen (sel : gset string) (r : TestResult) : Prop :=
  tests_to_run r = sel /\
  forall tid, tid ∈ TEST_ID_KEYS -> tid ∉ sel ->
    test_results r !! tid = Some PySKIPPED /\
    test_durations r !! tid = Some (Some 0) /\
    Forall (fun entry => log_test_id entry <> tid) (log_file r).

(** What a row of the workbook shows for a test outside [sel]. *)
Definition row_shows_skipped (sel : gset string) (row : Row) : Prop :=
  forall tid, tid ∈ TEST_ID_KEYS -> tid ∉ sel ->
    (tid, "SKIPPED") ∈ row_tests row /\ (tid, 0) ∈ row_durations row.

(** The ledger after T01 was recorded once, from the ledger [r0]. *)
Definition T01_recorded (b : bool) (r0 r : TestResult) : Prop :=
  ∃ t d details,
    r = append_log
          (mkLogEntry t "T01" "Firmware Upload" (if b then "PASS" else "FAIL")
             (Some d) details)
          (store_result "T01" (PyBool b) (Some d) r0).

(** The parts of the state that the operator and the network can see. *)
Definition same_io (s0 s : State) : Prop :=
  stdin s = stdin s0 ∧ trace s = trace s0 ∧ excel s = excel s0 ∧
  ssh s = ssh s0 ∧ restart_test s = restart_test s0.

(** What a computation can return. *)
Definition returns_only {A} (Q : A → Prop) (m : M A) : Prop :=
  ∀ s a s', m s = (Ret a, s') → Q a.

(** The ledger and the workbook. *)
Definition same_ledger (s0 s : State) : Prop :=
  test_result s = test_result s0 ∧ excel s = excel s0.

Definition UI_PROMPT : string :=
  "Wait for WIFI UI to show up. Does the WIFI UI appear?".

(** The gate of the UI group, on the ledger [r]: T05 is not selected, or it
    passed. *)
Definition gate_open (r : TestResult) : Prop :=
  "T05" ∉ tests_to_run r ∨ test_results r !! "T05" = Some (PyBool true).

(** The ledger after [fail_ssh_tests ids], from the ledger [r0]. *)
Definition ssh_tests_failed (ids : list string) (r0 r : TestResult) : Prop :=
  tests_to_run r = tests_to_run r0 ∧ notes r = notes r0 ∧
  (∀ tid, tid ∈ ids → tid ∈ tests_to_run r0 →
     test_results r !! tid = Some (PyBool false) ∧
     test_durations r !! tid = Some (Some 0) ∧
     ∃ entry, entry ∈ log_file r ∧ log_test_id entry = tid ∧
              log_status entry = "FAIL" ∧
              log_details entry = "SSH connection failed") ∧
  (∀ tid, ¬ (tid ∈ ids ∧ tid ∈ tests_to_run r0) →
     test_results r !! tid = test_results r0 !! tid ∧
     test_durations r !! tid = test_durations r0 !! tid) ∧
  (∀ entry, entry ∈ log_file r0 → entry ∈ log_file r).

(** The invariant of a session with selection [sel], started when the
    workbook held the rows [base]. *)
Definition session_inv (sel : gset string) (base : list Row) (s : State) : Prop :=
  skipped_frozen sel (test_result s) ∧
  ∃ rows, excel s = base ++ rows ∧ Forall (row_shows_skipped sel) rows.

(** At most [n] lines of input are left. *)
Definition stdin_within (n : nat) (s : State) : Prop :=
  (length (stdin s) ≤ n)%nat.

(** The question that follows a No, in [get_yes_no_input]. *)
Definition CONTINUE_PROMPT : string :=
  "Test failed. Do you want to continue testing? (y/n): ".

(** The prompts of the program other than those of the operator checks of
    T02..T07 and the question that follows a No. *)
Definition MUNDANE_PROMPTS : list string :=
  [ "Tests to skip (e.g., T01,T05,T10): ";
    "Enter device ID (integer): ";
    "Put the board into bootloader mode and connect to computer. Press Enter when ready: ";
    "Unplug the board and insert: battery, camera module, e-ink display, SD card, and CM5. Press Enter when ready: ";
    "Press Enter to retry SSH connection Press Enter when ready: ";
    "Did you see the RGB LED cycle through different colors? (y/n): ";
    "Press Enter to safely shutdown the CM5, or 'n' to skip: ";
    "Do you want to test another device? (y/n): ";
    "Press Enter to restart testing..." ].

(** The tests that are recorded without an operator check. *)
Definition MUNDANE_IDS : list string := "T01" :: SSH_TEST_IDS.

(** The entry of [tid] is the same in both ledgers: status, duration and
    log lines. *)
Definition same_entry (tid : string) (r r' : TestResult) : Prop :=
  test_results r' !! tid = test_results r !! tid ∧
  test_durations r' !! tid = test_durations r !! tid ∧
  filter (λ e, log_test_id e = tid) (log_file r')
    = filter (λ e, log_test_id e = tid) (log_file r).

(** From [s] to [s']: the trace has grown by events of [ev] only, the
    selection is the same, the entries of the tests outside [ids] are the
    same and, when [strict], so are the restart flag and the workbook. *)
Definition within (ev : event → Prop) (ids : string → Prop) (strict : bool)
    (s s' : State) : Prop :=
  (∃ t, trace s' = trace s ++ t ∧ Forall ev t) ∧
  tests_to_run (test_result s') = tests_to_run (test_result s) ∧
  (∀ tid, ¬ ids tid → same_entry tid (test_result s) (test_result s')) ∧
  (strict = true → restart_test s' = restart_test s ∧ excel s' = excel s).

(** A computation that stays [within] these bounds, however it ends. *)
Definition footprint (ev : event → Prop) (ids : string → Prop) (strict : bool)
    {A} (m : M A) : Prop :=
  ∀ s, within ev ids strict s (m s).2.

(** The operator declines to continue: an answer to the question that
    follows a No, other than y or yes. *)
Definition declined (e : event) : bool :=
  match e with
  | EvInput p line =>
      bool_decide (p = CONTINUE_PROMPT)
      && negb (PyStr.is_yes (PyStr.lower (PyStr.strip line)))
  | _ => false
  end.

(** No decline since the trace was [t0]. *)
Definition undeclined (t0 : list event) (s : State) : Prop :=
  ∃ t, trace s = t0 ++ t ∧ Forall (λ e, declined e = false) t.

(** A session under way: no decline yet, no restart asked, nothing saved. *)
Definition under_way (t0 : list event) (x0 : list Row) (s : State) : Prop :=
  undeclined t0 s ∧ restart_test s = false ∧ excel s = x0.

(** The No and the decline are the last two interactions. *)
Definition just_declined (t0 : list event) (s : State) : Prop :=
  ∃ t prompt a b,
    trace s = t0 ++ t ++ [EvInput (prompt +:+ " (y/n): ") a;
                          EvInput CONTINUE_PROMPT b] ∧
    Forall (λ e, declined e = false) t ∧
    PyStr.is_no (PyStr.lower (PyStr.strip a)) = true ∧
    PyStr.is_yes (PyStr.lower (PyStr.strip b)) = false.

(** The state in which a session is left for a restart: the flag is set and
    the finalized ledger is the last row of the workbook. *)
Definition stopped (t0 : list event) (x0 : list Row) (s : State) : Prop :=
  restart_test s = true ∧
  overall_pass (test_result s) = compute_overall_pass (test_result s) ∧
  excel s = x0 ++ [make_row (test_result s)] ∧
  just_declined t0 s.

(** A specification by outcome: [Q] when the computation returns, [C] when
    it leaves a pending [continue], [E] when it raises or leaves a pending
    [break]. *)
Definition triple {A} (I : State → Prop) (m : M A) (Q : A → State → Prop)
    (E C : State → Prop) : Prop :=
  ∀ s, I s →
    match m s with
    | (Ret a, s') => Q a s'
    | (Continue, s') => C s'
    | (_, s') => E s'
    end.

(** A step of a session under way: it returns with the session under way;
    it may raise or [break], without a decline; a pending [continue] comes
    without a decline or with the session [stopped]. *)
Definition session_step {A} (t0 : list event) (x0 : list Row) (m : M A)
    : Prop :=
  triple (under_way t0 x0) m (λ _, under_way t0 x0) (undeclined t0)
    (λ s, undeclined t0 s ∨ stopped t0 x0 s).

(** Before the ledger of the iteration is built: no decline, nothing
    saved. *)
Definition at_start (t0 : list event) (x0 : list Row) (s : State) : Prop :=
  undeclined t0 s ∧ excel s = x0.

(** At the state [s], the execution of [command] reports a transport error
    with the output [output], and the reconnection that follows fails after
    its five attempts. *)
Definition reconnection_fails (env : Env) (command : string) (s : State)
    (output : string) : Prop :=
  ∃ error s1 s2,
    ssh_execute_command env (ssh s) command false s = (Ret (output, error), s1) ∧
    PyStr.str_in "SSH_ERROR" error = true ∧
    assign_ssh env 5 (close_if_open s1).2 = (Ret None, s2).

(** The USB tests and the text that each looks for in the output of
    [lsusb]. *)
Definition USB_MARKERS : list (string * string) :=
  [ ("T09", "MicroPython Board in FS mode");
    ("T10", "QinHeng Electronics USB HUB");
    ("T11", "Microchip Technology, Inc. (formerly SMSC) Ultra Fast Media") ].

(** A test recorded once, as Fail or Pass, with the given detail. *)
Definition recorded_once (tid : string) (b : bool) (details : string)
    (r r' : TestResult) : Prop :=
  test_results r' = <[tid := PyBool b]> (test_results r) ∧
  tests_to_run r' = tests_to_run r ∧
  ∃ entry,
    log_file r' = log_file r ++ [entry] ∧ log_test_id entry = tid ∧
    log_status entry = (if b then "PASS" else "FAIL") ∧
    log_details entry = details.

Definition is_failed_connect (e : event) : bool :=
  match e with EvConnect (Raises _) => true | _ => false end.

Definition is_input (e : event) : bool :=
  match e with EvInput _ _ => true | _ => false end.

(** How many [ssh.connect] attempts of a trace raised. *)
Definition failed_connects (t : list event) : nat :=
  length (List.filter is_failed_connect t).

(** How many lines a trace read from the operator. *)
Definition prompts (t : list event) : nat :=
  length (List.filter is_input t).

(** What the operator's lines decide at a yes/no prompt that asks whether
    to continue after a no: the verdict and the lines left unread, or
    nothing when the input ends first. *)
Fixpoint operator_verdict (lines : list string)
    : option (py_result * list string) :=
  match lines with
  | [] => None
  | line :: rest =>
      let response := PyStr.lower (PyStr.strip line) in
      if PyStr.is_yes response then Some (PyBool true, rest)
      else if PyStr.is_no response then
        match rest with
        | [] => None
        | line2 :: rest2 =>
            if PyStr.is_yes (PyStr.lower (PyStr.strip line2))
            then Some (PyBool false, rest2)
            else Some (PyNone, rest2)
        end
      else operator_verdict rest
  end.

(** The ids of the log lines of a ledger, oldest first. *)
Definition logged_ids (r : TestResult) : list string :=
  log_test_id <$> log_file r.

(** What ledger and log say about the catalog test [tid] in a session
    with selection [sel]. *)
Definition entry_coherent (sel : gset string) (r : TestResult) (tid : string)
    : Prop :=
  match test_results r !! tid with
  | Some PySKIPPED =>
      (tid ∉ sel) ∧ test_durations r !! tid = Some (Some 0) ∧ (tid ∉ logged_ids r)
  | Some PyNone =>
      (tid ∈ sel) ∧ test_durations r !! tid = Some None ∧ (tid ∉ logged_ids r)
  | Some (PyBool b) =>
      tid ∈ sel ∧
      ∃ entry d, entry ∈ log_file r ∧ log_test_id entry = tid ∧
                 TEST_IDS !! tid = Some (log_test_name entry) ∧
                 log_status entry = (if b then "PASS" else "FAIL") ∧
                 log_duration entry = Some d ∧
                 test_durations r !! tid = Some (Some d)
  | None => False
  end.

(** The ledger of a session with selection [sel] in which only the first
    [k] tests of the catalog can have been recorded. *)
Definition ledger_at (sel : gset string) (k : nat) (r : TestResult) : Prop :=
  tests_to_run r = sel ∧
  logged_ids r `sublist_of` take k TEST_ID_KEYS ∧
  (∀ tid, is_Some (test_results r !! tid) ↔ tid ∈ TEST_ID_KEYS) ∧
  (∀ tid, is_Some (test_durations r !! tid) ↔ tid ∈ TEST_ID_KEYS) ∧
  (∀ tid, tid ∈ TEST_ID_KEYS → entry_coherent sel r tid).

(** Hoare triples of the monad: from a state in [I], a return of [a]
    leaves a state in [Q a], and every other outcome a state in [E]. *)
Definition hoare {A} (I : State → Prop) (m : M A) (Q : A → State → Prop)
    (E : State → Prop) : Prop :=
  ∀ s, I s → match m s with (Ret a, s') => Q a s' | (_, s') => E s' end.

(** The state of a session with selection [sel] in which only the first
    [k] tests of the catalog can have been recorded. *)
Definition session_phase (sel : gset string) (k : nat) (s : State) : Prop :=
  ledger_at sel k (test_result s).

(** The questions of T06 and T07, as [input] receives them. *)
Definition T06_PROMPT : string :=
  "Press a button. Does the button show on dmesg? (y/n): ".
Definition T07_PROMPT : string :=
  "Was your voice successfully transcribed? (y/n): ".

(** The operator is asked the question of T06 or of T07. *)
Definition followup (e : event) : bool :=
  match e with
  | EvInput p _ => bool_decide (p = T06_PROMPT) || bool_decide (p = T07_PROMPT)
  | _ => false
  end.

(** Since the state [s0]: neither question was asked, and the entries of
    T06 and T07 are the same. *)
Definition followups_not_run (s0 s : State) : Prop :=
  within (λ e, followup e = false) (λ tid, tid ≠ "T06" ∧ tid ≠ "T07") false
    s0 s.

(** Either the follow-ups were not run since [s0], or the gate is open. *)
Definition gated (s0 s : State) : Prop :=
  followups_not_run s0 s ∨ gate_open (test_result s).

(** The first three steps of the session: firmware, visual checks, UI
    group. *)
Definition steps_through_ui (env : Env) : M unit :=
  firmware_step env ;; visual_steps env ;; ui_steps env.

(** [P] holds of the state in which [m] ends, however it ends. *)
Definition leads {A} (I : State → Prop) (m : M A) (P : State → Prop) : Prop :=
  ∀ s, I s → P (m s).2.

(** The exception [e] is one that a call into curses raised during the
    round [f]. *)
Definition raised_in (f : Frame) (e : string) : Prop :=
  (∃ y x text, addstr f y x text = Raises e) ∨ getch f = Raises e.

(** Every [addstr] of the round succeeds. *)
Definition draws (f : Frame) : Prop :=
  ∀ y x text, addstr f y x text = Returns tt.

(** The ids named on the line of the text-mode fallback. *)
Definition skip_tokens (line : string) : list string :=
  (fun t => PyStr.upper (PyStr.strip t)) <$> PyStr.split "," (PyStr.strip line).

(** What a computation can raise. *)
Definition raises_only {A} (P : string → Prop) (m : M A) : Prop :=
  ∀ s e s', m s = (Raise e, s') → P e.

(** Every selected test of [ids] has a boolean status. *)
Definition judged (ids : list string) (s : State) : Prop :=
  ∀ tid, tid ∈ ids → tid ∈ tests_to_run (test_result s) →
    ∃ b, test_results (test_result s) !! tid = Some (PyBool b).

(** The ledger keeps its selection. *)
Definition selection_is (sel : gset string) (s : State) : Prop :=
  tests_to_run (test_result s) = sel.

(** ** Laboratory environments, for the concrete runs *)

Definition quiet_exec : exec_behaviour :=
  mkExec (Returns tt) (Returns tt) (Returns "") (Returns "").

Definition broken_exec (e : string) : exec_behaviour :=
  mkExec (Raises e) (Returns tt) (Returns "") (Returns "").

(** A test bench.  The menu yields [sel]; [exec_command] raises on the
    commands of [broken] and prints nothing otherwise; [ssh.connect] raises
    at the instants of [offline]; [rp2] is what waiting for the RP2 volume
    gives; [flash_ok] tells which UF2 files can be copied. *)
Definition bench (sel : gset string) (broken : string -> bool)
    (offline : nat -> bool) (rp2 : option string) (flash_ok : string -> bool)
    : Env :=
  {| clock n := inject_Z (Z.of_nat n);
     ssh_connect n := if offline n then Raises "timed out" else Returns tt;
     ssh_exec _ c := if broken c then broken_exec "Socket is closed" else quiet_exec;
     ssh_shell _ _ _ := Returns [];
     curses_menu _ := Returns sel;
     rp2_appears _ := rp2;
     rp2_disappears _ := true;
     flash_uf2 _ name := flash_ok name;
     uart_ports _ := [];
     bhv_exists _ _ := true;
     ampy_put _ _ _ := Returns (0, "");
     unicode_isdigit _ := false;
     unicode_int s := Raises ("invalid literal for int() with base 10: '" +:+ s +:+ "'");
     int_max_str_digits := 4300 |}.

(** Everything answers, and no RP2 volume ever shows up. *)
Definition lab_env (sel : gset string) : Env :=
  bench sel (fun _ => false) (fun _ => false) None (fun _ => true).

(** The transport fails on every [command]. *)
Definition lab_env_without (command : string) (sel : gset string) : Env :=
  bench sel (fun c => bool_decide (c = command)) (fun _ => false) None
    (fun _ => true).

(** The transport fails on [command], and the network is down from the
    instant [from] up to, not including, the instant [till]. *)
Definition lab_env_outage (command : string) (from till : nat)
    (sel : gset string) : Env :=
  bench sel (fun c => bool_decide (c = command))
    (fun n => Nat.leb from n && Nat.ltb n till) None (fun _ => true).

(** The network is down for good. *)
Definition lab_env_offline (sel : gset string) : Env :=
  bench sel (fun _ => false) (fun _ => true) None (fun _ => true).

(** The wall clock is set back while the program runs: it reads 10 at the
    first instant and 7.5 from then on. *)
Definition lab_env_clock_set_back : Env :=
  let e := lab_env ∅ in
  mkEnv (fun n => match n with O => 10 # 1 | S _ => 15 # 2 end)
    (ssh_connect e) (ssh_exec e) (ssh_shell e) (curses_menu e)
    (rp2_appears e) (rp2_disappears e) (flash_uf2 e) (uart_ports e)
    (bhv_exists e) (ampy_put e) (unicode_isdigit e) (unicode_int e)
    (int_max_str_digits e).

(** The RP2 volume shows up and the flash nuke cannot be copied. *)
Definition lab_env_nuke_fails (sel : gset string) : Env :=
  bench sel (fun _ => false) (fun _ => false) (Some "/Volumes/RPI-RP2")
    (fun name => negb (bool_decide (name = FLASH_NUKE_UF2))).

(** The command with which the RGB LED test looks for its script. *)
Definition RGB_LED_CHECK_COMMAND : string :=
  "test -f " +:+ RGB_LED_TEST_PATH +:+ " && echo 'EXISTS' || echo 'NOT_FOUND'".

Definition blank_ledger : TestResult := TestResult_init 0 0 ∅ None None.

(** The state at program start, with the lines the operator will type. *)
Definition boot (lines : list string) : State :=
  mkState 0 lines [] [] blank_ledger None false.

(** The superscript two, U+00B2, in UTF-8. *)
Definition SUPERSCRIPT_TWO : string := String "194" (String "178" "").

(** An interpreter for which the superscript two is a digit, as it is for
    Python, and that converts no text outside ASCII. *)
Definition lab_env_superscript : Env :=
  let e := lab_env ∅ in
  mkEnv (clock e) (ssh_connect e) (ssh_exec e) (ssh_shell e) (curses_menu e)
    (rp2_appears e) (rp2_disappears e) (flash_uf2 e) (uart_ports e)
    (bhv_exists e) (ampy_put e)
    (fun s => bool_decide (s = SUPERSCRIPT_TWO)) (unicode_int e)
    (int_max_str_digits e).

(** An environment in which none of the firmware source files exists. *)
Definition without_sources (e : Env) : Env :=
  mkEnv (clock e) (ssh_connect e) (ssh_exec e) (ssh_shell e) (curses_menu e)
    (rp2_appears e) (rp2_disappears e) (flash_uf2 e) (uart_ports e)
    (fun _ _ => false) (ampy_put e) (unicode_isdigit e) (unicode_int e)
    (int_max_str_digits e).

(** An environment in which the curses menu cannot be shown. *)
Definition without_menu (e : Env) : Env :=
  mkEnv (clock e) (ssh_connect e) (ssh_exec e) (ssh_shell e)
    (fun _ => Raises "setupterm: could not find terminal")
    (rp2_appears e) (rp2_disappears e) (flash_uf2 e) (uart_ports e)
    (bhv_exists e) (ampy_put e) (unicode_isdigit e) (unicode_int e)
    (int_max_str_digits e).

(** A terminal of 24 lines and [width] columns that refuses to write at a
    negative column, on which the operator presses [key]. *)
Definition lab_frame (width key : Z) : Frame :=
  {| getmaxyx := (24, width);
     addstr _ x _ := if x <? 0 then Raises "addstr() returned ERR" else Returns tt;
     getch := Returns key |}.

(** A terminal that writes anywhere. *)
Definition easy_frame (key : Z) : Frame :=
  {| getmaxyx := (24, 80);
     addstr _ _ _ := Returns tt;
     getch := Returns key |}.

(** A host on which nothing is mounted and nothing can be copied, with a
    clock that advances by one second at every instant. *)
Definition bare_host : Volume.Host :=
  Volume.mkHost (fun n => inject_Z (Z.of_nat n))
    (fun _ => Volume.mkFS (fun _ => false) (fun _ => Raises "No such file or directory")
                (fun _ _ => Raises "No such file or directory")).

(** A file system on which every path exists, the boot volume is mounted
    and ejects itself during the copy. *)
Definition ejecting_fs : Volume.FS :=
  Volume.mkFS (fun _ => true) (fun _ => Returns ["INDEX.HTM"; "INFO_UF2.TXT"])
    (fun _ _ => Raises "[Errno 22] Invalid argument").

(** * Theorems *)

(** ** The transport-error marker *)

Lemma prefix_app (a b : string) : String.prefix a (a +:+ b) = true.
Proof.
  induction a as [|c a IH]; simpl.
  - by destruct b.
  - destruct (ascii_dec c c); [exact IH | done].
Qed.

Lemma str_in_prefix (a b : string) : PyStr.str_in a (a +:+ b) = true.
Proof.
  assert (∀ h, String.prefix a h = true → PyStr.str_in a h = true) as H
    by (intros h H; destruct h; cbn [PyStr.str_in]; rewrite H; done).
  apply H, prefix_app.
Qed.

(** C9: [ssh_execute_command] always returns a pair and never raises.  When
    a step of the underlying execution raises, the pair is the empty output
    and "SSH_ERROR: " followed by the text of the exception, in which the
    caller finds the marker; otherwise it is the decoded standard output and
    standard error. *)
Theorem ssh_execute_command_never_raises (env : Env) (ssh_client : option nat)
    (command : string) (send_enter : bool) (s : State) :
  ∃ output error s',
    ssh_execute_command env ssh_client command send_enter s
      = (Ret (output, error), s') ∧
    match first_exception ssh_client (ssh_exec env (now s) command) send_enter with
    | Some e =>
        output = "" ∧ error = "SSH_ERROR: " +:+ e ∧
        PyStr.str_in "SSH_ERROR" error = true
    | None =>
        stdout_text (ssh_exec env (now s) command) = Returns output ∧
        stderr_text (ssh_exec env (now s) command) = Returns error
    end.
Proof.
  unfold ssh_execute_command, first_exception, try_except.
  destruct ssh_client as [c|]; simpl.
  2: { do 3 eexists. split; [reflexivity|]. repeat split. }
  unfold bind, gets, tick, modify, log_event, when, perform, ret, raise; simpl.
  destruct (ssh_exec env (now s) command) as [ec sw so se]; simpl.
  destruct ec as [[]|e]; simpl.
  2: { do 3 eexists. split; [reflexivity|]. repeat split. }
  destruct send_enter; simpl.
  - destruct sw as [[]|e]; simpl.
    2: { do 3 eexists. split; [reflexivity|]. repeat split. }
    destruct so as [o|e]; simpl.
    2: { do 3 eexists. split; [reflexivity|]. repeat split. }
    destruct se as [o'|e]; simpl.
    2: { do 3 eexists. split; [reflexivity|]. repeat split. }
    do 3 eexists. split; [reflexivity|]. done.
  - destruct so as [o|e]; simpl.
    2: { do 3 eexists. split; [reflexivity|]. repeat split. }
    destruct se as [o'|e]; simpl.
    2: { do 3 eexists. split; [reflexivity|]. repeat split. }
    do 3 eexists. split; [reflexivity|]. done.
Qed.

(** ** The ledger *)

Lemma set_test_result_eq (env : Env) (tid name : string) (result : py_result)
    (details : string) (duration : option Z) (s : State) :
  TEST_IDS !! tid = Some name →
  set_test_result env tid result details duration s =
    (Ret tt,
     with_now (S (now s))
       (with_test_result
          (append_log
             (mkLogEntry (clock env (now s)) tid name (status_text result)
                duration details)
             (store_result tid result duration (test_result s))) s)).
Proof.
  intros Hname. unfold set_test_result. rewrite Hname. reflexivity.
Qed.

Lemma values_elem (r : TestResult) (v : py_result) :
  v ∈ test_results_values r ↔
  v ≠ PyNone ∧ ∃ k, test_results r !! k = Some v.
Proof.
  unfold test_results_values. rewrite list_elem_of_filter, list_elem_of_fmap.
  split.
  - intros [Hv [[k v'] [-> Hin]]]. apply elem_of_map_to_list in Hin.
    split; [by destruct v'|eauto].
  - intros [Hv [k Hk]]. split; [by destruct v|].
    exists (k, v). split; [done|]. by apply elem_of_map_to_list.
Qed.

Lemma compute_overall_pass_true (r : TestResult) :
  compute_overall_pass r = true ↔
  (∃ k v, test_results r !! k = Some v ∧ v ≠ PyNone) ∧
  (∀ k v, test_results r !! k = Some v → v ≠ PyNone → truthy v = true).
Proof.
  unfold compute_overall_pass.
  pose proof (values_elem r) as Hel.
  destruct (test_results_values r) as [|v0 l] eqn:E.
  - split; [done|]. intros [(k & v & Hk & Hv) _].
    assert (v ∈ []) as Hin by (apply Hel; eauto). by apply elem_of_nil in Hin.
  - rewrite forallb_forall. split.
    + intros Hall. split.
      * destruct (proj1 (Hel v0)) as [Hv [k Hk]]; [left|]. eauto.
      * intros k v Hk Hv. apply Hall, list_elem_of_In, Hel. eauto.
    + intros [_ Hall] v Hin. apply list_elem_of_In, Hel in Hin as [Hv [k Hk]]. eauto.
Qed.

Lemma save_to_excel_eq (s : State) :
  save_to_excel s =
    (Ret tt,
     let r := assign_overall_pass (compute_overall_pass (test_result s))
                (test_result s) in
     with_excel (excel s ++ [make_row r]) (with_test_result r s)).
Proof. reflexivity. Qed.

(** C3 (amended): [set_test_result] has no precondition on the previous
    status.  For every catalog id it returns normally, stores the new result
    over whatever was there (last write wins), stores the duration when one is
    given, and appends one log line. *)
Theorem set_test_result_overwrites (env : Env) (test_id : string)
    (result : py_result) (details : string) (duration : option Z) (s : State) :
  is_Some (TEST_IDS !! test_id) →
  ∃ s',
    set_test_result env test_id result details duration s = (Ret tt, s') ∧
    test_results (test_result s')
      = <[test_id := result]> (test_results (test_result s)) ∧
    test_results (test_result s') !! test_id = Some result ∧
    test_durations (test_result s')
      = match duration with
        | Some d => <[test_id := Some d]> (test_durations (test_result s))
        | None => test_durations (test_result s)
        end ∧
    length (log_file (test_result s')) = S (length (log_file (test_result s))).
Proof.
  intros [name Hname]. eexists. split; [by apply set_test_result_eq|].
  simpl. repeat split.
  - apply lookup_insert_eq.
  - rewrite length_app. simpl. lia.
Qed.

Lemma set_test_result_overwrites_witness :
  ∃ s',
    set_test_result (lab_env ∅) "T02" (PyBool false) "" (Some 3) (boot [])
      = (Ret tt, s') ∧
    test_results (test_result s') !! "T02" = Some (PyBool false).
Proof.
  destruct (set_test_result_overwrites (lab_env ∅) "T02" (PyBool false) ""
              (Some 3) (boot [])) as (s' & H1 & _ & H3 & _).
  - vm_compute. eauto.
  - exists s'. split; [exact H1 | exact H3].
Defined.

(** C3 (as stated, refuted): on a ledger where T02 already holds the terminal
    status Pass, a second [set_test_result] on T02 is accepted and replaces
    Pass by Fail. *)
Lemma set_test_result_twice_accepted :
  let s0 := with_test_result (TestResult_init 0 7 {["T02"]} None None) (boot []) in
  let r1 := set_test_result (lab_env ∅) "T02" (PyBool true) "" (Some 1) s0 in
  let r2 := set_test_result (lab_env ∅) "T02" (PyBool false) "" (Some 2) r1.2 in
  r1.1 = Ret tt ∧
  test_results (test_result r1.2) !! "T02" = Some (PyBool true) ∧
  r2.1 = Ret tt ∧
  test_results (test_result r2.2) !! "T02" = Some (PyBool false).
Proof. vm_compute. repeat split. Qed.

(** C1 (amended): at finalize, Unset entries are left out of the AND just as
    Skipped ones are.  On a ledger where at least one test was recorded (Pass
    or Fail), [overall_pass] is true iff every entry that is neither Skipped
    nor Unset is Pass; on a ledger whose entries are all Unset it is false. *)
Theorem overall_pass_over_recorded (s : State) :
  let r := test_result (save_to_excel s).2 in
  ((∃ tid b, test_results r !! tid = Some (PyBool b)) →
   (overall_pass r = true ↔
    ∀ tid v, test_results r !! tid = Some v →
             v ≠ PySKIPPED → v ≠ PyNone → v = PyBool true)) ∧
  ((∀ tid v, test_results r !! tid = Some v → v = PyNone) →
   overall_pass r = false).
Proof.
  rewrite save_to_excel_eq. simpl. split.
  - intros (tid0 & b0 & H0). rewrite compute_overall_pass_true. split.
    + intros [_ Hall] tid v Hv Hs Hn.
      specialize (Hall tid v Hv Hn). destruct v as [|[]|]; done.
    + intros Hall. split; [by exists tid0, (PyBool b0)|].
      intros tid v Hv Hn. destruct v as [|b|]; [done| |done].
      by rewrite (Hall tid (PyBool b) Hv).
  - intros Hall. apply not_true_is_false. rewrite compute_overall_pass_true.
    intros [(k & v & Hk & Hv) _]. by apply Hv, (Hall k).
Qed.

Lemma overall_pass_over_recorded_witness :
  let s := with_test_result
             (store_result "T02" (PyBool true) (Some 1)
                (TestResult_init 0 7 {["T02"; "T03"]} None None)) (boot []) in
  let r := test_result (save_to_excel s).2 in
  test_results r !! "T03" = Some PyNone ∧
  (overall_pass r = true ↔
   ∀ tid v, test_results r !! tid = Some v →
            v ≠ PySKIPPED → v ≠ PyNone → v = PyBool true).
Proof.
  split; [vm_compute; reflexivity|].
  apply (proj1 (overall_pass_over_recorded
                  (with_test_result
                     (store_result "T02" (PyBool true) (Some 1)
                        (TestResult_init 0 7 {["T02"; "T03"]} None None))
                     (boot [])))).
  exists "T02", true. vm_compute. reflexivity.
Defined.

(** C1 (as stated, refuted): a session that runs to its end with T02 = Pass
    and T13 left Unset (the transport failed on [lsblk] and on its retry) is
    finalized with [overall_pass] true, although T13 is a non-Skipped entry
    that is not Pass. *)
Lemma overall_pass_true_with_unset_entry :
  let s' := (session (lab_env_without "lsblk" {["T02"; "T13"]})
               (boot ["7"; ""; "y"; "n"; "n"])).2 in
  let r := test_result s' in
  (row_overall_pass <$> excel s') = [true] ∧
  overall_pass r = true ∧
  test_results r !! "T13" = Some PyNone ∧
  ¬ (overall_pass r = true ↔
     ∀ tid v, test_results r !! tid = Some v → v ≠ PySKIPPED → v = PyBool true).
Proof.
  assert (overall_pass (test_result (session (lab_env_without "lsblk" {["T02"; "T13"]})
               (boot ["7"; ""; "y"; "n"; "n"])).2) = true) as Ho
    by (vm_compute; reflexivity).
  assert (test_results (test_result (session (lab_env_without "lsblk" {["T02"; "T13"]})
               (boot ["7"; ""; "y"; "n"; "n"])).2) !! "T13" = Some PyNone) as Hu
    by (vm_compute; reflexivity).
  split; [vm_compute; reflexivity|]. split; [exact Ho|]. split; [exact Hu|].
  intros [Hall _]. specialize (Hall Ho "T13" PyNone Hu). by discriminate Hall.
Qed.

(** The guard [if test_results_values else False] does not see a session in
    which nothing was selected: the thirteen ['SKIPPED'] strings are truthy. *)
Lemma nothing_selected_reports_pass :
  let s' := (session (lab_env ∅) (boot ["7"; "n"; "n"])).2 in
  (row_overall_pass <$> excel s') = [true] ∧
  (∀ tid, tid ∈ TEST_ID_KEYS → test_results (test_result s') !! tid = Some PySKIPPED).
Proof.
  split; [vm_compute; reflexivity|].
  intros tid Hin. repeat (apply elem_of_cons in Hin as [->|Hin]; [vm_compute; reflexivity|]).
  by apply elem_of_nil in Hin.
Qed.

(** ** Reasoning rules of the monad *)

Section Rules.

Context {A B : Type}.

Lemma bind_inv (m : M A) (k : A → M B) (s : State) (o : Outcome B) (s' : State) :
  bind m k s = (o, s') →
  (∃ a s1, m s = (Ret a, s1) ∧ k a s1 = (o, s')) ∨
  ((∃ e, m s = (Raise e, s') ∧ o = Raise e) ∨
   (m s = (Continue, s') ∧ o = Continue) ∨
   (m s = (Break, s') ∧ o = Break)).
Proof.
  unfold bind. destruct (m s) as [[a|e| |] s1]; intros H.
  - left. eauto.
  - right. left. inversion H; subst. eauto.
  - right. right. left. by inversion H.
  - right. right. right. by inversion H.
Qed.

Lemma bind_ret_inv (m : M A) (k : A → M B) (s : State) (b : B) (s' : State) :
  bind m k s = (Ret b, s') →
  ∃ a s1, m s = (Ret a, s1) ∧ k a s1 = (Ret b, s').
Proof.
  intros H. apply bind_inv in H as [H|[(e & _ & H)|[[_ H]|[_ H]]]]; done.
Qed.

Lemma bind_eq (m : M A) (k : A → M B) (s s1 : State) (a : A) :
  m s = (Ret a, s1) → bind m k s = k a s1.
Proof. unfold bind. by intros ->. Qed.

Lemma preserves_bind (I : State → Prop) (m : M A) (k : A → M B) :
  preserves I m → (∀ a, preserves I (k a)) → preserves I (bind m k).
Proof.
  intros Hm Hk s HI. specialize (Hm s HI). unfold bind.
  destruct (m s) as [[a|e| |] s1]; simpl in *; try done. by apply Hk.
Qed.

Lemma preserves_try (I : State → Prop) (m : M A) (h : string → M A) :
  preserves I m → (∀ e, preserves I (h e)) → preserves I (try_except m h).
Proof.
  intros Hm Hh s HI. specialize (Hm s HI). unfold try_except.
  destruct (m s) as [[a|e| |] s1]; simpl in *; try done. by apply Hh.
Qed.

Lemma preserves_ret (I : State → Prop) (a : A) : preserves I (ret a).
Proof. by intros s HI. Qed.

Lemma preserves_raise (I : State → Prop) (e : string) : preserves I (@raise A e).
Proof. by intros s HI. Qed.

Lemma preserves_continue (I : State → Prop) : preserves I (@loop_continue A).
Proof. by intros s HI. Qed.

Lemma preserves_break (I : State → Prop) : preserves I (@loop_break A).
Proof. by intros s HI. Qed.

Lemma preserves_gets (I : State → Prop) (f : State → A) : preserves I (gets f).
Proof. by intros s HI. Qed.

Lemma preserves_perform (I : State → Prop) (r : io A) : preserves I (perform r).
Proof. by destruct r; intros s HI. Qed.

Lemma no_ctl_bind (m : M A) (k : A → M B) :
  no_loop_control m → (∀ a, no_loop_control (k a)) → no_loop_control (bind m k).
Proof.
  intros Hm Hk s. specialize (Hm s). unfold bind.
  destruct (m s) as [[a|e| |] s1]; simpl in *;
    [apply Hk | done | by destruct Hm | by destruct Hm].
Qed.

Lemma no_ctl_try (m : M A) (h : string → M A) :
  no_loop_control m → (∀ e, no_loop_control (h e)) →
  no_loop_control (try_except m h).
Proof.
  intros Hm Hh s. specialize (Hm s). unfold try_except.
  destruct (m s) as [[a|e| |] s1]; simpl in *;
    [done | apply Hh | by destruct Hm | by destruct Hm].
Qed.

Lemma no_ctl_ret (a : A) : no_loop_control (ret a).
Proof. by intros s. Qed.

Lemma no_ctl_raise (e : string) : no_loop_control (@raise A e).
Proof. by intros s. Qed.

Lemma no_ctl_gets (f : State → A) : no_loop_control (gets f).
Proof. by intros s. Qed.

Lemma no_ctl_perform (r : io A) : no_loop_control (perform r).
Proof. by destruct r; intros s. Qed.

End Rules.

Lemma read_tick_bind {A B} (f : State → A) (k : A → M B) (s : State) :
  bind (bind (gets f) (λ v, bind tick (λ _, ret v))) k s
    = k (f s) (with_now (S (now s)) s).
Proof. reflexivity. Qed.

Lemma tick_bind {B} (k : unit → M B) (s : State) :
  bind tick k s = k tt (with_now (S (now s)) s).
Proof. reflexivity. Qed.

Lemma gets_bind {A B} (f : State → A) (k : A → M B) (s : State) :
  bind (gets f) k s = k (f s) s.
Proof. reflexivity. Qed.

Lemma preserves_when (I : State → Prop) (c : bool) (m : M unit) :
  preserves I m → preserves I (when c m).
Proof. destruct c; [done|]. intros _. apply preserves_ret. Qed.

Lemma preserves_modify (I : State → Prop) (f : State → State) :
  (∀ s, I s → I (f s)) → preserves I (modify f).
Proof. intros H s HI. by apply H. Qed.

Lemma no_ctl_when (c : bool) (m : M unit) :
  no_loop_control m → no_loop_control (when c m).
Proof. destruct c; [done|]. intros _. apply no_ctl_ret. Qed.

Lemma no_ctl_modify (f : State → State) : no_loop_control (modify f).
Proof. by intros s. Qed.

Lemma no_ctl_input (prompt : string) : no_loop_control (input prompt).
Proof. intros s. unfold input. by destruct (stdin s). Qed.

Lemma preserves_tick (I : State → Prop) `{!NowStable I} : preserves I tick.
Proof. apply preserves_modify. intros s. apply now_stable. Qed.

Lemma preserves_log_event (I : State → Prop) `{!TraceStable I} (e : event) :
  preserves I (log_event e).
Proof. apply preserves_modify. intros s. apply trace_stable. Qed.

Global Instance input_stable_fields (I : State → Prop)
    `{!NowStable I, !StdinStable I, !TraceStable I} : InputStable I.
Proof.
  intros prompt s HI. unfold input. destruct (stdin s); [done|]. simpl.
  by apply now_stable, trace_stable, stdin_stable.
Qed.

Lemma preserves_input (I : State → Prop) `{!InputStable I} (prompt : string) :
  preserves I (input prompt).
Proof. apply input_stable. Qed.

(** Syntax-directed proof of [preserves] and [no_loop_control] goals. *)
Create HintDb keeps discriminated.
Create HintDb noctl discriminated.

#[export] Hint Resolve preserves_ret preserves_raise preserves_continue preserves_break
  preserves_gets preserves_perform preserves_tick preserves_log_event
  preserves_input : keeps.
#[export] Hint Resolve no_ctl_ret no_ctl_raise no_ctl_gets no_ctl_perform no_ctl_modify
  no_ctl_input : noctl.

Ltac keeps_step :=
  match goal with
  | |- preserves _ (bind _ _) => apply preserves_bind; [|intros ?]
  | |- preserves _ (try_except _ _) => apply preserves_try; [|intros ?]
  | |- preserves _ (when _ _) => apply preserves_when
  | |- preserves _ (if ?c then _ else _) => destruct c
  | |- preserves _ (match ?x with _ => _ end) => destruct x
  | |- preserves _ (modify (with_ssh _)) =>
      apply preserves_modify; intros ?; apply ssh_stable
  | |- preserves _ (modify (with_restart_test _)) =>
      apply preserves_modify; intros ?; apply restart_stable
  | |- preserves _ _ => solve [eauto with keeps]
  end.
Ltac keeps := repeat keeps_step.

Ltac noctl_step :=
  match goal with
  | |- no_loop_control (bind _ _) => apply no_ctl_bind; [|intros ?]
  | |- no_loop_control (try_except _ _) => apply no_ctl_try; [|intros ?]
  | |- no_loop_control (when _ _) => apply no_ctl_when
  | |- no_loop_control (if ?c then _ else _) => destruct c
  | |- no_loop_control (match ?x with _ => _ end) => destruct x
  | |- no_loop_control _ => solve [eauto with noctl]
  end.
Ltac noctl := repeat noctl_step.
Ltac keeps' := repeat first [keeps_step | solve [eauto with keeps typeclass_instances]].
Ltac noctl' := repeat first [noctl_step | solve [eauto with noctl]].

Section Frames.

Variable env : Env.

Lemma no_ctl_tick : no_loop_control tick.
Proof. apply no_ctl_modify. Qed.

Lemma no_ctl_time_time : no_loop_control (time_time env).
Proof. unfold time_time. pose proof no_ctl_tick. noctl. Qed.

Lemma preserves_time_time (I : State → Prop) `{!NowStable I} :
  preserves I (time_time env).
Proof. unfold time_time. keeps. Qed.

Lemma preserves_elapsed_since (I : State → Prop) `{!NowStable I} (t : Q) :
  preserves I (elapsed_since env t).
Proof. unfold elapsed_since. pose proof (preserves_time_time I). keeps. Qed.

#[local] Hint Resolve no_ctl_tick no_ctl_time_time preserves_time_time
  preserves_elapsed_since : keeps noctl.

Lemma no_ctl_elapsed_since (t : Q) : no_loop_control (elapsed_since env t).
Proof. unfold elapsed_since. noctl'. Qed.

Lemma no_ctl_log_event (e : event) : no_loop_control (log_event e).
Proof. apply no_ctl_modify. Qed.

Lemma preserves_modify_test_result (I : State → Prop) `{!LedgerStable I}
    (f : TestResult → TestResult) : preserves I (modify_test_result f).
Proof. apply preserves_modify. intros s. apply ledger_stable. Qed.

Lemma no_ctl_modify_test_result (f : TestResult → TestResult) :
  no_loop_control (modify_test_result f).
Proof. apply no_ctl_modify. Qed.

#[local] Hint Resolve no_ctl_elapsed_since no_ctl_log_event
  preserves_modify_test_result no_ctl_modify_test_result : keeps noctl.

Lemma preserves_set_test_result (I : State → Prop)
    `{!NowStable I, !LedgerStable I} (tid : string) (r : py_result)
    (details : string) (d : option Z) :
  preserves I (set_test_result env tid r details d).
Proof. unfold set_test_result. keeps'. Qed.

Lemma no_ctl_set_test_result (tid : string) (r : py_result)
    (details : string) (d : option Z) :
  no_loop_control (set_test_result env tid r details d).
Proof. unfold set_test_result. noctl'. Qed.

Lemma preserves_append_notes (I : State → Prop) `{!LedgerStable I} (t : string) :
  preserves I (append_notes t).
Proof. unfold append_notes. keeps'. Qed.

Lemma no_ctl_append_notes (t : string) : no_loop_control (append_notes t).
Proof. unfold append_notes. noctl'. Qed.

Lemma preserves_yes_no_loop (I : State → Prop)
    `{!NowStable I, !InputStable I, !TraceStable I}
    (prompt : string) (allow : bool) (start : Q) (pending : list string) :
  preserves I (yes_no_loop env prompt allow start pending).
Proof.
  induction pending as [|l pending IH]; simpl; keeps'.
Qed.

Lemma no_ctl_yes_no_loop (prompt : string) (allow : bool) (start : Q)
    (pending : list string) :
  no_loop_control (yes_no_loop env prompt allow start pending).
Proof.
  induction pending as [|l pending IH]; simpl; noctl'.
Qed.

#[local] Hint Resolve preserves_set_test_result no_ctl_set_test_result
  preserves_append_notes no_ctl_append_notes
  preserves_yes_no_loop no_ctl_yes_no_loop : keeps noctl.

Lemma preserves_get_yes_no_input (I : State → Prop)
    `{!NowStable I, !InputStable I, !TraceStable I}
    (prompt : string) (allow : bool) :
  preserves I (get_yes_no_input env prompt allow).
Proof. unfold get_yes_no_input. keeps'. Qed.

Lemma no_ctl_get_yes_no_input (prompt : string) (allow : bool) :
  no_loop_control (get_yes_no_input env prompt allow).
Proof. unfold get_yes_no_input. noctl'. Qed.

Lemma preserves_wait_for_enter (I : State → Prop)
    `{!NowStable I, !InputStable I, !TraceStable I} (prompt : string) :
  preserves I (wait_for_enter prompt).
Proof. unfold wait_for_enter. keeps'. Qed.

Lemma no_ctl_wait_for_enter (prompt : string) :
  no_loop_control (wait_for_enter prompt).
Proof. unfold wait_for_enter. noctl'. Qed.

#[local] Hint Resolve preserves_get_yes_no_input no_ctl_get_yes_no_input
  preserves_wait_for_enter no_ctl_wait_for_enter : keeps noctl.

Lemma preserves_fail_T01 (I : State → Prop) `{!NowStable I, !LedgerStable I}
    (start : Q) (details : string) :
  preserves I (fail_T01 env start details).
Proof. unfold fail_T01. keeps'. Qed.

#[local] Hint Resolve preserves_fail_T01 : keeps.

Lemma preserves_upload_files (I : State → Prop) `{!NowStable I, !LedgerStable I}
    (port : string) (start : Q) (files : list string) :
  preserves I (upload_files env port start files).
Proof. induction files as [|f files IH]; simpl; keeps'. Qed.

#[local] Hint Resolve preserves_upload_files : keeps.

Lemma preserves_upload_firmware_wipe (I : State → Prop)
    `{!NowStable I, !LedgerStable I} :
  preserves I (upload_firmware_wipe env).
Proof.
  unfold upload_firmware_wipe, wait_for_rp2_device, wait_for_rp2_disappear,
    flash_uf2_file, sleep.
  keeps'.
Qed.

Lemma preserves_ssh_execute_command (I : State → Prop)
    `{!NowStable I, !TraceStable I} (c : option nat) (command : string)
    (send_enter : bool) :
  preserves I (ssh_execute_command env c command send_enter).
Proof. unfold ssh_execute_command. keeps'. Qed.

Lemma no_ctl_ssh_execute_command (c : option nat) (command : string)
    (send_enter : bool) :
  no_loop_control (ssh_execute_command env c command send_enter).
Proof. unfold ssh_execute_command. noctl'. Qed.

Lemma preserves_ssh_execute_interactive (I : State → Prop)
    `{!NowStable I, !TraceStable I} (c : option nat) (command : string)
    (n : nat) :
  preserves I (ssh_execute_interactive env c command n).
Proof. unfold ssh_execute_interactive. keeps'. Qed.

Lemma no_ctl_ssh_execute_interactive (c : option nat) (command : string)
    (n : nat) :
  no_loop_control (ssh_execute_interactive env c command n).
Proof. unfold ssh_execute_interactive. noctl'. Qed.

Lemma preserves_reconnect_loop (I : State → Prop)
    `{!NowStable I, !InputStable I, !TraceStable I} (max attempt remaining : nat) :
  preserves I (reconnect_loop env max attempt remaining).
Proof.
  revert attempt. induction remaining as [|r IH]; intros attempt; simpl; keeps'.
Qed.

Lemma no_ctl_reconnect_loop (max attempt remaining : nat) :
  no_loop_control (reconnect_loop env max attempt remaining).
Proof.
  revert attempt. induction remaining as [|r IH]; intros attempt; simpl; noctl'.
Qed.

#[local] Hint Resolve preserves_reconnect_loop no_ctl_reconnect_loop
  preserves_ssh_execute_command no_ctl_ssh_execute_command
  preserves_ssh_execute_interactive no_ctl_ssh_execute_interactive : keeps noctl.

Lemma preserves_reconnect_ssh (I : State → Prop)
    `{!NowStable I, !InputStable I, !TraceStable I} (max : nat) :
  preserves I (reconnect_ssh env max).
Proof. unfold reconnect_ssh. keeps'. Qed.

Lemma preserves_assign_ssh (I : State → Prop)
    `{!NowStable I, !InputStable I, !TraceStable I, !SshStable I} (max : nat) :
  preserves I (assign_ssh env max).
Proof. unfold assign_ssh, reconnect_ssh. keeps'. Qed.

Lemma no_ctl_assign_ssh (max : nat) : no_loop_control (assign_ssh env max).
Proof. unfold assign_ssh, reconnect_ssh. noctl'. Qed.

Lemma preserves_close_if_open (I : State → Prop) `{!TraceStable I} :
  preserves I close_if_open.
Proof. unfold close_if_open, ssh_close. keeps'. Qed.

Lemma no_ctl_close_if_open : no_loop_control close_if_open.
Proof. unfold close_if_open, ssh_close. noctl'. Qed.

#[local] Hint Resolve preserves_reconnect_ssh preserves_assign_ssh no_ctl_assign_ssh
  preserves_close_if_open no_ctl_close_if_open : keeps noctl.

Lemma preserves_run_with_reconnect (I : State → Prop)
    `{!NowStable I, !InputStable I, !TraceStable I, !SshStable I}
    (command : string) (on_failure : M unit) :
  preserves I on_failure →
  preserves I (run_with_reconnect env command on_failure).
Proof. intros H. unfold run_with_reconnect. keeps'. Qed.

Lemma no_ctl_run_with_reconnect (command : string) (on_failure : M unit) :
  no_loop_control on_failure →
  no_loop_control (run_with_reconnect env command on_failure).
Proof. intros H. unfold run_with_reconnect. noctl'. Qed.

End Frames.

#[export] Hint Resolve no_ctl_tick no_ctl_time_time preserves_time_time
  preserves_elapsed_since no_ctl_elapsed_since no_ctl_log_event
  preserves_modify_test_result no_ctl_modify_test_result
  preserves_set_test_result no_ctl_set_test_result
  preserves_append_notes no_ctl_append_notes
  preserves_yes_no_loop no_ctl_yes_no_loop
  preserves_get_yes_no_input no_ctl_get_yes_no_input
  preserves_wait_for_enter no_ctl_wait_for_enter
  preserves_fail_T01 preserves_upload_files preserves_upload_firmware_wipe
  preserves_reconnect_loop no_ctl_reconnect_loop
  preserves_ssh_execute_command no_ctl_ssh_execute_command
  preserves_ssh_execute_interactive no_ctl_ssh_execute_interactive
  preserves_reconnect_ssh preserves_assign_ssh no_ctl_assign_ssh
  preserves_close_if_open no_ctl_close_if_open
  preserves_run_with_reconnect no_ctl_run_with_reconnect : keeps noctl.

(** ** Operator prompts *)

Lemma int_of_float_nonneg (q : Q) : (0 <= q)%Q → 0 ≤ PyStr.int_of_float q.
Proof.
  unfold Qle, PyStr.int_of_float. simpl. intros H.
  apply Z.quot_pos; lia.
Qed.

Lemma input_cons (prompt l : string) (rest : list string) (s : State) :
  stdin s = l :: rest →
  input prompt s =
    (Ret l, with_now (S (now s))
              (with_trace (trace s ++ [EvInput prompt l]) (with_stdin rest s))).
Proof. unfold input. by intros ->. Qed.

Lemma input_nil (prompt : string) (s : State) :
  stdin s = [] → input prompt s = (Raise EOF_TEXT, s).
Proof. unfold input. by intros ->. Qed.

Lemma yes_no_loop_cons (env : Env) (prompt : string) (allow : bool) (start : Q)
    (x : string) (pending : list string) (l : string) (rest : list string)
    (s : State) :
  stdin s = l :: rest →
  yes_no_loop env prompt allow start (x :: pending) s =
    let response := PyStr.lower (PyStr.strip l) in
    let s1 := with_now (S (now s))
                (with_trace (trace s ++ [EvInput (prompt +:+ " (y/n): ") l])
                   (with_stdin rest s)) in
    if PyStr.is_yes response then
      (let* d := elapsed_since env start in ret (PyBool true, d)) s1
    else if PyStr.is_no response then
      (if allow then
         let* line2 := input "Test failed. Do you want to continue testing? (y/n): " in
         if negb (PyStr.is_yes (PyStr.lower (PyStr.strip line2))) then
           let* d := elapsed_since env start in ret (PyNone, d)
         else
           let* d := elapsed_since env start in ret (PyBool false, d)
       else
         let* d := elapsed_since env start in ret (PyBool false, d)) s1
    else yes_no_loop env prompt allow start pending s1.
Proof.
  intros Hs. cbn [yes_no_loop]. unfold bind at 1.
  rewrite (input_cons _ l rest) by done. cbv zeta.
  destruct (PyStr.is_yes _); [done|]. destruct (PyStr.is_no _); done.
Qed.

Lemma yes_no_loop_eof (env : Env) (prompt : string) (allow : bool) (start : Q)
    (pending : list string) (s : State) :
  stdin s = [] →
  yes_no_loop env prompt allow start pending s = (Raise EOF_TEXT, s).
Proof.
  intros Hs. destruct pending; cbn [yes_no_loop]; unfold bind;
    by rewrite input_nil.
Qed.

(** The measure argument of the prompt loop is immaterial once it covers the
    pending input. *)
Lemma yes_no_loop_measure (env : Env) (prompt : string) (allow : bool)
    (start : Q) (pending : list string) (s : State) :
  (length (stdin s) ≤ length pending)%nat →
  yes_no_loop env prompt allow start pending s
    = yes_no_loop env prompt allow start (stdin s) s.
Proof.
  revert s. induction pending as [|x pending IH]; intros s Hlen;
    destruct (stdin s) as [|l rest] eqn:Hs.
  - done.
  - cbn in Hlen. lia.
  - by rewrite !yes_no_loop_eof.
  - rewrite !(yes_no_loop_cons _ _ _ _ _ _ l rest) by done. cbv zeta.
    destruct (PyStr.is_yes _); [done|]. destruct (PyStr.is_no _); [done|].
    rewrite IH; [done|]. cbn in *. lia.
Qed.

Lemma yes_no_loop_unchecked (env : Env) (prompt : string) (start : Q) :
  ∀ (pending : list string) (s : State),
    pending = stdin s →
    match first_answer (stdin s) with
    | Some b =>
        ∃ s', yes_no_loop env prompt false start pending s
                = (Ret (PyBool b,
                        PyStr.int_of_float (clock env (Nat.pred (now s')) - start)),
                   s') ∧
              (now s < Nat.pred (now s'))%nat
    | None =>
        ∃ s', yes_no_loop env prompt false start pending s
                = (Raise EOF_TEXT, s')
    end.
Proof.
  intros pending. induction pending as [|l rest IH]; intros s Hs.
  - rewrite yes_no_loop_eof by done. rewrite <- Hs. simpl. eauto.
  - rewrite (yes_no_loop_cons _ _ _ _ _ _ l rest) by done.
    rewrite <- Hs. cbn [first_answer]. cbv zeta.
    destruct (PyStr.is_yes (PyStr.lower (PyStr.strip l))).
    { match goal with |- ∃ s', ?m ?s1 = _ ∧ _ => exists (m s1).2 end.
      split; [reflexivity|]. simpl. lia. }
    destruct (PyStr.is_no (PyStr.lower (PyStr.strip l))).
    { match goal with |- ∃ s', ?m ?s1 = _ ∧ _ => exists (m s1).2 end.
      split; [reflexivity|]. simpl. lia. }
    match goal with |- context [yes_no_loop _ _ _ _ rest ?s1] =>
      specialize (IH s1 eq_refl) end.
    simpl in IH. destruct (first_answer rest); [|exact IH].
    destruct IH as (s' & Hrun & Hnow). exists s'. split; [exact Hrun|lia].
Qed.

Lemma get_yes_no_input_unchecked (env : Env) (prompt : string) (s : State) :
  match first_answer (stdin s) with
  | Some b =>
      ∃ s', get_yes_no_input env prompt false s
              = (Ret (PyBool b,
                      PyStr.int_of_float
                        (clock env (Nat.pred (now s')) - clock env (now s))),
                 s') ∧
            (now s < Nat.pred (now s'))%nat
  | None => ∃ s', get_yes_no_input env prompt false s = (Raise EOF_TEXT, s')
  end.
Proof.
  unfold get_yes_no_input.
  pose proof (yes_no_loop_unchecked env prompt (clock env (now s)) (stdin s)
                (with_now (S (now s)) s) eq_refl) as H.
  simpl in H. destruct (first_answer (stdin s)); [|exact H].
  destruct H as (s' & Hrun & Hnow). exists s'. split; [exact Hrun|lia].
Qed.

(** ** The SSH group never asks for a restart *)

Section SshGroup.

Variable env : Env.

Lemma no_ctl_in_tests_to_run (tid : string) : no_loop_control (in_tests_to_run tid).
Proof. apply no_ctl_gets. Qed.

#[local] Hint Resolve no_ctl_in_tests_to_run : noctl.

Lemma no_ctl_fail_ssh_tests (ids : list string) :
  no_loop_control (fail_ssh_tests env ids).
Proof. induction ids as [|tid ids IH]; simpl; noctl'. Qed.

Lemma no_ctl_ssh_usb_tests : no_loop_control (ssh_usb_tests env).
Proof. unfold ssh_usb_tests, sleep. noctl'. Qed.

Lemma no_ctl_ssh_rgb_led_test : no_loop_control (ssh_rgb_led_test env).
Proof. unfold ssh_rgb_led_test, sleep. noctl'. Qed.

Lemma no_ctl_ssh_sd_card_test : no_loop_control (ssh_sd_card_test env).
Proof. unfold ssh_sd_card_test, sleep. noctl'. Qed.

Lemma no_ctl_ssh_camera_test : no_loop_control (ssh_camera_test env).
Proof. unfold ssh_camera_test. noctl'. Qed.

#[local] Hint Resolve no_ctl_fail_ssh_tests no_ctl_ssh_usb_tests
  no_ctl_ssh_rgb_led_test no_ctl_ssh_sd_card_test no_ctl_ssh_camera_test : noctl.

Lemma no_ctl_perform_ssh_tests : no_loop_control (perform_ssh_tests env).
Proof. unfold perform_ssh_tests. noctl'. Qed.

End SshGroup.

(** C10 (amended): with the continue-check disabled the yes/no prompt
    returns the boolean of the operator's first valid answer (True on yes,
    False on no), it raises [EOFError] when the input ends before a valid
    answer, and it never returns the restart signal [None].  The duration
    is the integer part of the difference between the wall clock read when
    the answer is in and the wall clock read at the start: it is not
    negative when the second reading is not before the first.  The RGB LED
    test, which prompts this way, and the whole SSH group never leave a
    pending [continue], so they cannot restart the session. *)
Theorem unchecked_prompt_never_restarts (env : Env) (prompt : string) (s : State) :
  match first_answer (stdin s) with
  | Some b =>
      ∃ duration s',
        get_yes_no_input env prompt false s = (Ret (PyBool b, duration), s') ∧
        (now s < Nat.pred (now s'))%nat ∧
        duration
          = PyStr.int_of_float (clock env (Nat.pred (now s')) - clock env (now s)) ∧
        ((clock env (now s) <= clock env (Nat.pred (now s')))%Q → 0 ≤ duration)
  | None => ∃ s', get_yes_no_input env prompt false s = (Raise EOF_TEXT, s')
  end ∧
  (ssh_rgb_led_test env s).1 ≠ Continue ∧
  (perform_ssh_tests env s).1 ≠ Continue.
Proof.
  split.
  - pose proof (get_yes_no_input_unchecked env prompt s) as H.
    destruct (first_answer (stdin s)); [|exact H].
    destruct H as (s' & Hrun & Hnow). do 2 eexists.
    split; [exact Hrun|]. split; [exact Hnow|]. split; [done|].
    intros Hle. apply int_of_float_nonneg.
    unfold Qminus. by rewrite <- Qle_minus_iff.
  - split; [apply no_ctl_ssh_rgb_led_test | apply no_ctl_perform_ssh_tests].
Qed.

(** C10 (as stated, refuted): the duration is negative when the wall clock
    is set back while the prompt waits.  The clock reads 10 at the start and
    7.5 when the operator's yes is in: the prompt returns True with the
    duration -2. *)
Lemma unchecked_prompt_negative_duration :
  let r := get_yes_no_input lab_env_clock_set_back
             "Did you see the RGB LED cycle through different colors?"
             false (boot ["y"]) in
  r.1 = Ret (PyBool true, -2) ∧ ¬ (0 ≤ -2).
Proof. split; [vm_compute; reflexivity | lia]. Qed.

(** ** Firmware upload *)

Lemma elapsed_since_eq (env : Env) (start : Q) (s : State) :
  elapsed_since env start s =
    (Ret (PyStr.int_of_float (clock env (now s) - start)),
     with_now (S (now s)) s).
Proof. reflexivity. Qed.

Lemma fail_T01_post (env : Env) (start : Q) (details : string) (s : State) :
  ∃ s', fail_T01 env start details s = (Ret false, s') ∧
        T01_recorded false (test_result s) (test_result s').
Proof.
  unfold fail_T01, elapsed_since, time_time.
  unfold bind, gets, tick, modify, ret. simpl.
  rewrite (set_test_result_eq _ _ "Firmware Upload") by done.
  eexists. split; [reflexivity|]. simpl. by do 3 eexists.
Qed.

Ltac fail_now env :=
  match goal with
  | |- context [fail_T01 env ?st ?d ?s0] =>
      let s' := fresh "s'" in
      let H := fresh "H" in
      destruct (fail_T01_post env st d s0) as (s' & -> & H);
      by exists false, s'
  end.

Ltac use_IH IH :=
  match goal with
  | |- context [upload_files _ _ _ _ ?s0] => exact (IH s0)
  end.

Lemma upload_files_post (env : Env) (port : string) (start : Q)
    (files : list string) (s : State) :
  ∃ b s', upload_files env port start files s = (Ret b, s') ∧
          if b then test_result s' = test_result s
          else T01_recorded false (test_result s) (test_result s').
Proof.
  revert s. induction files as [|f files IH]; intros s; simpl.
  - by exists true, s.
  - unfold bind at 1. unfold gets at 1. unfold bind at 1. unfold tick at 1, modify at 1.
    destruct (bhv_exists env (now s) f); simpl.
    2: { use_IH IH. }
    unfold bind at 1. unfold gets at 1. unfold bind at 1. unfold tick at 1, modify at 1.
    simpl. destruct (ampy_put env (S (now s)) port f) as [[rc err]|e].
    + destruct (rc =? 0); simpl; [use_IH IH | fail_now env].
    + fail_now env.
Qed.

Ltac norm_state :=
  cbn [now stdin trace excel test_result ssh restart_test with_now with_stdin
       with_trace with_excel with_test_result with_ssh with_restart_test].

Ltac norm_state_in H :=
  cbn [now stdin trace excel test_result ssh restart_test with_now with_stdin
       with_trace with_excel with_test_result with_ssh with_restart_test] in H.

Lemma upload_firmware_wipe_post (env : Env) (s : State) :
  ∃ b s', upload_firmware_wipe env s = (Ret b, s') ∧
          T01_recorded b (test_result s) (test_result s').
Proof.
  unfold upload_firmware_wipe, wait_for_rp2_device, wait_for_rp2_disappear,
    flash_uf2_file, sleep, time_time.
  rewrite !read_tick_bind. norm_state.
  destruct (rp2_appears env _) as [v|];
    cbn [negb bool_decide decide_rel is_Some_dec]; [|fail_now env].
  rewrite read_tick_bind. norm_state.
  destruct (flash_uf2 env _ _); cbn [negb]; [|fail_now env].
  rewrite read_tick_bind. norm_state.
  destruct (rp2_disappears env _); cbn [negb]; [|fail_now env].
  rewrite tick_bind, read_tick_bind. norm_state.
  destruct (rp2_appears env _) as [v'|];
    cbn [negb bool_decide decide_rel is_Some_dec]; [|fail_now env].
  rewrite read_tick_bind. norm_state.
  destruct (flash_uf2 env _ _); cbn [negb]; [|fail_now env].
  rewrite read_tick_bind. norm_state.
  rewrite tick_bind. norm_state. rewrite gets_bind, tick_bind. norm_state.
  destruct (uart_ports env _) as [|port ports]; [fail_now env|].
  unfold bind at 1.
  match goal with
  | |- context [upload_files env ?p ?st ?fs ?s0] =>
      destruct (upload_files_post env p st fs s0) as (b & s1 & -> & H)
  end.
  destruct b; cbn [negb].
  - rewrite (bind_eq _ _ _ _ _ (elapsed_since_eq _ _ _)).
    unfold bind at 1.
    rewrite (set_test_result_eq _ _ "Firmware Upload") by done.
    exists true. eexists. split; [reflexivity|].
    norm_state. norm_state_in H. rewrite H.
    by do 3 eexists.
  - exists false, s1. done.
Qed.

Global Instance same_io_now (s0 : State) : NowStable (same_io s0).
Proof. by intros n s H. Qed.
Global Instance same_io_ledger (s0 : State) : LedgerStable (same_io s0).
Proof. by intros r s H. Qed.

Lemma T01_recorded_fields (b : bool) (r0 r : TestResult) :
  T01_recorded b r0 r →
  test_results r = <["T01" := PyBool b]> (test_results r0) ∧
  tests_to_run r = tests_to_run r0 ∧
  ∃ entry, log_file r = log_file r0 ++ [entry] ∧ log_test_id entry = "T01" ∧
           log_status entry = (if b then "PASS" else "FAIL").
Proof. intros (t & d & details & ->). simpl. repeat split. by eexists. Qed.

Lemma overall_pass_false_of_fail (r : TestResult) (tid : string) :
  test_results r !! tid = Some (PyBool false) → compute_overall_pass r = false.
Proof.
  intros H. apply not_true_is_false. rewrite compute_overall_pass_true.
  intros [_ Hall]. by specialize (Hall tid (PyBool false) H ltac:(done)).
Qed.



(** Scenario A of the specification, run on the bench. *)
Lemma scenario_flash_nuke_failed :
  let r := session (lab_env_nuke_fails {["T01"]}) (boot ["7"; ""]) in
  r.1 = Continue ∧ restart_test r.2 = false ∧ stdin r.2 = [] ∧
  (log_details <$> log_file (test_result r.2)) = ["Flash nuke failed"] ∧
  (row_tests <$> excel r.2) =
    [[("T01", "FAIL"); ("T02", "SKIPPED"); ("T03", "SKIPPED");
      ("T04", "SKIPPED"); ("T05", "SKIPPED"); ("T06", "SKIPPED");
      ("T07", "SKIPPED"); ("T09", "SKIPPED"); ("T10", "SKIPPED");
      ("T11", "SKIPPED"); ("T12", "SKIPPED"); ("T13", "SKIPPED");
      ("T14", "SKIPPED")]] ∧
  (row_overall_pass <$> excel r.2) = [false] ∧
  (row_notes <$> excel r.2) = ["Firmware upload failed"].
Proof. vm_compute. repeat split. Qed.

(** ** The UI group *)

Lemma returns_bind {A B} (Q : B → Prop) (m : M A) (k : A → M B) :
  (∀ a, returns_only Q (k a)) → returns_only Q (bind m k).
Proof.
  intros Hk s b s' H. apply bind_ret_inv in H as (a & s1 & _ & H). by eapply Hk.
Qed.

Lemma returns_ret {A} (Q : A → Prop) (a : A) : Q a → returns_only Q (ret a).
Proof. intros H s a' s' [= <- _]. done. Qed.

Lemma returns_raise {A} (Q : A → Prop) (e : string) : returns_only Q (raise e).
Proof. by intros s a s' H. Qed.

Lemma yes_no_loop_returns (env : Env) (prompt : string) (allow : bool)
    (start : Q) (pending : list string) :
  returns_only (λ x, x.1 ≠ PySKIPPED) (yes_no_loop env prompt allow start pending).
Proof.
  induction pending as [|l pending IH]; cbn [yes_no_loop];
    repeat first
      [ apply returns_bind; intros ?
      | apply returns_ret; done
      | apply returns_raise
      | exact IH
      | match goal with |- returns_only _ (if ?c then _ else _) => destruct c end ].
Qed.

Lemma get_yes_no_input_returns (env : Env) (prompt : string) (allow : bool) :
  returns_only (λ x, x.1 ≠ PySKIPPED) (get_yes_no_input env prompt allow).
Proof.
  unfold get_yes_no_input. do 2 (apply returns_bind; intros ?).
  apply yes_no_loop_returns.
Qed.

Global Instance same_ledger_now (s0 : State) : NowStable (same_ledger s0).
Proof. by intros n s H. Qed.
Global Instance same_ledger_stdin (s0 : State) : StdinStable (same_ledger s0).
Proof. by intros n s H. Qed.
Global Instance same_ledger_trace (s0 : State) : TraceStable (same_ledger s0).
Proof. by intros n s H. Qed.
Global Instance same_ledger_ssh (s0 : State) : SshStable (same_ledger s0).
Proof. by intros n s H. Qed.
Global Instance same_ledger_restart (s0 : State) : RestartStable (same_ledger s0).
Proof. by intros n s H. Qed.

Lemma operator_check_ret (env : Env) (tid prompt : string) (s s' : State)
    (r : py_result) :
  operator_check env tid prompt s = (Ret r, s') →
  ∃ b, r = PyBool b ∧
       test_results (test_result s')
         = <[tid := PyBool b]> (test_results (test_result s)) ∧
       tests_to_run (test_result s') = tests_to_run (test_result s).
Proof.
  unfold operator_check. intros H.
  apply bind_ret_inv in H as ([r0 d] & s1 & Hget & H).
  pose proof (get_yes_no_input_returns env prompt true _ _ _ Hget) as Hr0.
  pose proof (preserves_get_yes_no_input env (same_ledger s) prompt true s) as Hfr.
  rewrite Hget in Hfr. destruct Hfr as [Htr _]; [done|]. simpl in *.
  destruct r0 as [|b|]; [done| |done].
  apply bind_ret_inv in H as ([] & s2 & Hset & [= <- <-]).
  destruct (TEST_IDS !! tid) as [name|] eqn:Hname.
  - rewrite (set_test_result_eq _ _ name) in Hset by done.
    injection Hset as <-. exists b. simpl. by rewrite Htr.
  - exfalso. revert Hset. unfold set_test_result. rewrite Hname.
    by unfold bind, modify_test_result, modify, time_time, gets, tick, modify,
      ret, raise.
Qed.

Lemma guarded_check_ret (env : Env) (tid prompt : string) (s s' : State) :
  (let* selected := in_tests_to_run tid in
   when selected (operator_check env tid prompt ;; ret tt)) s = (Ret tt, s') →
  tests_to_run (test_result s') = tests_to_run (test_result s) ∧
  if bool_decide (tid ∈ tests_to_run (test_result s))
  then ∃ b, test_results (test_result s')
              = <[tid := PyBool b]> (test_results (test_result s))
  else s' = s.
Proof.
  unfold bind at 1. unfold in_tests_to_run, gets.
  destruct (bool_decide (tid ∈ tests_to_run (test_result s))); simpl.
  - intros H. apply bind_ret_inv in H as (r & s1 & Hop & [= <-]).
    apply operator_check_ret in Hop as (b & _ & Hres & Hsel). eauto.
  - by intros [= <-].
Qed.

(** A UI group that runs to its end with the gate open has recorded a
    verdict for every selected one of T06 and T07; with the gate closed it is
    the T05 check alone, answered No. *)
Lemma ui_steps_ret (env : Env) (s s' : State) :
  ui_steps env s = (Ret tt, s') →
  tests_to_run (test_result s') = tests_to_run (test_result s) ∧
  (gate_open (test_result s') →
   ∀ tid, tid = "T06" ∨ tid = "T07" → tid ∈ tests_to_run (test_result s) →
          ∃ b, test_results (test_result s') !! tid = Some (PyBool b)) ∧
  (¬ gate_open (test_result s') →
   operator_check env "T05" UI_PROMPT s = (Ret (PyBool false), s')).
Proof.
  intros H. unfold gate_open.
  assert (∀ s5 : State,
    tests_to_run (test_result s5) = tests_to_run (test_result s) →
    ((let* selected := in_tests_to_run "T06" in
      when selected
        (operator_check env "T06" "Press a button. Does the button show on dmesg?" ;;
         ret tt)) ;;
     (let* selected := in_tests_to_run "T07" in
      when selected
        (operator_check env "T07" "Was your voice successfully transcribed?" ;;
         ret tt))) s5 = (Ret tt, s') →
    tests_to_run (test_result s') = tests_to_run (test_result s) ∧
    test_results (test_result s') !! "T05" = test_results (test_result s5) !! "T05" ∧
    ∀ tid, tid = "T06" ∨ tid = "T07" → tid ∈ tests_to_run (test_result s) →
           ∃ b, test_results (test_result s') !! tid = Some (PyBool b)) as Hblocks.
  { intros s5 Hsel5 Hb.
    apply bind_ret_inv in Hb as ([] & s6 & H6 & H7).
    apply guarded_check_ret in H6 as [Hsel6 H6].
    apply guarded_check_ret in H7 as [Hsel7 H7].
    rewrite Hsel6 in H7. rewrite Hsel5 in H6, H7.
    split; [by rewrite Hsel7, Hsel6|].
    split.
    - destruct (bool_decide ("T06" ∈ _)), (bool_decide ("T07" ∈ _));
        repeat match goal with
               | H : ∃ _, _ |- _ => destruct H as [? H]
               | H : _ = _ |- _ => rewrite H
               end; by simplify_map_eq.
    - intros tid [-> | ->] Hin; rewrite (bool_decide_eq_true_2 _ Hin) in *.
      + destruct H6 as [b6 H6]. destruct (bool_decide ("T07" ∈ _)).
        * destruct H7 as [b7 H7]. exists b6. rewrite H7, H6. by simplify_map_eq.
        * subst s'. exists b6. rewrite H6. by simplify_map_eq.
      + destruct H7 as [b7 H7]. exists b7. rewrite H7. by simplify_map_eq. }
  unfold ui_steps in H. unfold bind at 1 in H. unfold in_tests_to_run at 1, gets in H.
  destruct (bool_decide ("T05" ∈ tests_to_run (test_result s))) eqn:Hsel.
  - apply bool_decide_eq_true in Hsel.
    apply bind_ret_inv in H as (ui & s5 & H5 & H).
    apply bind_ret_inv in H5 as (r5 & s5' & Hop & [= <- <-]).
    pose proof Hop as Hop'.
    apply operator_check_ret in Hop' as (b5 & -> & Hres5 & Hsel5).
    fold UI_PROMPT in Hop. destruct b5; simpl in H.
    + apply Hblocks in H as (Hsel' & H05 & Hrec); [|done].
      assert (test_results (test_result s') !! "T05" = Some (PyBool true)) as Hpass.
      { rewrite H05, Hres5. by simplify_map_eq. }
      split; [done|].
      split; [intros _; exact Hrec|]. intros Hn. exfalso. apply Hn. by right.
    + injection H as <-. split; [done|]. split.
      * intros [Hn | Hp]; [by rewrite Hsel5 in Hn|].
        rewrite Hres5 in Hp. by simplify_map_eq.
      * intros _. done.
  - apply bool_decide_eq_false in Hsel. simpl in H.
    apply Hblocks in H as (Hsel' & _ & Hrec); [|done].
    split; [done|].
    split; [intros _; exact Hrec|]. intros Hn. exfalso. apply Hn. left.
    by rewrite Hsel'.
Qed.

(** ** The SSH group after a failed initial connection *)

Lemma preserves_fail_ssh_tests (env : Env) (I : State → Prop)
    `{!NowStable I, !LedgerStable I} (ids : list string) :
  preserves I (fail_ssh_tests env ids).
Proof.
  induction ids as [|tid ids IH]; cbn [fail_ssh_tests]; [apply preserves_ret|].
  unfold in_tests_to_run. keeps'.
Qed.

Lemma fail_ssh_tests_post (env : Env) (ids : list string) :
  Forall (λ tid, is_Some (TEST_IDS !! tid)) ids →
  ∀ s, ∃ s', fail_ssh_tests env ids s = (Ret tt, s') ∧
             ssh_tests_failed ids (test_result s) (test_result s').
Proof.
  induction 1 as [|tid ids [name Hname] _ IH]; intros s.
  - exists s. split; [done|]. split; [done|]. split; [done|]. split; [|split].
    all: try done.
    all: by intros k Hin; apply elem_of_nil in Hin.
  - cbn [fail_ssh_tests]. unfold in_tests_to_run. rewrite gets_bind.
    destruct (decide (tid ∈ tests_to_run (test_result s))) as [Hsel|Hsel].
    + rewrite bool_decide_eq_true_2 by done. cbn [when].
      unfold bind at 1. rewrite (set_test_result_eq _ _ name) by done.
      match goal with |- context [fail_ssh_tests env ids ?s1] =>
        destruct (IH s1) as (s' & -> & Hsel' & Hnotes & Hfail & Hkeep & Hlog) end.
      exists s'. split; [done|]. norm_state_in Hsel'. norm_state_in Hnotes.
      norm_state_in Hfail. norm_state_in Hkeep. norm_state_in Hlog.
      cbn [tests_to_run notes test_results test_durations log_file append_log
           store_result] in *.
      split; [done|]. split; [done|]. split; [|split].
      * intros k Hk Hksel. destruct (decide (k ∈ ids)) as [Hin|Hnin].
        { by apply Hfail. }
        apply elem_of_cons in Hk as [->|Hk]; [|done].
        destruct (Hkeep tid) as [-> ->]; [by intros [? _]|].
        rewrite !lookup_insert_eq. split; [done|]. split; [done|].
        eexists. split; [apply Hlog, elem_of_app; right; apply list_elem_of_singleton; reflexivity|].
        done.
      * intros k Hk.
        destruct (Hkeep k) as [-> ->].
        { intros [Hin Hksel]. apply Hk. split; [by right|done]. }
        assert (k ≠ tid) as Hne.
        { intros ->. apply Hk. split; [by left|done]. }
        by rewrite !lookup_insert_ne.
      * intros entry Hin. apply Hlog, elem_of_app. by left.
    + rewrite bool_decide_eq_false_2 by done. cbn [when].
      unfold bind at 1. unfold ret at 1.
      destruct (IH s) as (s' & -> & Hsel' & Hnotes & Hfail & Hkeep & Hlog).
      exists s'. split; [done|]. split; [done|]. split; [done|]. split; [|split].
      * intros k Hk Hksel. apply elem_of_cons in Hk as [->|Hk]; [done|].
        by apply Hfail.
      * intros k Hk. apply Hkeep. intros [Hin Hksel]. apply Hk.
        split; [by right|done].
      * done.
Qed.

Lemma assign_ssh_eq (env : Env) (n : nat) (s s1 : State) (c : option nat) :
  reconnect_ssh env n s = (Ret c, s1) →
  assign_ssh env n s = (Ret c, with_ssh c s1).
Proof. intros H. unfold assign_ssh. by rewrite (bind_eq _ _ _ _ _ H). Qed.

Lemma ssh_test_ids_in_catalog :
  Forall (λ tid, is_Some (TEST_IDS !! tid)) SSH_TEST_IDS.
Proof. unfold SSH_TEST_IDS. repeat (apply Forall_cons; split; [eexists; vm_compute; reflexivity|]).
  apply Forall_nil_2.
Qed.

Lemma any_selected_true (tests : list string) (s : State) (tid : string) :
  tid ∈ tests → tid ∈ tests_to_run (test_result s) →
  any_selected tests s = (Ret true, s).
Proof.
  intros Hin Hsel. unfold any_selected, gets. f_equal. f_equal.
  apply existsb_exists. exists tid. split; [by apply list_elem_of_In|].
  by apply bool_decide_eq_true_2.
Qed.

(** When the initial connection of the SSH group fails after its five
    attempts, every selected test of T09..T14 is recorded Fail with duration
    0 and the log detail "SSH connection failed", no remote command is run
    and no other entry changes, the notes say so, and the session goes on to
    finalize. *)
Lemma initial_connection_failure_post (env : Env) (s s1 : State) :
  (∃ tid, tid ∈ SSH_TEST_IDS ∧ tid ∈ tests_to_run (test_result s)) →
  reconnect_ssh env 5 s = (Ret None, s1) →
  ∃ s',
    (ssh_step env ;; save_to_excel) s = (Ret tt, s') ∧
    (∀ tid, tid ∈ SSH_TEST_IDS → tid ∈ tests_to_run (test_result s) →
       test_results (test_result s') !! tid = Some (PyBool false) ∧
       test_durations (test_result s') !! tid = Some (Some 0) ∧
       ∃ entry, entry ∈ log_file (test_result s') ∧ log_test_id entry = tid ∧
                log_status entry = "FAIL" ∧
                log_details entry = "SSH connection failed") ∧
    (∀ tid, ¬ (tid ∈ SSH_TEST_IDS ∧ tid ∈ tests_to_run (test_result s)) →
       test_results (test_result s') !! tid
         = test_results (test_result s) !! tid) ∧
    trace s' = trace s1 ∧ stdin s' = stdin s1 ∧
    notes (test_result s')
      = (notes (test_result s)
           +:+ " Initial SSH connection failed after 5 attempts.")
          +:+ " SSH tests incomplete." ∧
    overall_pass (test_result s') = false ∧
    excel s' = excel s ++ [make_row (test_result s')].
Proof.
  intros (tid0 & Hin0 & Hsel0) Hrec.
  assert (same_ledger s s1) as [Htr1 Hex1].
  { pose proof (preserves_reconnect_ssh env (same_ledger s) 5 s) as H.
    rewrite Hrec in H. by apply H. }
  pose (sA := (append_notes " Initial SSH connection failed after 5 attempts."
                 (with_ssh None s1)).2).
  destruct (fail_ssh_tests_post env SSH_TEST_IDS ssh_test_ids_in_catalog sA)
    as (sB & HB & Hsel & Hnotes & Hfail & Hkeep & Hlog).
  assert (same_io sA sB) as (Hin & Htr & Hex & _ & _).
  { pose proof (preserves_fail_ssh_tests env (same_io sA) SSH_TEST_IDS sA) as H.
    rewrite HB in H. by apply H. }
  assert (perform_ssh_tests env s = (Ret false, sB)) as Hperf.
  { unfold perform_ssh_tests. rewrite (bind_eq _ _ _ _ _ (assign_ssh_eq _ _ _ _ _ Hrec)).
    unfold bind at 1.
    change (append_notes " Initial SSH connection failed after 5 attempts."
              (with_ssh None s1))
      with (Ret tt, sA).
    unfold bind at 1. by rewrite HB. }
  assert (ssh_step env s =
          (Ret tt, (append_notes " SSH tests incomplete." sB).2)) as Hstep.
  { unfold ssh_step. rewrite (bind_eq _ _ _ _ _ (any_selected_true _ _ tid0 Hin0 Hsel0)).
    cbn [when]. by rewrite (bind_eq _ _ _ _ _ Hperf). }
  eexists. split.
  { rewrite (bind_eq _ _ _ _ _ Hstep). apply save_to_excel_eq. }
  subst sA.
  cbn [append_notes modify_test_result modify snd test_result with_test_result
       with_ssh with_excel now stdin trace excel ssh restart_test
       tests_to_run notes test_results test_durations log_file
       assign_overall_pass overall_pass] in *.
  rewrite Htr1 in *.
  split; [exact Hfail|]. split; [intros tid Hn; by apply Hkeep|].
  split; [exact Htr|]. split; [exact Hin|]. split; [by rewrite Hnotes|].
  split.
  { apply (overall_pass_false_of_fail _ tid0). cbn [test_results].
    by apply Hfail. }
  by rewrite Hex, Hex1.
Qed.

(** ** Reconnect and retry *)

Lemma executions_app (command : string) (t1 t2 : list event) :
  executions command (t1 ++ t2) = (executions command t1 + executions command t2)%nat.
Proof. unfold executions. by rewrite List.filter_app, length_app. Qed.

Lemma connect_attempts_app (t1 t2 : list event) :
  connect_attempts (t1 ++ t2) = (connect_attempts t1 + connect_attempts t2)%nat.
Proof. unfold connect_attempts. by rewrite List.filter_app, length_app. Qed.

Lemma ssh_execute_command_trace (env : Env) (c : option nat) (command : string)
    (send_enter : bool) (s : State) :
  trace (ssh_execute_command env c command send_enter s).2
    = trace s ++ (if c is Some _ then [EvExec command] else []).
Proof.
  unfold ssh_execute_command, try_except.
  destruct c as [c|]; [|by rewrite app_nil_r].
  rewrite gets_bind, tick_bind. unfold bind at 1. unfold log_event at 1, modify at 1.
  norm_state. unfold when.
  destruct (ssh_exec env (now s) command) as [[[]|e1] sw so se]; cbn; [|done].
  destruct send_enter, sw as [[]|e2], so as [o|e3], se as [o'|e4]; cbn; done.
Qed.

Lemma wait_for_enter_trace (prompt : string) (s : State) :
  ∃ t, trace (wait_for_enter prompt s).2 = trace s ++ t ∧
       (∀ command, executions command t = 0%nat) ∧ connect_attempts t = 0%nat.
Proof.
  unfold wait_for_enter, bind, input. destruct (stdin s) as [|l rest].
  - exists []. by rewrite app_nil_r.
  - eexists [_]. split; [reflexivity|]. done.
Qed.

Lemma reconnect_loop_trace (env : Env) (max : nat) (remaining attempt : nat)
    (s : State) :
  ∃ t, trace (reconnect_loop env max attempt remaining s).2 = trace s ++ t ∧
       (∀ command, executions command t = 0%nat) ∧
       (connect_attempts t ≤ remaining)%nat.
Proof.
  revert attempt s. induction remaining as [|r IH]; intros attempt s.
  - exists []. cbn. split; [by rewrite app_nil_r|]. split; [done|]. cbn. lia.
  - cbn [reconnect_loop]. rewrite gets_bind, tick_bind. unfold bind at 1.
    unfold log_event at 1, modify at 1. norm_state.
    destruct (ssh_connect env (now s)) as [[]|e].
    + eexists [_]. split; [reflexivity|]. split; [done|]. cbn. lia.
    + destruct (attempt <? max - 1)%nat.
      * unfold bind at 1.
        match goal with |- context [wait_for_enter ?p ?s1] =>
          destruct (wait_for_enter_trace p s1) as (t1 & Ht1 & He1 & Hc1);
          destruct (wait_for_enter p s1) as [[[]|e'| |] s2] eqn:Hw end;
          cbn [snd] in Ht1; norm_state_in Ht1; cbv beta iota; cbn [snd].
        2-4: exists (EvConnect (Raises e) :: t1); rewrite Ht1, <- app_assoc;
             (split; [done|]); split;
             [ intros command; specialize (He1 command);
               change (EvConnect (Raises e) :: t1) with ([EvConnect (Raises e)] ++ t1);
               rewrite executions_app, He1; done
             | change (EvConnect (Raises e) :: t1) with ([EvConnect (Raises e)] ++ t1);
               rewrite connect_attempts_app, Hc1; cbn; lia ].
        destruct (IH (S attempt) s2) as (t2 & Ht2 & He2 & Hc2).
        exists ((EvConnect (Raises e) :: t1) ++ t2).
        rewrite Ht2, Ht1, <- !app_assoc. split; [done|]. split.
        -- intros command.
           change (EvConnect (Raises e) :: t1) with ([EvConnect (Raises e)] ++ t1).
           rewrite !executions_app, He1, He2. done.
        -- change (EvConnect (Raises e) :: t1) with ([EvConnect (Raises e)] ++ t1).
           rewrite !connect_attempts_app, Hc1. cbn. lia.
      * eexists [_]. split; [reflexivity|]. split; [done|]. cbn. lia.
Qed.

Lemma executions_le_length (command : string) (t : list event) :
  (executions command t ≤ length t)%nat.
Proof. unfold executions. apply List.filter_length_le. Qed.

Lemma ssh_execute_command_total (env : Env) (c : option nat) (command : string)
    (send_enter : bool) (s : State) :
  ∃ output error s',
    ssh_execute_command env c command send_enter s = (Ret (output, error), s').
Proof.
  unfold ssh_execute_command, try_except.
  destruct c as [c|]; [|by do 3 eexists].
  rewrite gets_bind, tick_bind. unfold bind at 1. unfold log_event at 1, modify at 1.
  norm_state. unfold when.
  destruct (ssh_exec env (now s) command) as [[[]|e1] sw so se]; cbn;
    [|by do 3 eexists].
  destruct send_enter, sw as [[]|e2], so as [o|e3], se as [o'|e4]; cbn;
    by do 3 eexists.
Qed.

Lemma close_if_open_eq (s : State) :
  close_if_open s =
    (Ret tt, if ssh s is Some _ then with_trace (trace s ++ [EvClose]) s else s).
Proof. unfold close_if_open. rewrite gets_bind. by destruct (ssh s). Qed.

Lemma close_if_open_trace (s : State) :
  ∃ t, trace (close_if_open s).2 = trace s ++ t ∧
       (∀ command, executions command t = 0%nat) ∧ connect_attempts t = 0%nat.
Proof.
  rewrite close_if_open_eq. destruct (ssh s).
  - by exists [EvClose].
  - exists []. by rewrite app_nil_r.
Qed.

(** An interactive round that raises returns the bare text of the exception,
    without the "SSH_ERROR: " prefix the callers look for. *)
Lemma interactive_error_is_unmarked (env : Env) (c : nat) (command : string)
    (n : nat) (s : State) (e : string) :
  ssh_shell env (now s) command n = Raises e →
  (ssh_execute_interactive env (Some c) command n s).1 = Ret ("", e).
Proof.
  intros H. unfold ssh_execute_interactive, try_except.
  rewrite gets_bind, tick_bind. unfold bind at 1.
  unfold log_event at 1, modify at 1. rewrite H. reflexivity.
Qed.



(** On the bench of the witness the retry fails again and nothing follows:
    the command was sent exactly twice, with one connection attempt. *)
Lemma second_failure_is_final :
  let env := lab_env_without "lsblk" {["T13"]} in
  let r := run_with_reconnect env "lsblk" (ret tt) (with_ssh (Some 0%nat) (boot [])) in
  r.1 = Ret ("", "SSH_ERROR: Socket is closed") ∧
  trace r.2 = [EvExec "lsblk"; EvClose; EvConnect (Returns tt); EvExec "lsblk"].
Proof. vm_compute. done. Qed.


(** ** Skipped entries never change *)

Section SkippedFrozen.

Variable env : Env.
Variable sel : gset string.
Variable base : list Row.

Local Abbreviation Inv := (session_inv sel base).

Global Instance session_inv_now : NowStable Inv.
Proof. by intros n s H. Qed.
Global Instance session_inv_stdin : StdinStable Inv.
Proof. by intros n s H. Qed.
Global Instance session_inv_trace : TraceStable Inv.
Proof. by intros n s H. Qed.
Global Instance session_inv_ssh : SshStable Inv.
Proof. by intros n s H. Qed.
Global Instance session_inv_restart : RestartStable Inv.
Proof. by intros n s H. Qed.

Lemma inv_guard {A} (tid : string) (k : bool → M A) :
  (∀ b, (b = true → tid ∈ sel) → preserves Inv (k b)) →
  preserves Inv (bind (in_tests_to_run tid) k).
Proof.
  intros H s HI. unfold in_tests_to_run. rewrite gets_bind.
  apply H; [|done]. intros Hb%bool_decide_eq_true.
  destruct HI as [[<- _] _]. done.
Qed.

Lemma inv_modify_ledger (f : TestResult → TestResult) :
  (∀ r, skipped_frozen sel r → skipped_frozen sel (f r)) →
  preserves Inv (modify_test_result f).
Proof. intros Hf s [HI Hrows]. split; [by apply Hf|done]. Qed.

Lemma inv_append_notes (text : string) : preserves Inv (append_notes text).
Proof. apply inv_modify_ledger. by intros r H. Qed.

Lemma inv_assign_notes (text : string) : preserves Inv (assign_notes text).
Proof. apply inv_modify_ledger. by intros r H. Qed.

Lemma inv_set_test_result (tid : string) (result : py_result)
    (details : string) (duration : option Z) :
  tid ∈ sel → preserves Inv (set_test_result env tid result details duration).
Proof.
  intros Hsel. unfold set_test_result.
  apply preserves_bind; [|intros _].
  { apply inv_modify_ledger. intros r [Hr Hskip]. split; [done|].
    intros k Hk Hnk. destruct (Hskip k Hk Hnk) as (H1 & H2 & H3).
    assert (tid ≠ k) by (intros ->; done).
    cbn. rewrite lookup_insert_ne by done.
    split; [done|]. split; [|done].
    destruct duration; [by rewrite lookup_insert_ne|done]. }
  apply preserves_bind; [apply preserves_time_time; apply _|intros stamp].
  destruct (TEST_IDS !! tid) as [name|]; [|apply preserves_raise].
  apply inv_modify_ledger. intros r [Hr Hskip]. split; [done|].
  intros k Hk Hnk. destruct (Hskip k Hk Hnk) as (H1 & H2 & H3).
  cbn. split; [done|]. split; [done|].
  apply Forall_app. split; [done|]. apply Forall_singleton. cbn.
  intros ->. done.
Qed.

Lemma row_of_frozen_ledger (r : TestResult) :
  skipped_frozen sel r → row_shows_skipped sel (make_row r).
Proof.
  intros [_ Hskip] tid Hk Hn. destruct (Hskip tid Hk Hn) as (H1 & H2 & _).
  cbn [make_row row_tests row_durations]. split.
  - apply list_elem_of_fmap. exists tid. by rewrite H1.
  - apply list_elem_of_fmap. exists tid. by rewrite H1, H2.
Qed.

Lemma inv_save_to_excel : preserves Inv save_to_excel.
Proof.
  intros s [HI (rows & Hrows & Hall)]. rewrite save_to_excel_eq. cbn.
  assert (skipped_frozen sel
            (assign_overall_pass (compute_overall_pass (test_result s))
               (test_result s))) as HI' by done.
  split; [done|]. exists (rows ++ [make_row
    (assign_overall_pass (compute_overall_pass (test_result s)) (test_result s))]).
  split; [by rewrite Hrows, app_assoc|].
  apply Forall_app. split; [done|]. apply Forall_singleton.
  by apply row_of_frozen_ledger.
Qed.

#[local] Hint Resolve inv_append_notes inv_assign_notes inv_save_to_excel : keeps.

Ltac inv_step :=
  match goal with
  | |- preserves _ (bind (in_tests_to_run _) _) =>
      let Hsel := fresh "Hsel" in
      apply inv_guard; intros [] Hsel;
      [specialize (Hsel eq_refl) | clear Hsel]
  | |- preserves _ (when true _) => cbn [when]
  | |- preserves _ (when false _) => apply preserves_ret
  | |- preserves _ (set_test_result _ _ _ _ _) =>
      apply inv_set_test_result; assumption
  | |- preserves _ (gets _) => apply preserves_gets
  | |- preserves _ (any_selected _) => apply preserves_gets
  | _ => keeps_step
  end.
Ltac frozen := repeat first [inv_step | solve [eauto with keeps typeclass_instances]].

Lemma inv_fail_T01 (start : Q) (details : string) :
  "T01" ∈ sel → preserves Inv (fail_T01 env start details).
Proof. intros Hsel. unfold fail_T01. frozen. Qed.

Lemma inv_upload_files (port : string) (start : Q) (files : list string) :
  "T01" ∈ sel → preserves Inv (upload_files env port start files).
Proof.
  intros Hsel. pose proof (inv_fail_T01 start) as Hfail.
  induction files as [|f files IH]; cbn [upload_files]; frozen.
Qed.

Lemma inv_upload_firmware_wipe :
  "T01" ∈ sel → preserves Inv (upload_firmware_wipe env).
Proof.
  intros Hsel. pose proof (inv_fail_T01) as Hfail.
  pose proof (inv_upload_files) as Hfiles.
  unfold upload_firmware_wipe, wait_for_rp2_device, wait_for_rp2_disappear,
    flash_uf2_file, sleep.
  frozen.
Qed.

Lemma inv_operator_check (tid prompt : string) :
  tid ∈ sel → preserves Inv (operator_check env tid prompt).
Proof. intros Hsel. unfold operator_check. frozen. Qed.

Lemma inv_firmware_step : preserves Inv (firmware_step env).
Proof.
  pose proof inv_upload_firmware_wipe as Hup.
  unfold firmware_step. frozen.
Qed.

Lemma inv_visual_steps : preserves Inv (visual_steps env).
Proof.
  pose proof inv_operator_check as Hop.
  unfold visual_steps. frozen.
Qed.

Lemma inv_ui_steps : preserves Inv (ui_steps env).
Proof.
  pose proof inv_operator_check as Hop.
  unfold ui_steps. frozen.
Qed.

Lemma inv_fail_ssh_tests (ids : list string) :
  preserves Inv (fail_ssh_tests env ids).
Proof. induction ids as [|tid ids IH]; cbn [fail_ssh_tests]; frozen. Qed.

Lemma inv_ssh_usb_tests : preserves Inv (ssh_usb_tests env).
Proof. unfold ssh_usb_tests, sleep. frozen. Qed.

Lemma inv_ssh_rgb_led_test : preserves Inv (ssh_rgb_led_test env).
Proof. unfold ssh_rgb_led_test, sleep. frozen. Qed.

Lemma inv_ssh_sd_card_test : preserves Inv (ssh_sd_card_test env).
Proof.
  unfold ssh_sd_card_test, sleep. frozen.
  apply preserves_run_with_reconnect; try apply _. frozen.
Qed.

Lemma inv_ssh_camera_test : preserves Inv (ssh_camera_test env).
Proof.
  unfold ssh_camera_test. frozen.
  apply preserves_run_with_reconnect; try apply _. frozen.
Qed.

Lemma inv_perform_ssh_tests : preserves Inv (perform_ssh_tests env).
Proof.
  pose proof inv_fail_ssh_tests. pose proof inv_ssh_usb_tests.
  pose proof inv_ssh_rgb_led_test. pose proof inv_ssh_sd_card_test.
  pose proof inv_ssh_camera_test.
  unfold perform_ssh_tests. frozen.
Qed.

Lemma inv_ssh_step : preserves Inv (ssh_step env).
Proof. pose proof inv_perform_ssh_tests. unfold ssh_step. frozen. Qed.

Lemma inv_shutdown_step : preserves Inv (shutdown_step env).
Proof. unfold shutdown_step, ssh_close. frozen. Qed.

Lemma inv_session_steps : preserves Inv (session_steps env).
Proof.
  pose proof inv_firmware_step. pose proof inv_visual_steps.
  pose proof inv_ui_steps. pose proof inv_ssh_step. pose proof inv_shutdown_step.
  unfold session_steps. frozen.
Qed.

Lemma inv_session_on_error (e : string) : preserves Inv (session_on_error e).
Proof. unfold session_on_error. frozen. Qed.

End SkippedFrozen.

Lemma init_tests_lookup (ids : list string) (sel : gset string)
    (acc : gmap string py_result * gmap string (option Z)) (tid : string) :
  tid ∉ sel →
  (tid ∈ ids ∨ (acc.1 !! tid = Some PySKIPPED ∧ acc.2 !! tid = Some (Some 0))) →
  (init_tests ids sel acc).1 !! tid = Some PySKIPPED ∧
  (init_tests ids sel acc).2 !! tid = Some (Some 0).
Proof.
  intros Hsel. revert acc. induction ids as [|k ids IH]; intros acc Hin.
  - destruct Hin as [Hin|Hacc]; [by apply elem_of_nil in Hin|done].
  - cbn [init_tests]. apply IH.
    destruct (decide (tid ∈ ids)) as [|Hnin]; [by left|right].
    destruct (decide (k = tid)) as [->|Hne].
    + rewrite bool_decide_eq_false_2 by done. cbn. by rewrite !lookup_insert_eq.
    + destruct Hin as [Hin|Hacc].
      { apply elem_of_cons in Hin as [->|Hin]; done. }
      destruct (bool_decide (k ∈ sel)); cbn; by rewrite !lookup_insert_ne.
Qed.

Lemma init_frozen (stamp : Q) (dev : Z) (sel : gset string)
    (ver man : option string) :
  skipped_frozen sel (TestResult_init stamp dev sel ver man).
Proof.
  split; [done|]. intros tid Hk Hsel. cbn [TestResult_init test_results
    test_durations log_file].
  destruct (init_tests_lookup TEST_ID_KEYS sel (∅, ∅) tid Hsel) as [H1 H2];
    [by left|].
  split; [done|]. split; [done|]. apply Forall_nil_2.
Qed.

(** C4: for every catalog test outside the selection, the ledger holds
    Skipped with duration 0 at construction and still does when the session
    is over; no log line was ever written for it (so no [set_test_result]
    touched it), and every row the session appended to the workbook shows it
    SKIPPED with duration 0.  Each step of the sequencer (firmware, visual,
    UI and SSH groups, the save, the shutdown, the error handler) keeps this
    invariant. *)
Theorem skipped_entries_never_change (env : Env) (sel : gset string) (stamp : Q)
    (dev : Z) (ver man : option string) (s : State) (tid : string) :
  tid ∈ TEST_ID_KEYS → tid ∉ sel →
  let s0 := with_test_result (TestResult_init stamp dev sel ver man) s in
  let s' := (try_except (session_steps env) session_on_error s0).2 in
  (test_results (test_result s0) !! tid = Some PySKIPPED ∧
   test_durations (test_result s0) !! tid = Some (Some 0)) ∧
  (test_results (test_result s') !! tid = Some PySKIPPED ∧
   test_durations (test_result s') !! tid = Some (Some 0)) ∧
  Forall (λ entry, log_test_id entry ≠ tid) (log_file (test_result s')) ∧
  (∃ rows, excel s' = excel s ++ rows ∧
           Forall (λ row, (tid, "SKIPPED") ∈ row_tests row ∧
                          (tid, 0) ∈ row_durations row) rows) ∧
  (preserves (session_inv sel (excel s)) (firmware_step env) ∧
   preserves (session_inv sel (excel s)) (visual_steps env) ∧
   preserves (session_inv sel (excel s)) (ui_steps env) ∧
   preserves (session_inv sel (excel s)) (ssh_step env) ∧
   preserves (session_inv sel (excel s)) save_to_excel ∧
   preserves (session_inv sel (excel s)) (shutdown_step env) ∧
   ∀ e, preserves (session_inv sel (excel s)) (session_on_error e)).
Proof.
  intros Hk Hsel s0 s'.
  assert (session_inv sel (excel s) s0) as H0.
  { split; [apply init_frozen|]. exists []. split; [|apply Forall_nil_2].
    subst s0. cbn [excel with_test_result]. by rewrite app_nil_r. }
  assert (session_inv sel (excel s) s') as [[_ Hfinal] (rows & Hrows & Hall)].
  { apply (preserves_try _ _ _ (inv_session_steps env sel (excel s))
             (inv_session_on_error sel (excel s))). exact H0. }
  destruct H0 as [[_ Hinit] _].
  destruct (Hinit tid Hk Hsel) as (Hi1 & Hi2 & _).
  destruct (Hfinal tid Hk Hsel) as (Hf1 & Hf2 & Hf3).
  split; [exact (conj Hi1 Hi2)|]. split; [exact (conj Hf1 Hf2)|].
  split; [exact Hf3|]. split.
  { exists rows. split; [exact Hrows|]. eapply Forall_impl; [exact Hall|].
    intros row Hrow. exact (Hrow tid Hk Hsel). }
  split; [apply inv_firmware_step|]. split; [apply inv_visual_steps|].
  split; [apply inv_ui_steps|]. split; [apply inv_ssh_step|].
  split; [apply inv_save_to_excel|]. split; [apply inv_shutdown_step|].
  apply inv_session_on_error.
Qed.

Lemma skipped_entries_never_change_witness :
  let env := lab_env {["T02"; "T13"]} in
  let s0 := with_test_result (TestResult_init 0 7 {["T02"; "T13"]} None None)
              (boot [""; "y"; "n"; "n"]) in
  let s' := (try_except (session_steps env) session_on_error s0).2 in
  test_results (test_result s') !! "T05" = Some PySKIPPED ∧
  test_durations (test_result s') !! "T05" = Some (Some 0) ∧
  Forall (λ entry, log_test_id entry ≠ "T05") (log_file (test_result s')).
Proof.
  destruct (skipped_entries_never_change (lab_env {["T02"; "T13"]})
              {["T02"; "T13"]} 0 7 None None (boot [""; "y"; "n"; "n"]) "T05")
    as (_ & [H1 H2] & H3 & _).
  - unfold TEST_ID_KEYS, TEST_ID_ITEMS. cbn. repeat constructor.
  - apply (bool_decide_unpack _). vm_compute. exact I.
  - split; [exact H1|]. split; [exact H2|exact H3].
Defined.

(** ** The session loop ends *)

Section SessionFrames.

Variable env : Env.
Variable I : State → Prop.
Context `{!NowStable I, !InputStable I, !TraceStable I, !SshStable I,
          !RestartStable I, !LedgerStable I, !ExcelStable I}.

Lemma preserves_save_to_excel : preserves I save_to_excel.
Proof.
  unfold save_to_excel. apply preserves_bind; [|intros _].
  - apply preserves_modify_test_result; apply _.
  - apply preserves_modify. intros s. apply excel_stable.
Qed.

Lemma preserves_assign_notes (text : string) : preserves I (assign_notes text).
Proof. unfold assign_notes. apply preserves_modify_test_result; apply _. Qed.

Lemma preserves_in_tests_to_run (tid : string) : preserves I (in_tests_to_run tid).
Proof. apply preserves_gets. Qed.

Lemma preserves_any_selected (tests : list string) :
  preserves I (any_selected tests).
Proof. apply preserves_gets. Qed.

#[local] Hint Resolve preserves_save_to_excel preserves_assign_notes
  preserves_in_tests_to_run preserves_any_selected preserves_fail_ssh_tests : keeps.

Lemma preserves_operator_check (tid prompt : string) :
  preserves I (operator_check env tid prompt).
Proof. unfold operator_check. keeps'. Qed.

#[local] Hint Resolve preserves_operator_check : keeps.

Lemma preserves_firmware_step : preserves I (firmware_step env).
Proof. unfold firmware_step. keeps'. Qed.

Lemma preserves_visual_steps : preserves I (visual_steps env).
Proof. unfold visual_steps. keeps'. Qed.

Lemma preserves_ui_steps : preserves I (ui_steps env).
Proof. unfold ui_steps. keeps'. Qed.

Lemma preserves_ssh_usb_tests : preserves I (ssh_usb_tests env).
Proof. unfold ssh_usb_tests, sleep. keeps'. Qed.

Lemma preserves_ssh_rgb_led_test : preserves I (ssh_rgb_led_test env).
Proof. unfold ssh_rgb_led_test, sleep. keeps'. Qed.

Lemma preserves_ssh_sd_card_test : preserves I (ssh_sd_card_test env).
Proof.
  unfold ssh_sd_card_test, sleep. keeps'.
  apply preserves_run_with_reconnect; try apply _. keeps'.
Qed.

Lemma preserves_ssh_camera_test : preserves I (ssh_camera_test env).
Proof.
  unfold ssh_camera_test. keeps'.
  apply preserves_run_with_reconnect; try apply _. keeps'.
Qed.

#[local] Hint Resolve preserves_ssh_usb_tests preserves_ssh_rgb_led_test
  preserves_ssh_sd_card_test preserves_ssh_camera_test : keeps.

Lemma preserves_perform_ssh_tests : preserves I (perform_ssh_tests env).
Proof. unfold perform_ssh_tests. keeps'. Qed.

#[local] Hint Resolve preserves_perform_ssh_tests : keeps.

Lemma preserves_ssh_step : preserves I (ssh_step env).
Proof. unfold ssh_step. keeps'. Qed.

Lemma preserves_shutdown_step : preserves I (shutdown_step env).
Proof. unfold shutdown_step, ssh_close. keeps'. Qed.

#[local] Hint Resolve preserves_firmware_step preserves_visual_steps
  preserves_ui_steps preserves_ssh_step preserves_shutdown_step : keeps.

Lemma preserves_session_steps : preserves I (session_steps env).
Proof. unfold session_steps. keeps'. Qed.

Lemma preserves_session_on_error (e : string) : preserves I (session_on_error e).
Proof. unfold session_on_error. keeps'. Qed.

Lemma preserves_select_tests_to_run : preserves I (select_tests_to_run env).
Proof. unfold select_tests_to_run. keeps'. Qed.

Lemma preserves_new_test_result (dev : Z) (sel : gset string)
    (ver man : option string) :
  preserves I (new_test_result env dev sel ver man).
Proof.
  unfold new_test_result. keeps'. apply preserves_modify. intros s.
  apply ledger_stable.
Qed.

End SessionFrames.

Global Instance stdin_within_now (n : nat) : NowStable (stdin_within n).
Proof. by intros k s H. Qed.
Global Instance stdin_within_trace (n : nat) : TraceStable (stdin_within n).
Proof. by intros k s H. Qed.
Global Instance stdin_within_ssh (n : nat) : SshStable (stdin_within n).
Proof. by intros k s H. Qed.
Global Instance stdin_within_restart (n : nat) : RestartStable (stdin_within n).
Proof. by intros k s H. Qed.
Global Instance stdin_within_ledger (n : nat) : LedgerStable (stdin_within n).
Proof. by intros k s H. Qed.
Global Instance stdin_within_excel (n : nat) : ExcelStable (stdin_within n).
Proof. by intros k s H. Qed.
Global Instance stdin_within_input (n : nat) : InputStable (stdin_within n).
Proof.
  intros prompt s H. unfold stdin_within in *.
  destruct (stdin s) as [|l rest] eqn:Hs.
  - rewrite input_nil by done. cbn [snd]. by rewrite Hs.
  - rewrite (input_cons _ l rest) by done. cbn in *. lia.
Qed.

Lemma int_of_str_state {env : Env} (l : string) (s : State) :
  (int_of_str env l s).2 = s ∧
  ((∃ z, (int_of_str env l s).1 = Ret z) ∨ (∃ e, (int_of_str env l s).1 = Raise e)).
Proof.
  unfold int_of_str. destruct (PyStr.is_ascii l).
  - destruct (_ && _); cbn; eauto.
  - destruct (unicode_int env l); cbn; eauto.
Qed.

Lemma no_ctl_int_of_str (env : Env) (l : string) :
  no_loop_control (int_of_str env l).
Proof.
  intros s. destruct (int_of_str_state (env := env) l s) as [_ [[z H]|[e H]]];
    rewrite H; done.
Qed.

Lemma device_id_loop_consumes (env : Env) (pending : list string)
    (s s' : State) (z : Z) :
  device_id_loop env pending s = (Ret z, s') →
  (length (stdin s') < length (stdin s))%nat.
Proof.
  revert s. induction pending as [|x pending IH]; intros s;
    cbn [device_id_loop]; unfold bind at 1;
    destruct (stdin s) as [|l rest] eqn:Hs.
  - by rewrite input_nil.
  - rewrite (input_cons _ l rest) by done.
    destruct (isdigit env l); [|done]. intros H.
    match type of H with int_of_str _ _ ?s0 = _ =>
      pose proof (int_of_str_state (env := env) l s0) as [Hst _] end.
    rewrite H in Hst. cbn [snd] in Hst. subst s'. cbn. lia.
  - by rewrite input_nil.
  - rewrite (input_cons _ l rest) by done.
    destruct (isdigit env l).
    + intros H.
      match type of H with int_of_str _ _ ?s0 = _ =>
        pose proof (int_of_str_state (env := env) l s0) as [Hst _] end.
      rewrite H in Hst. cbn [snd] in Hst. subst s'. cbn. lia.
    + intros H. apply IH in H. cbn in H. cbn. lia.
Qed.

(** Likewise for the device id loop. *)
Lemma device_id_loop_measure (env : Env) (pending : list string) (s : State) :
  (length (stdin s) ≤ length pending)%nat →
  device_id_loop env pending s = device_id_loop env (stdin s) s.
Proof.
  revert s. induction pending as [|x pending IH]; intros s Hlen;
    destruct (stdin s) as [|l rest] eqn:Hs.
  - done.
  - cbn in Hlen. lia.
  - cbn [device_id_loop]. unfold bind. by rewrite input_nil.
  - cbn [device_id_loop]. unfold bind at 1 2.
    rewrite (input_cons _ l rest) by done.
    destruct (isdigit env l); [done|].
    rewrite IH; [done|]. cbn in *. lia.
Qed.

Lemma no_ctl_select_tests_to_run (env : Env) :
  no_loop_control (select_tests_to_run env).
Proof. unfold select_tests_to_run. noctl'. Qed.

Lemma no_ctl_device_id_loop (env : Env) (pending : list string) :
  no_loop_control (device_id_loop env pending).
Proof.
  induction pending as [|x pending IH]; cbn [device_id_loop];
    (apply no_ctl_bind; [noctl'|intros l]);
    (destruct (isdigit env l); [apply no_ctl_int_of_str|noctl']).
Qed.

Lemma session_consumes (env : Env) (s s' : State) (o : Outcome unit) :
  session env s = (o, s') → o = Ret tt ∨ o = Continue →
  (length (stdin s') < length (stdin s))%nat.
Proof.
  intros Hrun Ho. unfold session in Hrun.
  apply bind_inv in Hrun as [(sel & s1 & Hsel & Hrun)|Hstop].
  2: { pose proof (no_ctl_select_tests_to_run env s) as [Hc Hb].
       destruct Hstop as [(e & _ & ->)|[[Hs ->]|[_ ->]]];
         [by destruct Ho | by rewrite Hs in Hc | by destruct Ho]. }
  assert (length (stdin s1) ≤ length (stdin s))%nat as H1.
  { pose proof (preserves_select_tests_to_run env
                  (stdin_within (length (stdin s))) s) as H.
    rewrite Hsel in H. apply H. unfold stdin_within. lia. }
  apply bind_inv in Hrun as [([[dev ver] man] & s2 & Hdev & Hrun)|Hstop].
  2: { pose proof (no_ctl_device_id_loop env (stdin s1) s1) as [Hc Hb].
       unfold get_device_id_with_qr in Hstop. rewrite gets_bind in Hstop.
       destruct Hstop as [(e & _ & ->)|[[Hs ->]|[_ ->]]];
         [by destruct Ho | | by destruct Ho].
       apply bind_inv in Hs as [(z & s2 & _ & Hs)|[(e & _ & Hs)|[[Hs _]|[_ Hs]]]];
         try done. by rewrite Hs in Hc. }
  assert (length (stdin s2) < length (stdin s1))%nat as H2.
  { unfold get_device_id_with_qr in Hdev. rewrite gets_bind in Hdev.
    apply bind_ret_inv in Hdev as (z & s2' & Hloop & [= _ _ _ <-]).
    by apply device_id_loop_consumes in Hloop. }
  assert (preserves (stdin_within (length (stdin s2)))
            (new_test_result env dev sel ver man ;;
             modify (with_restart_test false) ;;
             try_except (session_steps env) session_on_error)) as Hrest.
  { apply preserves_bind; [apply preserves_new_test_result; apply _|intros _].
    apply preserves_bind; [|intros _].
    { apply preserves_modify. intros s0. apply restart_stable. }
    apply preserves_try; [apply preserves_session_steps; apply _|intros e].
    apply preserves_session_on_error; apply _. }
  specialize (Hrest s2). rewrite Hrun in Hrest. unfold stdin_within in Hrest.
  cbn [snd] in Hrest. specialize (Hrest ltac:(lia)). lia.
Qed.

Lemma main_loop_total (env : Env) (fuel : nat) (s : State) :
  (length (stdin s) < fuel)%nat → is_Some (main_loop env fuel s).
Proof.
  revert s. induction fuel as [|fuel IH]; intros s Hlen; [lia|].
  cbn [main_loop]. destruct (session env s) as [[[]|e| |] s'] eqn:Hrun.
  - apply IH. pose proof (session_consumes env s s' _ Hrun ltac:(by left)). lia.
  - by eexists.
  - apply IH. pose proof (session_consumes env s s' _ Hrun ltac:(by right)). lia.
  - by eexists.
Qed.

(** [main] leaves its loop, whatever the environment and the operator do:
    by [break], or through an exception that escapes the loop. *)
Lemma main_total (env : Env) (s : State) : is_Some (main env s).
Proof. unfold main. apply main_loop_total. lia. Qed.

(** ** What a step of the session leaves alone *)

Section FootRules.

Variable ev : event → Prop.
Variable ids : string → Prop.
Variable strict : bool.

Lemma within_refl (s : State) : within ev ids strict s s.
Proof.
  split; [exists []; by rewrite app_nil_r|]. split; [done|].
  split; [done|done].
Qed.

Lemma within_trans (s1 s2 s3 : State) :
  within ev ids strict s1 s2 → within ev ids strict s2 s3 →
  within ev ids strict s1 s3.
Proof.
  intros ((t1 & Ht1 & Hev1) & Hsel1 & Hent1 & Hst1)
         ((t2 & Ht2 & Hev2) & Hsel2 & Hent2 & Hst2).
  split.
  { exists (t1 ++ t2). rewrite Ht2, Ht1, app_assoc. split; [done|].
    by apply Forall_app. }
  split; [by rewrite Hsel2|]. split.
  { intros tid Hn. destruct (Hent1 tid Hn) as (a1 & b1 & c1).
    destruct (Hent2 tid Hn) as (a2 & b2 & c2).
    split; [by rewrite a2|]. split; [by rewrite b2|by rewrite c2]. }
  intros Hs. destruct (Hst1 Hs) as [a1 b1]. destruct (Hst2 Hs) as [a2 b2].
  split; [by rewrite a2|by rewrite b2].
Qed.

Context {A B : Type}.

Lemma footprint_bind (m : M A) (k : A → M B) :
  footprint ev ids strict m → (∀ a, footprint ev ids strict (k a)) →
  footprint ev ids strict (bind m k).
Proof.
  intros Hm Hk s. specialize (Hm s). unfold bind.
  destruct (m s) as [[a|e| |] s1]; simpl in *; try done.
  eapply within_trans; [exact Hm|apply Hk].
Qed.

Lemma footprint_try (m : M A) (h : string → M A) :
  footprint ev ids strict m → (∀ e, footprint ev ids strict (h e)) →
  footprint ev ids strict (try_except m h).
Proof.
  intros Hm Hh s. specialize (Hm s). unfold try_except.
  destruct (m s) as [[a|e| |] s1]; simpl in *; try done.
  eapply within_trans; [exact Hm|apply Hh].
Qed.

Lemma footprint_ret (a : A) : footprint ev ids strict (ret a).
Proof. intros s. apply within_refl. Qed.

Lemma footprint_raise (e : string) : footprint ev ids strict (@raise A e).
Proof. intros s. apply within_refl. Qed.

Lemma footprint_continue : footprint ev ids strict (@loop_continue A).
Proof. intros s. apply within_refl. Qed.

Lemma footprint_break : footprint ev ids strict (@loop_break A).
Proof. intros s. apply within_refl. Qed.

Lemma footprint_gets (f : State → A) : footprint ev ids strict (gets f).
Proof. intros s. apply within_refl. Qed.

Lemma footprint_perform (r : io A) : footprint ev ids strict (perform r).
Proof. destruct r; intros s; apply within_refl. Qed.

End FootRules.

Lemma footprint_when (ev : event → Prop) (ids : string → Prop) (strict : bool)
    (c : bool) (m : M unit) :
  footprint ev ids strict m → footprint ev ids strict (when c m).
Proof. destruct c; [done|]. intros _. apply footprint_ret. Qed.

Lemma footprint_modify (ev : event → Prop) (ids : string → Prop) (strict : bool)
    (f : State → State) :
  (∀ s, within ev ids strict s (f s)) → footprint ev ids strict (modify f).
Proof. intros H s. apply H. Qed.

Lemma within_fields (ev : event → Prop) (ids : string → Prop) (strict : bool)
    (s s' : State) :
  trace s' = trace s → test_result s' = test_result s →
  restart_test s' = restart_test s → excel s' = excel s →
  within ev ids strict s s'.
Proof.
  intros Ht Hr Hf Hx. split; [exists []; by rewrite app_nil_r|].
  rewrite Hr. done.
Qed.

Lemma footprint_tick (ev : event → Prop) (ids : string → Prop) (strict : bool) :
  footprint ev ids strict tick.
Proof. apply footprint_modify. intros s. by apply within_fields. Qed.

Lemma footprint_modify_ssh (ev : event → Prop) (ids : string → Prop)
    (strict : bool) (c : option nat) :
  footprint ev ids strict (modify (with_ssh c)).
Proof. apply footprint_modify. intros s. by apply within_fields. Qed.

Lemma footprint_log_event (ev : event → Prop) (ids : string → Prop)
    (strict : bool) (e : event) :
  ev e → footprint ev ids strict (log_event e).
Proof.
  intros He. apply footprint_modify. intros s.
  split; [exists [e]; split; [done|by constructor]|]. done.
Qed.

Lemma footprint_input (ev : event → Prop) (ids : string → Prop) (strict : bool)
    (prompt : string) :
  (∀ line, ev (EvInput prompt line)) → footprint ev ids strict (input prompt).
Proof.
  intros He s. unfold input. destruct (stdin s) as [|line rest].
  - apply within_refl.
  - split; [exists [EvInput prompt line]; split; [done|by constructor]|]. done.
Qed.

Lemma footprint_modify_test_result (ev : event → Prop) (ids : string → Prop)
    (strict : bool) (f : TestResult → TestResult) :
  (∀ r, tests_to_run (f r) = tests_to_run r ∧
        ∀ tid, ¬ ids tid → same_entry tid r (f r)) →
  footprint ev ids strict (modify_test_result f).
Proof.
  intros H. apply footprint_modify. intros s.
  split; [exists []; by rewrite app_nil_r|].
  destruct (H (test_result s)) as [Hsel Hent]. done.
Qed.

Lemma footprint_append_notes (ev : event → Prop) (ids : string → Prop)
    (strict : bool) (text : string) :
  footprint ev ids strict (append_notes text).
Proof. apply footprint_modify_test_result. intros r. done. Qed.

Lemma footprint_assign_notes (ev : event → Prop) (ids : string → Prop)
    (strict : bool) (text : string) :
  footprint ev ids strict (assign_notes text).
Proof. apply footprint_modify_test_result. intros r. done. Qed.

Create HintDb foot discriminated.

#[export] Hint Resolve footprint_ret footprint_raise footprint_continue
  footprint_break footprint_gets footprint_perform footprint_tick
  footprint_modify_ssh footprint_append_notes footprint_assign_notes : foot.

#[export] Hint Extern 1 (_ ∈ MUNDANE_PROMPTS) =>
  (apply (bool_decide_unpack _); vm_compute; exact I) : foot.
#[export] Hint Extern 1 (_ ∈ MUNDANE_IDS) =>
  (apply (bool_decide_unpack _); vm_compute; exact I) : foot.

Ltac foot_step :=
  match goal with
  | |- footprint _ _ _ (bind _ _) => apply footprint_bind; [|intros ?]
  | |- footprint _ _ _ (try_except _ _) => apply footprint_try; [|intros ?]
  | |- footprint _ _ _ (when _ _) => apply footprint_when
  | |- footprint _ _ _ (let _ := _ in _) => cbv zeta
  | |- footprint _ _ _ (if ?c then _ else _) => destruct c
  | |- footprint _ _ _ (match ?x with _ => _ end) => destruct x
  | |- footprint _ _ _ _ => solve [eauto with foot]
  end.
Ltac foot := repeat foot_step.

(** The functions of the program that only make the mundane interactions:
    every event of theirs is in [ev], and they record tests of [ids]
    only. *)
Section FootProgram.

Variable env : Env.
Variable ev : event → Prop.
Variable ids : string → Prop.
Variable strict : bool.

Hypothesis ev_connect : ∀ r, ev (EvConnect r).
Hypothesis ev_close : ev EvClose.
Hypothesis ev_exec : ∀ c, ev (EvExec c).
Hypothesis ev_shell : ∀ c n, ev (EvShell c n).
Hypothesis ev_mundane : ∀ p line, p ∈ MUNDANE_PROMPTS → ev (EvInput p line).
Hypothesis ids_mundane : ∀ tid, tid ∈ MUNDANE_IDS → ids tid.

Lemma footprint_ask (p : string) : p ∈ MUNDANE_PROMPTS → footprint ev ids strict (input p).
Proof. intros Hp. apply footprint_input. intros line. by apply ev_mundane. Qed.

Lemma footprint_time_time : footprint ev ids strict (time_time env).
Proof. unfold time_time. foot. Qed.

#[local] Hint Resolve footprint_ask footprint_time_time : foot.

Lemma footprint_elapsed_since (t : Q) : footprint ev ids strict (elapsed_since env t).
Proof. unfold elapsed_since. foot. Qed.

Lemma footprint_record (tid : string) (r : py_result) (details : string)
    (d : option Z) :
  ids tid → footprint ev ids strict (set_test_result env tid r details d).
Proof.
  intros Hid. unfold set_test_result.
  apply footprint_bind; [|intros _].
  { apply footprint_modify_test_result. intros r0. split; [done|].
    intros tid' Hn. assert (tid ≠ tid') as Hne by (by intros ->).
    split; [|split; [|done]]; cbn [store_result test_results test_durations].
    - by rewrite lookup_insert_ne.
    - destruct d; [by rewrite lookup_insert_ne|done]. }
  apply footprint_bind; [apply footprint_time_time|intros stamp].
  destruct (TEST_IDS !! tid); [|apply footprint_raise].
  apply footprint_modify_test_result. intros r0. split; [done|].
  intros tid' Hn. assert (tid ≠ tid') as Hne by (by intros ->).
  split; [done|]. split; [done|].
  cbn [append_log log_file]. rewrite filter_app.
  rewrite (filter_cons_False _ _ []) by done. by rewrite filter_nil, app_nil_r.
Qed.

Lemma footprint_record_mundane (tid : string) (r : py_result)
    (details : string) (d : option Z) :
  tid ∈ MUNDANE_IDS → footprint ev ids strict (set_test_result env tid r details d).
Proof. intros H. by apply footprint_record, ids_mundane. Qed.

Lemma footprint_wait_for_enter (prompt : string) :
  (prompt +:+ " Press Enter when ready: ") ∈ MUNDANE_PROMPTS →
  footprint ev ids strict (wait_for_enter prompt).
Proof. intros H. unfold wait_for_enter. foot. Qed.

Lemma footprint_in_tests_to_run (tid : string) : footprint ev ids strict (in_tests_to_run tid).
Proof. apply footprint_gets. Qed.

Lemma footprint_any_selected (tests : list string) : footprint ev ids strict (any_selected tests).
Proof. apply footprint_gets. Qed.

Lemma footprint_log (e : event) : ev e → footprint ev ids strict (log_event e).
Proof. apply footprint_log_event. Qed.

#[local] Hint Resolve footprint_elapsed_since footprint_record_mundane
  footprint_wait_for_enter footprint_in_tests_to_run footprint_any_selected
  footprint_log ev_connect ev_close ev_exec ev_shell : foot.

Lemma footprint_yes_no_loop_unchecked (prompt : string) (start : Q)
    (pending : list string) :
  (prompt +:+ " (y/n): ") ∈ MUNDANE_PROMPTS →
  footprint ev ids strict (yes_no_loop env prompt false start pending).
Proof. intros H. induction pending as [|l pending IH]; simpl; foot. Qed.

#[local] Hint Resolve footprint_yes_no_loop_unchecked : foot.

Lemma footprint_get_yes_no_input_unchecked (prompt : string) :
  (prompt +:+ " (y/n): ") ∈ MUNDANE_PROMPTS →
  footprint ev ids strict (get_yes_no_input env prompt false).
Proof. intros H. unfold get_yes_no_input. foot. Qed.

Lemma footprint_fail_T01 (start : Q) (details : string) :
  footprint ev ids strict (fail_T01 env start details).
Proof. unfold fail_T01. foot. Qed.

#[local] Hint Resolve footprint_get_yes_no_input_unchecked footprint_fail_T01
  : foot.

Lemma footprint_upload_files (port : string) (start : Q) (files : list string) :
  footprint ev ids strict (upload_files env port start files).
Proof. induction files as [|f files IH]; simpl; foot. Qed.

#[local] Hint Resolve footprint_upload_files : foot.

Lemma footprint_upload_firmware_wipe : footprint ev ids strict (upload_firmware_wipe env).
Proof.
  unfold upload_firmware_wipe, wait_for_rp2_device, wait_for_rp2_disappear,
    flash_uf2_file, sleep.
  foot.
Qed.

Lemma footprint_ssh_execute_command (c : option nat) (command : string)
    (send_enter : bool) :
  footprint ev ids strict (ssh_execute_command env c command send_enter).
Proof. unfold ssh_execute_command. foot. Qed.

Lemma footprint_ssh_execute_interactive (c : option nat) (command : string)
    (n : nat) :
  footprint ev ids strict (ssh_execute_interactive env c command n).
Proof. unfold ssh_execute_interactive. foot. Qed.

Lemma footprint_reconnect_loop (max attempt remaining : nat) :
  footprint ev ids strict (reconnect_loop env max attempt remaining).
Proof.
  revert attempt. induction remaining as [|r IH]; intros attempt; simpl; foot.
Qed.

#[local] Hint Resolve footprint_upload_firmware_wipe
  footprint_ssh_execute_command footprint_ssh_execute_interactive
  footprint_reconnect_loop : foot.

Lemma footprint_reconnect_ssh (max : nat) : footprint ev ids strict (reconnect_ssh env max).
Proof. unfold reconnect_ssh. foot. Qed.

Lemma footprint_assign_ssh (max : nat) : footprint ev ids strict (assign_ssh env max).
Proof. unfold assign_ssh, reconnect_ssh. foot. Qed.

Lemma footprint_close_if_open : footprint ev ids strict close_if_open.
Proof. unfold close_if_open, ssh_close. foot. Qed.

#[local] Hint Resolve footprint_reconnect_ssh footprint_assign_ssh
  footprint_close_if_open : foot.

Lemma footprint_run_with_reconnect (command : string) (on_failure : M unit) :
  footprint ev ids strict on_failure → footprint ev ids strict (run_with_reconnect env command on_failure).
Proof. intros H. unfold run_with_reconnect. foot. Qed.

Lemma footprint_fail_ssh_tests (l : list string) :
  l ⊆ MUNDANE_IDS → footprint ev ids strict (fail_ssh_tests env l).
Proof.
  induction l as [|tid l IH]; intros Hl; simpl; [foot|].
  assert (tid ∈ MUNDANE_IDS) by (apply Hl; left).
  assert (l ⊆ MUNDANE_IDS) by (intros x Hx; apply Hl; by right).
  specialize (IH ltac:(done)). foot.
Qed.

Lemma footprint_ssh_usb_tests : footprint ev ids strict (ssh_usb_tests env).
Proof.
  unfold ssh_usb_tests, sleep.
  apply footprint_bind; [apply footprint_run_with_reconnect; foot|intros ?].
  foot.
Qed.

Lemma footprint_ssh_rgb_led_test : footprint ev ids strict (ssh_rgb_led_test env).
Proof. unfold ssh_rgb_led_test, sleep. foot. Qed.

Lemma footprint_ssh_sd_card_test : footprint ev ids strict (ssh_sd_card_test env).
Proof.
  unfold ssh_sd_card_test, sleep. foot.
  apply footprint_run_with_reconnect. foot.
Qed.

Lemma footprint_ssh_camera_test : footprint ev ids strict (ssh_camera_test env).
Proof.
  unfold ssh_camera_test. foot.
  apply footprint_run_with_reconnect. foot.
Qed.

#[local] Hint Resolve footprint_ssh_usb_tests footprint_ssh_rgb_led_test
  footprint_ssh_sd_card_test footprint_ssh_camera_test : foot.

Lemma footprint_perform_ssh_tests : footprint ev ids strict (perform_ssh_tests env).
Proof.
  unfold perform_ssh_tests. foot.
  apply footprint_fail_ssh_tests. intros x Hx. by right.
Qed.

#[local] Hint Resolve footprint_perform_ssh_tests : foot.

Lemma footprint_ssh_step : footprint ev ids strict (ssh_step env).
Proof. unfold ssh_step. foot. Qed.

Lemma footprint_shutdown_step : footprint ev ids strict (shutdown_step env).
Proof. unfold shutdown_step, ssh_close. foot. Qed.

Lemma footprint_select_tests_to_run : footprint ev ids strict (select_tests_to_run env).
Proof. unfold select_tests_to_run. foot. Qed.

Lemma footprint_int_of_str (l : string) : footprint ev ids strict (int_of_str env l).
Proof.
  intros s. destruct (int_of_str_state (env := env) l s) as [-> _].
  apply within_refl.
Qed.

#[local] Hint Resolve footprint_int_of_str : foot.

Lemma footprint_device_id_loop (pending : list string) :
  footprint ev ids strict (device_id_loop env pending).
Proof. induction pending as [|l pending IH]; simpl; foot. Qed.

#[local] Hint Resolve footprint_device_id_loop : foot.

Lemma footprint_get_device_id_with_qr : footprint ev ids strict (get_device_id_with_qr env).
Proof. unfold get_device_id_with_qr. foot. Qed.

(** The tail of the session, after the ledger is saved. *)
Lemma footprint_session_tail :
  footprint ev ids strict (shutdown_step env ;;
      let* line := input "Do you want to test another device? (y/n): " in
      let another := PyStr.lower (PyStr.strip line) in
      when (negb (PyStr.is_yes another)) loop_break).
Proof. pose proof footprint_shutdown_step. foot. Qed.

End FootProgram.

#[export] Hint Resolve footprint_ask footprint_time_time footprint_elapsed_since
  footprint_record_mundane footprint_wait_for_enter footprint_in_tests_to_run
  footprint_any_selected footprint_log footprint_get_yes_no_input_unchecked
  footprint_fail_T01 footprint_upload_firmware_wipe footprint_ssh_step
  footprint_shutdown_step footprint_session_tail : foot.

Lemma within_mono (ev ev' : event → Prop) (ids ids' : string → Prop)
    (strict : bool) (s s' : State) :
  (∀ e, ev e → ev' e) → (∀ tid, ids tid → ids' tid) →
  within ev ids strict s s' → within ev' ids' false s s'.
Proof.
  intros Hev Hids ((t & Ht & Ht') & Hsel & Hent & _).
  split; [exists t; split; [done|]; by eapply Forall_impl|].
  split; [done|]. split; [|done].
  intros tid Hn. apply Hent. intros Hi. by apply Hn, Hids.
Qed.

Lemma footprint_mono {A} (ev ev' : event → Prop) (ids ids' : string → Prop)
    (strict : bool) (m : M A) :
  (∀ e, ev e → ev' e) → (∀ tid, ids tid → ids' tid) →
  footprint ev ids strict m → footprint ev' ids' false m.
Proof. intros Hev Hids Hm s. by eapply within_mono. Qed.

(** The steps that may also ask the operator for a verdict, save the ledger
    and set the restart flag. *)
Section FootChecks.

Variable env : Env.
Variable ev : event → Prop.
Variable ids : string → Prop.

Hypothesis ev_connect : ∀ r, ev (EvConnect r).
Hypothesis ev_close : ev EvClose.
Hypothesis ev_exec : ∀ c, ev (EvExec c).
Hypothesis ev_shell : ∀ c n, ev (EvShell c n).
Hypothesis ev_mundane : ∀ p line, p ∈ MUNDANE_PROMPTS → ev (EvInput p line).
Hypothesis ev_continue : ∀ line, ev (EvInput CONTINUE_PROMPT line).
Hypothesis ids_mundane : ∀ tid, tid ∈ MUNDANE_IDS → ids tid.

Lemma footprint_save_to_excel : footprint ev ids false save_to_excel.
Proof.
  intros s. rewrite save_to_excel_eq. cbn [snd].
  split; [exists []; by rewrite app_nil_r|]. done.
Qed.

Lemma footprint_set_restart (b : bool) :
  footprint ev ids false (modify (with_restart_test b)).
Proof.
  apply footprint_modify. intros s.
  split; [exists []; by rewrite app_nil_r|]. done.
Qed.

Lemma footprint_yes_no_loop_checked (prompt : string) (start : Q)
    (pending : list string) :
  (∀ line, ev (EvInput (prompt +:+ " (y/n): ") line)) →
  footprint ev ids false (yes_no_loop env prompt true start pending).
Proof.
  intros Hp.
  pose proof (footprint_input ev ids false _ Hp).
  pose proof (footprint_input ev ids false _ ev_continue).
  induction pending as [|l pending IH]; simpl; foot.
Qed.

Lemma footprint_operator_check (tid prompt : string) :
  ids tid → (∀ line, ev (EvInput (prompt +:+ " (y/n): ") line)) →
  footprint ev ids false (operator_check env tid prompt).
Proof.
  intros Hid Hp. unfold operator_check, get_yes_no_input.
  pose proof (footprint_yes_no_loop_checked prompt) as Hloop.
  pose proof footprint_save_to_excel. pose proof footprint_set_restart.
  pose proof (footprint_record env ev ids false tid) as Hrec.
  foot.
Qed.

Lemma footprint_guarded_check (tid prompt : string) :
  ids tid → (∀ line, ev (EvInput (prompt +:+ " (y/n): ") line)) →
  footprint ev ids false
    (let* selected := in_tests_to_run tid in
     when selected (operator_check env tid prompt ;; ret tt)).
Proof.
  intros Hid Hp. pose proof (footprint_operator_check tid prompt Hid Hp).
  foot.
Qed.

Lemma footprint_firmware_step : footprint ev ids false (firmware_step env).
Proof.
  unfold firmware_step. pose proof footprint_save_to_excel. foot.
Qed.

Lemma footprint_visual_steps :
  ids "T02" → ids "T03" → ids "T04" →
  (∀ line, ev (EvInput "Does the CM5 LED light up? (y/n): " line)) →
  (∀ line, ev (EvInput "Does the RGB LED light up? (y/n): " line)) →
  (∀ line, ev (EvInput "Does the e-ink bootup screen appear? (y/n): " line)) →
  footprint ev ids false (visual_steps env).
Proof.
  intros H2 H3 H4 P2 P3 P4. unfold visual_steps.
  pose proof (footprint_operator_check "T02" "Does the CM5 LED light up?" H2 P2).
  pose proof (footprint_operator_check "T03" "Does the RGB LED light up?" H3 P3).
  pose proof (footprint_operator_check "T04"
                "Does the e-ink bootup screen appear?" H4 P4).
  foot.
Qed.

(** What follows the UI group, and the handler of the session. *)
Lemma footprint_session_rest :
  footprint ev ids false
    (ssh_step env ;;
     save_to_excel ;;
     shutdown_step env ;;
     let* line := input "Do you want to test another device? (y/n): " in
     let another := PyStr.lower (PyStr.strip line) in
     when (negb (PyStr.is_yes another)) loop_break).
Proof.
  pose proof footprint_save_to_excel.
  apply footprint_bind; [foot|intros ?].
  apply footprint_bind; [foot|intros ?].
  foot.
Qed.

Lemma footprint_session_on_error (e : string) :
  footprint ev ids false (session_on_error e).
Proof. unfold session_on_error. pose proof footprint_save_to_excel. foot. Qed.

End FootChecks.

(** ** Restart on the operator's Stop, in the session *)

Section TripleRules.

Context {A B : Type}.

Lemma triple_bind (I : State → Prop) (m : M A) (k : A → M B)
    (Q1 : A → State → Prop) (Q : B → State → Prop) (E C : State → Prop) :
  triple I m Q1 E C → (∀ a, triple (Q1 a) (k a) Q E C) →
  triple I (bind m k) Q E C.
Proof.
  intros Hm Hk s HI. specialize (Hm s HI). unfold bind.
  destruct (m s) as [[a|e| |] s1]; try done. by apply Hk.
Qed.

Lemma triple_try (I : State → Prop) (m : M A) (h : string → M A)
    (Q : A → State → Prop) (E1 E C : State → Prop) :
  triple I m Q E1 C → (∀ e, triple E1 (h e) Q E C) → (∀ s, E1 s → E s) →
  triple I (try_except m h) Q E C.
Proof.
  intros Hm Hh Hb s HI. specialize (Hm s HI). unfold try_except.
  destruct (m s) as [[a|e| |] s1]; try done; [by apply Hh|by apply Hb].
Qed.

Lemma triple_conseq (I I' : State → Prop) (m : M A)
    (Q Q' : A → State → Prop) (E E' C C' : State → Prop) :
  triple I' m Q' E' C' → (∀ s, I s → I' s) → (∀ a s, Q' a s → Q a s) →
  (∀ s, E' s → E s) → (∀ s, C' s → C s) →
  triple I m Q E C.
Proof.
  intros Hm HI HQ HE HC s Hs. specialize (Hm s (HI s Hs)).
  destruct (m s) as [[a|e| |] s1]; auto.
Qed.

(** A computation that keeps [I], however it ends. *)
Lemma triple_frame (I : State → Prop) (m : M A) :
  preserves I m → triple I m (λ _, I) I I.
Proof.
  intros Hm s Hs. specialize (Hm s Hs).
  by destruct (m s) as [[a|e| |] s1].
Qed.

End TripleRules.

Lemma triple_when (I : State → Prop) (c : bool) (m : M unit)
    (Q : unit → State → Prop) (E C : State → Prop) :
  (c = true → triple I m Q E C) → (c = false → ∀ s, I s → Q tt s) →
  triple I (when c m) Q E C.
Proof.
  destruct c; intros Hm Hq; [by apply Hm|].
  intros s Hs. by apply Hq.
Qed.

Lemma declined_mundane (p line : string) :
  p ∈ MUNDANE_PROMPTS → declined (EvInput p line) = false.
Proof.
  intros Hp. cbn [declined].
  destruct (decide (p = CONTINUE_PROMPT)) as [->|Hne].
  - exfalso. revert Hp. apply (bool_decide_unpack _). vm_compute. exact I.
  - by rewrite bool_decide_eq_false_2.
Qed.

(** What stays within the mundane interactions keeps a session under way. *)
Lemma within_under_way (t0 : list event) (x0 : list Row) (s s' : State) :
  within (λ e, declined e = false) (λ _, True) true s s' →
  under_way t0 x0 s → under_way t0 x0 s'.
Proof.
  intros ((t & Ht & Hev) & _ & _ & Hst) ((t1 & Ht1 & Hev1) & Hflag & Hx).
  destruct (Hst eq_refl) as [Hf' Hx'].
  split.
  { exists (t1 ++ t). rewrite Ht, Ht1, app_assoc. split; [done|].
    by apply Forall_app. }
  split; [by rewrite Hf'|by rewrite Hx'].
Qed.

Lemma within_undeclined (strict : bool) (t0 : list event) (s s' : State) :
  within (λ e, declined e = false) (λ _, True) strict s s' →
  undeclined t0 s → undeclined t0 s'.
Proof.
  intros ((t & Ht & Hev) & _) (t1 & Ht1 & Hev1).
  exists (t1 ++ t). rewrite Ht, Ht1, app_assoc. split; [done|].
  by apply Forall_app.
Qed.

Lemma footprint_under_way {A} (t0 : list event) (x0 : list Row) (m : M A) :
  footprint (λ e, declined e = false) (λ _, True) true m →
  preserves (under_way t0 x0) m.
Proof. intros Hm s Hs. by eapply within_under_way. Qed.

Lemma footprint_undeclined {A} (strict : bool) (t0 : list event) (m : M A) :
  footprint (λ e, declined e = false) (λ _, True) strict m →
  preserves (undeclined t0) m.
Proof. intros Hm s Hs. by eapply within_undeclined. Qed.

Section StopSession.

Variable env : Env.
Variable t0 : list event.
Variable x0 : list Row.

Lemma mundane_step {A} (m : M A) :
  footprint (λ e, declined e = false) (λ _, True) true m →
  session_step t0 x0 m.
Proof.
  intros Hm. eapply triple_conseq.
  - apply triple_frame, (footprint_under_way t0 x0), Hm.
  - done.
  - done.
  - by intros s [H _].
  - intros s [H _]. by left.
Qed.

Ltac mundane_frame :=
  apply mundane_step;
  first [ apply footprint_time_time | apply footprint_gets ]; try exact env.

Ltac mundane :=
  apply mundane_step;
  first [ apply footprint_wait_for_enter | apply footprint_upload_firmware_wipe
        | apply footprint_ssh_step | apply footprint_in_tests_to_run
        | apply footprint_any_selected | apply footprint_record
        | apply footprint_assign_notes | apply footprint_ret ];
  try exact env; try done; try (intros; by apply declined_mundane);
  try (apply (bool_decide_unpack _); vm_compute; exact I).

Ltac step := eapply (triple_bind _ _ _ (λ _, under_way t0 x0)).

(** The prompt loop with the continue check: it returns a verdict with
    the session under way, or the restart signal right after the decline. *)
Lemma yes_no_loop_checked_step (prompt : string) (start : Q)
    (pending : list string) :
  prompt +:+ " (y/n): " ≠ CONTINUE_PROMPT →
  triple (under_way t0 x0) (yes_no_loop env prompt true start pending)
    (λ '(v, _) s,
       match v with
       | PyNone => restart_test s = false ∧ excel s = x0 ∧ just_declined t0 s
       | _ => under_way t0 x0 s
       end)
    (under_way t0 x0) (λ _, False).
Proof.
  intros Hne.
  assert (∀ l, declined (EvInput (prompt +:+ " (y/n): ") l) = false) as Hq.
  { intros l. cbn [declined]. by rewrite bool_decide_eq_false_2. }
  induction pending as [|x pending IH]; intros s Hs.
  - cbn [yes_no_loop]. unfold bind at 1.
    destruct (stdin s) as [|l rest] eqn:Hin.
    + by rewrite input_nil.
    + rewrite (input_cons _ l rest) by done.
      destruct Hs as ((t & Ht & Hev) & Hflag & Hx).
      set (s1 := with_now _ _).
      assert (under_way t0 x0 s1) as Hs1.
      { split; [|done]. exists (t ++ [EvInput (prompt +:+ " (y/n): ") l]).
        subst s1. cbn. rewrite Ht, app_assoc. split; [done|].
        apply Forall_app. split; [done|]. by constructor. }
      destruct (PyStr.is_yes (PyStr.lower (PyStr.strip l))); [exact Hs1|].
      destruct (PyStr.is_no (PyStr.lower (PyStr.strip l))) eqn:Hno;
        [|by cbn].
      unfold bind at 1. destruct rest as [|l2 rest2].
      * rewrite input_nil by done. exact Hs1.
      * rewrite (input_cons _ l2 rest2) by done.
        destruct (PyStr.is_yes (PyStr.lower (PyStr.strip l2))) eqn:Hyes;
          cbn [negb].
        -- cbn. split; [|done].
           exists ((t ++ [EvInput (prompt +:+ " (y/n): ") l])
                     ++ [EvInput CONTINUE_PROMPT l2]).
           rewrite Ht, !app_assoc. split; [done|].
           repeat (apply Forall_app; split); try done.
           ++ by constructor.
           ++ constructor; [|done]. cbn [declined]. by rewrite Hyes, andb_false_r.
        -- cbn. split; [done|]. split; [done|].
           exists t, prompt, l, l2. rewrite Ht, <- !app_assoc. done.
  - cbn [yes_no_loop]. unfold bind at 1.
    destruct (stdin s) as [|l rest] eqn:Hin.
    + by rewrite input_nil.
    + rewrite (input_cons _ l rest) by done.
      destruct Hs as ((t & Ht & Hev) & Hflag & Hx).
      set (s1 := with_now _ _).
      assert (under_way t0 x0 s1) as Hs1.
      { split; [|done]. exists (t ++ [EvInput (prompt +:+ " (y/n): ") l]).
        subst s1. cbn. rewrite Ht, app_assoc. split; [done|].
        apply Forall_app. split; [done|]. by constructor. }
      destruct (PyStr.is_yes (PyStr.lower (PyStr.strip l))); [exact Hs1|].
      destruct (PyStr.is_no (PyStr.lower (PyStr.strip l))) eqn:Hno;
        [|by apply IH].
      unfold bind at 1. destruct rest as [|l2 rest2].
      * rewrite input_nil by done. exact Hs1.
      * rewrite (input_cons _ l2 rest2) by done.
        destruct (PyStr.is_yes (PyStr.lower (PyStr.strip l2))) eqn:Hyes;
          cbn [negb].
        -- cbn. split; [|done].
           exists ((t ++ [EvInput (prompt +:+ " (y/n): ") l])
                     ++ [EvInput CONTINUE_PROMPT l2]).
           rewrite Ht, !app_assoc. split; [done|].
           repeat (apply Forall_app; split); try done.
           ++ by constructor.
           ++ constructor; [|done]. cbn [declined]. by rewrite Hyes, andb_false_r.
        -- cbn. split; [done|]. split; [done|].
           exists t, prompt, l, l2. rewrite Ht, <- !app_assoc. done.
Qed.

Lemma operator_check_step (tid prompt : string) :
  prompt +:+ " (y/n): " ≠ CONTINUE_PROMPT →
  session_step t0 x0 (operator_check env tid prompt).
Proof.
  intros Hne. unfold operator_check, get_yes_no_input.
  eapply triple_bind.
  { step; [mundane_frame|intros start].
    step; [mundane_frame|intros pending].
    eapply triple_conseq;
      [apply (yes_no_loop_checked_step prompt start pending Hne)
      |done|intros a s H; exact H|by intros s [H _]|done]. }
  intros [v d]. destruct v as [|b|].
  - intros s (Hflag & Hx & Hdecl).
    unfold bind at 1. cbn [modify].
    rewrite (bind_eq _ _ _ _ _ (save_to_excel_eq _)). cbn.
    right. split; [done|]. split; [done|]. split; [by rewrite Hx|done].
  - step; [mundane|intros ?]. mundane.
  - step; [mundane|intros ?]. mundane.
Qed.

(** An operator check behind its selection guard. *)
Lemma guarded_check_step (tid prompt : string) :
  prompt +:+ " (y/n): " ≠ CONTINUE_PROMPT →
  session_step t0 x0
    (let* selected := in_tests_to_run tid in
     when selected (operator_check env tid prompt ;; ret tt)).
Proof.
  intros Hne. step; [mundane|intros selected].
  apply triple_when; [intros _|by intros _ s Hs].
  step; [by apply operator_check_step|intros ?]. mundane.
Qed.

Lemma firmware_step_step : session_step t0 x0 (firmware_step env).
Proof.
  unfold firmware_step.
  step; [mundane|intros selected].
  apply triple_when; [intros _|by intros _ s Hs].
  step; [mundane|intros ?].
  step; [mundane|intros ok].
  apply triple_when; [intros _|by intros _ s Hs].
  intros s ((t & Ht & Hev) & _).
  unfold bind at 1. cbn [assign_notes modify_test_result modify].
  rewrite (bind_eq _ _ _ _ _ (save_to_excel_eq _)). cbn.
  left. by exists t.
Qed.

Lemma visual_steps_step : session_step t0 x0 (visual_steps env).
Proof.
  unfold visual_steps.
  step.
  { step; [mundane|intros hardware].
    apply triple_when; [intros _|by intros _ s Hs]. mundane. }
  intros _. step; [by apply guarded_check_step|intros ?].
  step; [by apply guarded_check_step|intros ?].
  by apply guarded_check_step.
Qed.

Lemma ui_steps_step : session_step t0 x0 (ui_steps env).
Proof.
  unfold ui_steps.
  step; [mundane|intros t05].
  step.
  { destruct t05; [|mundane].
    step; [by apply operator_check_step|intros result]. mundane. }
  intros ui_appears.
  apply triple_when; [intros _|by intros _ s Hs].
  step; [by apply guarded_check_step|intros ?].
  by apply guarded_check_step.
Qed.

(** The tail of the session, once the ledger is saved: no decline. *)
Lemma session_tail_quiet :
  preserves (undeclined t0)
    (shutdown_step env ;;
     let* line := input "Do you want to test another device? (y/n): " in
     let another := PyStr.lower (PyStr.strip line) in
     when (negb (PyStr.is_yes another)) loop_break).
Proof.
  apply (footprint_undeclined true), footprint_session_tail; try done.
  intros p line Hp. by apply declined_mundane.
Qed.

Lemma session_steps_step :
  triple (under_way t0 x0) (session_steps env) (λ _, undeclined t0)
    (undeclined t0) (λ s, undeclined t0 s ∨ stopped t0 x0 s).
Proof.
  unfold session_steps.
  eapply triple_bind; [apply firmware_step_step|intros ?].
  eapply triple_bind; [apply visual_steps_step|intros ?].
  eapply triple_bind; [apply ui_steps_step|intros ?].
  eapply triple_bind; [mundane|intros ?].
  intros s ((t & Ht & Hev) & _).
  rewrite (bind_eq _ _ _ _ _ (save_to_excel_eq _)).
  match goal with |- context [bind ?m ?k ?s1] =>
    pose proof (session_tail_quiet s1) as Htail;
    destruct (bind m k s1) as [[[]|e| |] s2] end;
    cbn [snd] in Htail; try (left); apply Htail; by exists t.
Qed.

Lemma session_on_error_quiet (e : string) :
  preserves (undeclined t0) (session_on_error e).
Proof.
  intros s (t & Ht & Hev). unfold session_on_error.
  unfold bind at 1. cbn [append_notes modify_test_result modify].
  rewrite (bind_eq _ _ _ _ _ (save_to_excel_eq _)).
  unfold bind at 1.
  match goal with |- context [input ?p ?s1] =>
    pose proof (footprint_input (λ e, declined e = false) (λ _, True) false p
                  (λ line, declined_mundane p line
                     ltac:(apply (bool_decide_unpack _); vm_compute; exact I))
                  s1) as Hin;
    destruct (input p s1) as [[l|e'| |] s2] end;
    cbn [snd] in *; eapply (within_undeclined false); try exact Hin;
    by exists t.
Qed.

(** The body of the session: the steps and their handler. *)
Lemma session_body_step :
  triple (under_way t0 x0) (try_except (session_steps env) session_on_error)
    (λ _, undeclined t0) (undeclined t0)
    (λ s, undeclined t0 s ∨ stopped t0 x0 s).
Proof.
  eapply triple_try; [apply session_steps_step| |done].
  intros e. eapply triple_conseq.
  - apply triple_frame, session_on_error_quiet.
  - done.
  - done.
  - done.
  - intros s H. by left.
Qed.

End StopSession.

Lemma footprint_at_start {A} (t0 : list event) (x0 : list Row) (m : M A) :
  footprint (λ e, declined e = false) (λ _, True) true m →
  preserves (at_start t0 x0) m.
Proof.
  intros Hm s [Hs Hx]. split; [by eapply within_undeclined|].
  destruct (Hm s) as (_ & _ & _ & Hst). destruct (Hst eq_refl) as [_ ->]. done.
Qed.

Lemma session_stop (env : Env) (t0 : list event) (x0 : list Row) :
  triple (at_start t0 x0) (session env) (λ _, undeclined t0) (undeclined t0)
    (λ s, undeclined t0 s ∨ stopped t0 x0 s).
Proof.
  assert (∀ A (m : M A),
            footprint (λ e, declined e = false) (λ _, True) true m →
            triple (at_start t0 x0) m (λ _, at_start t0 x0) (undeclined t0)
              (λ s, undeclined t0 s ∨ stopped t0 x0 s)) as Hframe.
  { intros A m Hm. eapply triple_conseq.
    - apply triple_frame, (footprint_at_start t0 x0), Hm.
    - done.
    - done.
    - by intros s [H _].
    - intros s [H _]. by left. }
  assert (∀ p line, p ∈ MUNDANE_PROMPTS → declined (EvInput p line) = false)
    as Hmundane by (intros p line Hp; by apply declined_mundane).
  unfold session.
  eapply triple_bind.
  { apply Hframe, footprint_select_tests_to_run. exact Hmundane. }
  intros selection. eapply triple_bind.
  { apply Hframe, footprint_get_device_id_with_qr. exact Hmundane. }
  intros [[dev ver] man].
  intros s [(t & Ht & Hev) Hx].
  match goal with |- match ?X with _ => _ end =>
    assert (X = try_except (session_steps env) session_on_error
                  (with_restart_test false
                     (with_test_result
                        (TestResult_init (clock env (now s)) dev selection ver man)
                        (with_now (S (now s)) s)))) as -> by reflexivity end.
  apply (session_body_step env t0 x0).
  split; [by exists t|done].
Qed.

(** An operator check that ends by [continue] has recorded nothing. *)
Lemma operator_check_continue (env : Env) (tid prompt : string) (s s' : State) :
  operator_check env tid prompt s = (Continue, s') →
  test_results (test_result s') = test_results (test_result s) ∧
  test_durations (test_result s') = test_durations (test_result s) ∧
  log_file (test_result s') = log_file (test_result s) ∧
  notes (test_result s') = notes (test_result s).
Proof.
  unfold operator_check. intros H.
  pose proof (preserves_get_yes_no_input env (same_ledger s) prompt true s) as Hfr.
  specialize (Hfr ltac:(done)).
  pose proof (no_ctl_get_yes_no_input env prompt true s) as [Hc _].
  apply bind_inv in H as [([v d] & s1 & Hget & H)|[(e & _ & H)|[[H _]|[_ H]]]];
    try done.
  2: { by rewrite H in Hc. }
  rewrite Hget in Hfr. destruct Hfr as [Hr _]. cbn [snd] in Hr.
  destruct v as [|b|].
  - unfold bind at 1 in H. cbn [modify] in H.
    rewrite (bind_eq _ _ _ _ _ (save_to_excel_eq _)) in H.
    injection H as <-. cbn. by rewrite Hr.
  - pose proof (no_ctl_set_test_result env tid (PyBool b) "" (Some d) s1)
      as [Hc' _].
    apply bind_inv in H as [(a & s2 & _ & H)|[(e & _ & H)|[[H _]|[_ H]]]];
      try done. by rewrite H in Hc'.
  - pose proof (no_ctl_set_test_result env tid PySKIPPED "" (Some d) s1)
      as [Hc' _].
    apply bind_inv in H as [(a & s2 & _ & H)|[(e & _ & H)|[[H _]|[_ H]]]];
      try done. by rewrite H in Hc'.
Qed.

(** C2 (amended): in every iteration of the session loop in which the
    operator answers No to a test prompt and then declines to continue (any
    answer but y or yes to the question that follows), the sequencer first
    finalizes the current ledger and appends it to the workbook, and only
    then restarts: the No and the decline are the last two interactions of
    the iteration, [restart_test] is set, [overall_pass] is the one computed
    from the ledger, the ledger is the row that the workbook has gained, the
    iteration is left by [continue] and the loop goes on with the next one.
    The declined check itself records nothing: an operator check that ends
    by [continue] leaves the statuses, the durations, the log and the notes
    as they were. *)
Theorem stop_answer_saves_then_restarts (env : Env) (s : State) :
  let r := session env s in
  (∃ t e, trace r.2 = trace s ++ t ∧ e ∈ t ∧ declined e = true) →
  (r.1 = Continue ∧
   restart_test r.2 = true ∧
   overall_pass (test_result r.2) = compute_overall_pass (test_result r.2) ∧
   excel r.2 = excel s ++ [make_row (test_result r.2)] ∧
   (∃ t prompt a b,
      trace r.2 = trace s ++ t ++ [EvInput (prompt +:+ " (y/n): ") a;
                                   EvInput CONTINUE_PROMPT b] ∧
      Forall (λ e, declined e = false) t ∧
      PyStr.is_no (PyStr.lower (PyStr.strip a)) = true ∧
      PyStr.is_yes (PyStr.lower (PyStr.strip b)) = false) ∧
   ∀ fuel, main_loop env (S fuel) s = main_loop env fuel r.2) ∧
  ∀ tid prompt s1,
    (operator_check env tid prompt s1).1 = Continue →
    let r1 := test_result (operator_check env tid prompt s1).2 in
    test_results r1 = test_results (test_result s1) ∧
    test_durations r1 = test_durations (test_result s1) ∧
    log_file r1 = log_file (test_result s1) ∧
    notes r1 = notes (test_result s1).
Proof.
  intros r (t & e & Ht & He & Hdecl). split.
  - pose proof (session_stop env (trace s) (excel s) s) as H.
    specialize (H ltac:(split; [exists []; by rewrite app_nil_r|done])).
    fold r in H. subst r.
    assert (¬ undeclined (trace s) (session env s).2) as Hno.
    { intros (t' & Ht' & Hev'). rewrite Ht in Ht'.
      apply app_inv_head in Ht'. subst t'.
      rewrite Forall_forall in Hev'. specialize (Hev' e He). congruence. }
    destruct (session env s) as [[[]|e'| |] s'] eqn:Hrun; cbn [fst snd] in *;
      try done.
    destruct H as [H|(Hflag & Hover & Hx & Hlast)]; [done|].
    repeat (split; [done|]).
    intros fuel. cbn [main_loop]. by rewrite Hrun.
  - intros tid prompt s1 Hc.
    destruct (operator_check env tid prompt s1) as [o s2] eqn:Hrun.
    cbn [fst snd] in *. subst o. by apply (operator_check_continue _ _ _ _ _ Hrun).
Qed.

Lemma stop_answer_saves_then_restarts_witness :
  let r := session (lab_env {["T02"]}) (boot ["7"; ""; "n"; "n"]) in
  r.1 = Continue ∧ restart_test r.2 = true ∧
  excel r.2 = excel (boot ["7"; ""; "n"; "n"]) ++ [make_row (test_result r.2)].
Proof.
  destruct (stop_answer_saves_then_restarts (lab_env {["T02"]})
              (boot ["7"; ""; "n"; "n"])) as [(H1 & H2 & _ & H3 & _) _].
  - eexists _, (EvInput CONTINUE_PROMPT "n").
    split; [vm_compute; reflexivity|].
    split; [|vm_compute; reflexivity].
    apply (bool_decide_unpack _). vm_compute. exact I.
  - split; [exact H1|]. split; [exact H2|exact H3].
Defined.

(** C2 (as stated, refuted): with selection {T02} and the answers No, then
    Stop, the session leaves by [continue] with [restart_test] set, and the
    workbook has gained the row of the ledger, finalized with T02 not run. *)
Lemma stop_answer_is_recorded :
  let r := session (lab_env {["T02"]}) (boot ["7"; ""; "n"; "n"]) in
  r.1 = Continue ∧ restart_test r.2 = true ∧
  excel (boot ["7"; ""; "n"; "n"]) = [] ∧
  (row_tests <$> excel r.2) =
    [[("T01", "SKIPPED"); ("T02", "NOT RUN"); ("T03", "SKIPPED");
      ("T04", "SKIPPED"); ("T05", "SKIPPED"); ("T06", "SKIPPED");
      ("T07", "SKIPPED"); ("T09", "SKIPPED"); ("T10", "SKIPPED");
      ("T11", "SKIPPED"); ("T12", "SKIPPED"); ("T13", "SKIPPED");
      ("T14", "SKIPPED")]] ∧
  (row_overall_pass <$> excel r.2) = [overall_pass (test_result r.2)].
Proof. vm_compute. repeat split. Qed.

(** ** A reconnection that fails in the middle of the SSH group *)

Lemma assign_ssh_None (env : Env) (n : nat) (s s' : State) :
  assign_ssh env n s = (Ret None, s') → ssh s' = None.
Proof.
  unfold assign_ssh. intros H.
  apply bind_ret_inv in H as (c & s1 & _ & H).
  unfold bind, modify, ret in H. by injection H as <- <-.
Qed.

(** When the reconnection fails, [run_with_reconnect] runs [on_failure] on
    a state without a client and with the ledger as it was, and returns what
    the failed execution returned. *)
Lemma run_with_reconnect_fails (env : Env) (command : string)
    (on_failure : M unit) (s : State) (output : string) :
  reconnection_fails env command s output →
  ∃ error s2,
    run_with_reconnect env command on_failure s
      = (on_failure ;; ret (output, error)) s2 ∧
    ssh s2 = None ∧ test_result s2 = test_result s.
Proof.
  intros (error & s1 & s2 & Hexec & Hmark & Hrec).
  exists error, s2. split; [|split].
  - unfold run_with_reconnect. rewrite gets_bind.
    rewrite (bind_eq _ _ _ _ _ Hexec). cbv beta iota. rewrite Hmark.
    rewrite (bind_eq _ _ _ _ _ (close_if_open_eq s1)).
    rewrite close_if_open_eq in Hrec. cbn [snd] in Hrec.
    by rewrite (bind_eq _ _ _ _ _ Hrec).
  - by eapply assign_ssh_None.
  - pose proof (preserves_ssh_execute_command env (same_ledger s) (ssh s)
                  command false s ltac:(done)) as H1.
    rewrite Hexec in H1. cbn [snd] in H1.
    pose proof (preserves_close_if_open (same_ledger s) s1 H1) as H2.
    pose proof (preserves_assign_ssh env (same_ledger s) 5 _ H2) as H3.
    rewrite Hrec in H3. by destruct H3.
Qed.

Lemma record_fail_eq (env : Env) (tid name details : string) (start : Q)
    (s : State) :
  TEST_IDS !! tid = Some name →
  ∃ s',
    (let* duration := elapsed_since env start in
     set_test_result env tid (PyBool false) details (Some duration)) s
      = (Ret tt, s') ∧
    ssh s' = ssh s ∧
    recorded_once tid false details (test_result s) (test_result s').
Proof.
  intros Hname. rewrite (bind_eq _ _ _ _ _ (elapsed_since_eq _ _ _)).
  rewrite (set_test_result_eq _ _ name) by done.
  eexists. split; [reflexivity|]. split; [done|].
  split; [done|]. split; [done|]. by eexists.
Qed.

Section Outage.

Variable env : Env.

(** The SD card block. *)
Lemma sd_card_reconnection_fails (s : State) (output : string) :
  "T13" ∈ tests_to_run (test_result s) →
  reconnection_fails env "lsblk" (with_now (S (S (now s))) s) output →
  ∃ s',
    ssh_sd_card_test env s = (Ret tt, s') ∧ ssh s' = None ∧
    recorded_once "T13" false "SSH reconnection failed"
      (test_result s) (test_result s').
Proof.
  intros Hsel Hfail. unfold ssh_sd_card_test, in_tests_to_run.
  rewrite gets_bind, bool_decide_eq_true_2 by done. cbn [when].
  unfold time_time at 1. rewrite read_tick_bind.
  unfold sleep at 1. rewrite tick_bind.
  unfold bind at 1.
  match goal with |- context [run_with_reconnect env "lsblk" ?onf ?s1] =>
    change s1 with (with_now (S (S (now s))) s);
    destruct (run_with_reconnect_fails env "lsblk" onf _ output Hfail)
      as (error & s2 & Hrun & Hssh & Hledger) end.
  rewrite Hrun.
  destruct (record_fail_eq env "T13" "SD Card Detection" "SSH reconnection failed"
              (clock env (now s)) s2 eq_refl) as (s3 & Hrec & Hssh3 & Hpost).
  rewrite (bind_eq _ _ _ _ _ Hrec). cbn [ret].
  rewrite gets_bind, Hssh3, Hssh. cbn.
  exists s3. split; [done|]. split; [by rewrite Hssh3|].
  by rewrite Hledger in Hpost.
Qed.

(** The camera block. *)
Lemma camera_reconnection_fails (s : State) (output : string) :
  "T14" ∈ tests_to_run (test_result s) →
  reconnection_fails env "libcamera-hello" (with_now (S (now s)) s) output →
  ∃ s',
    ssh_camera_test env s = (Ret tt, s') ∧ ssh s' = None ∧
    recorded_once "T14" false "SSH reconnection failed"
      (test_result s) (test_result s').
Proof.
  intros Hsel Hfail. unfold ssh_camera_test, in_tests_to_run.
  rewrite gets_bind, bool_decide_eq_true_2 by done. cbn [when].
  unfold time_time at 1. rewrite read_tick_bind.
  unfold bind at 1.
  match goal with |- context [run_with_reconnect env "libcamera-hello" ?onf ?s1] =>
    change s1 with (with_now (S (now s)) s);
    destruct (run_with_reconnect_fails env "libcamera-hello" onf _ output Hfail)
      as (error & s2 & Hrun & Hssh & Hledger) end.
  rewrite Hrun.
  destruct (record_fail_eq env "T14" "Camera Detection" "SSH reconnection failed"
              (clock env (now s)) s2 eq_refl) as (s3 & Hrec & Hssh3 & Hpost).
  rewrite (bind_eq _ _ _ _ _ Hrec). cbn [ret].
  rewrite gets_bind, Hssh3, Hssh. cbn.
  exists s3. split; [done|]. split; [by rewrite Hssh3|].
  by rewrite Hledger in Hpost.
Qed.

(** The USB block: the three tests are judged on what the failed
    execution printed. *)
Lemma usb_reconnection_fails (s : State) (output : string) :
  reconnection_fails env "lsusb" s output →
  ∃ s',
    ssh_usb_tests env s = (Ret tt, s') ∧ ssh s' = None ∧
    tests_to_run (test_result s') = tests_to_run (test_result s) ∧
    (∀ tid marker, (tid, marker) ∈ USB_MARKERS →
       tid ∈ tests_to_run (test_result s) →
       test_results (test_result s') !! tid
         = Some (PyBool (PyStr.str_in marker output))) ∧
    (∀ tid, tid ∉ ["T09"; "T10"; "T11"] →
       test_results (test_result s') !! tid
         = test_results (test_result s) !! tid).
Proof.
  intros Hfail. unfold ssh_usb_tests.
  destruct (run_with_reconnect_fails env "lsusb" (ret tt) s output Hfail)
    as (error & s2 & Hrun & Hssh & Hledger).
  unfold bind at 1. rewrite Hrun.
  change ((ret tt ;; ret (output, error)) s2) with (Ret (output, error), s2).
  cbv beta iota. unfold in_tests_to_run, sleep.
  unfold bind at 1. rewrite gets_bind.
  set (b9 := bool_decide ("T09" ∈ tests_to_run (test_result s2))).
  assert (∃ s3,
            when b9
              (let* start_time := time_time env in
               tick ;;
               let* duration := elapsed_since env start_time in
               set_test_result env "T09"
                 (PyBool (PyStr.str_in "MicroPython Board in FS mode" output))
                 ("lsusb output: " +:+ PyStr.take 100 output +:+ "...")
                 (Some duration)) s2 = (Ret tt, s3) ∧
            ssh s3 = None ∧
            tests_to_run (test_result s3) = tests_to_run (test_result s) ∧
            test_results (test_result s3)
              = (if b9
                 then <["T09" := PyBool (PyStr.str_in "MicroPython Board in FS mode" output)]>
                        (test_results (test_result s))
                 else test_results (test_result s))) as (s3 & -> & Hssh3 & Hsel3 & Hres3).
  { destruct b9; cbn [when].
    - unfold time_time at 1. rewrite read_tick_bind, tick_bind.
      rewrite (bind_eq _ _ _ _ _ (elapsed_since_eq _ _ _)).
      rewrite (set_test_result_eq _ _ "USB MicroPython Detection") by done.
      eexists. split; [reflexivity|]. cbn. by rewrite Hssh, Hledger.
    - exists s2. by rewrite Hssh, Hledger. }
  unfold bind at 1. rewrite gets_bind.
  set (b10 := bool_decide ("T10" ∈ tests_to_run (test_result s3))).
  assert (∃ s4,
            when b10
              (let* start_time := time_time env in
               let* duration := elapsed_since env start_time in
               set_test_result env "T10"
                 (PyBool (PyStr.str_in "QinHeng Electronics USB HUB" output))
                 "" (Some duration)) s3 = (Ret tt, s4) ∧
            ssh s4 = None ∧
            tests_to_run (test_result s4) = tests_to_run (test_result s) ∧
            test_results (test_result s4)
              = (if b10
                 then <["T10" := PyBool (PyStr.str_in "QinHeng Electronics USB HUB" output)]>
                        (test_results (test_result s3))
                 else test_results (test_result s3))) as (s4 & -> & Hssh4 & Hsel4 & Hres4).
  { destruct b10; cbn [when].
    - unfold time_time at 1. rewrite read_tick_bind.
      rewrite (bind_eq _ _ _ _ _ (elapsed_since_eq _ _ _)).
      rewrite (set_test_result_eq _ _ "USB Hub Detection") by done.
      eexists. split; [reflexivity|]. cbn. by rewrite Hssh3, Hsel3.
    - exists s3. by rewrite Hssh3, Hsel3. }
  rewrite gets_bind.
  set (b11 := bool_decide ("T11" ∈ tests_to_run (test_result s4))).
  assert (∃ s5,
            when b11
              (let* start_time := time_time env in
               let* duration := elapsed_since env start_time in
               set_test_result env "T11"
                 (PyBool
                    (PyStr.str_in
                       "Microchip Technology, Inc. (formerly SMSC) Ultra Fast Media"
                       output))
                 "" (Some duration)) s4 = (Ret tt, s5) ∧
            ssh s5 = None ∧
            tests_to_run (test_result s5) = tests_to_run (test_result s) ∧
            test_results (test_result s5)
              = (if b11
                 then <["T11" := PyBool
                          (PyStr.str_in
                             "Microchip Technology, Inc. (formerly SMSC) Ultra Fast Media"
                             output)]>
                        (test_results (test_result s4))
                 else test_results (test_result s4))) as (s5 & -> & Hssh5 & Hsel5 & Hres5).
  { destruct b11; cbn [when].
    - unfold time_time at 1. rewrite read_tick_bind.
      rewrite (bind_eq _ _ _ _ _ (elapsed_since_eq _ _ _)).
      rewrite (set_test_result_eq _ _ "USB Media Detection") by done.
      eexists. split; [reflexivity|]. cbn. by rewrite Hssh4, Hsel4.
    - exists s4. by rewrite Hssh4, Hsel4. }
  exists s5. split; [done|]. split; [done|]. split; [done|].
  subst b9 b10 b11. rewrite Hsel4, Hsel3 in *. rewrite Hledger in *.
  rewrite Hres5, Hres4, Hres3.
  clear Hres3 Hres4 Hres5 Hsel3 Hsel4 Hsel5 Hssh3 Hssh4 Hssh5 Hrun Hfail.
  split.
  - intros tid marker Hin Hsel.
    unfold USB_MARKERS in Hin.
    repeat (apply elem_of_cons in Hin as [[= -> ->]|Hin]);
      [..|by apply elem_of_nil in Hin];
      rewrite ?(bool_decide_eq_true_2 _ Hsel);
      repeat (destruct (bool_decide _)); by simplify_map_eq.
  - intros tid Hn.
    assert (tid ≠ "T09" ∧ tid ≠ "T10" ∧ tid ≠ "T11") as (H9 & H10 & H11).
    { repeat split; intros ->; apply Hn; set_solver. }
    repeat (destruct (bool_decide _)); by simplify_map_eq.
Qed.

End Outage.




(** * Further properties of the code *)

(** ** Reconnecting *)

Lemma failed_connects_app (t1 t2 : list event) :
  failed_connects (t1 ++ t2) = (failed_connects t1 + failed_connects t2)%nat.
Proof. unfold failed_connects. by rewrite List.filter_app, length_app. Qed.

Lemma prompts_app (t1 t2 : list event) :
  prompts (t1 ++ t2) = (prompts t1 + prompts t2)%nat.
Proof. unfold prompts. by rewrite List.filter_app, length_app. Qed.

Lemma reconnect_loop_attempts (env : Env) (max : nat) (remaining attempt : nat)
    (s : State) :
  (attempt + remaining = max)%nat →
  match reconnect_loop env max attempt remaining s with
  | (Ret None, s') =>
      ∃ t, trace s' = trace s ++ t ∧
           connect_attempts t = remaining ∧ failed_connects t = remaining ∧
           prompts t = (remaining - 1)%nat
  | (Ret (Some _), s') =>
      ∃ t, trace s' = trace s ++ t ++ [EvConnect (Returns tt)] ∧
           failed_connects t = connect_attempts t ∧
           (connect_attempts t < remaining)%nat ∧
           prompts t = connect_attempts t
  | (Raise e, s') =>
      e = EOF_TEXT ∧ stdin s' = [] ∧
      ∃ t, trace s' = trace s ++ t ∧
           failed_connects t = connect_attempts t ∧
           (connect_attempts t < remaining)%nat
  | _ => False
  end.
Proof.
  revert attempt s. induction remaining as [|r IH]; intros attempt s Hsum.
  - cbn. exists []. by rewrite app_nil_r.
  - cbn [reconnect_loop]. rewrite gets_bind, tick_bind. unfold bind at 1.
    unfold log_event at 1, modify at 1. norm_state.
    destruct (ssh_connect env (now s)) as [[]|e] eqn:Hconn.
    + cbn. exists []. cbn. split; [done|]. repeat split; lia.
    + destruct (attempt <? max - 1)%nat eqn:Hlt.
      * apply Nat.ltb_lt in Hlt.
        unfold bind at 1. unfold wait_for_enter at 1. unfold bind at 1.
        match goal with |- context [input ?p ?s1] =>
          destruct (stdin s1) as [|l rest] eqn:Hs;
          [ rewrite (input_nil p s1) by done
          | rewrite (input_cons p l rest s1) by done ] end.
        { norm_state_in Hs. cbn. split; [done|]. split; [done|].
          exists [EvConnect (Raises e)]. cbn. repeat split; lia. }
        unfold ret at 1. norm_state.
        match goal with |- context [reconnect_loop env max (S attempt) r ?s2] =>
          specialize (IH (S attempt) s2 ltac:(lia));
          destruct (reconnect_loop env max (S attempt) r s2)
            as [[[c|]|e'| |] s3] end; norm_state_in IH.
        -- destruct IH as (t & -> & Hf & Hc & Hp).
           eexists (_ :: _ :: t). rewrite <- !app_assoc. split; [reflexivity|].
           change (?a :: ?b :: t) with ([a; b] ++ t).
           rewrite failed_connects_app, connect_attempts_app, prompts_app.
           cbn. repeat split; lia.
        -- destruct IH as (t & -> & Hc & Hf & Hp).
           eexists (_ :: _ :: t). rewrite <- !app_assoc. split; [reflexivity|].
           change (?a :: ?b :: t) with ([a; b] ++ t).
           rewrite failed_connects_app, connect_attempts_app, prompts_app.
           cbn. repeat split; lia.
        -- destruct IH as (-> & Hin & t & -> & Hf & Hc).
           split; [done|]. split; [done|].
           eexists (_ :: _ :: t). rewrite <- !app_assoc. split; [reflexivity|].
           change (?a :: ?b :: t) with ([a; b] ++ t).
           rewrite failed_connects_app, connect_attempts_app.
           cbn. repeat split; lia.
        -- done.
        -- done.
      * apply Nat.ltb_ge in Hlt. assert (r = 0%nat) as -> by lia.
        cbn. exists [EvConnect (Raises e)]. cbn. repeat split; lia.
Qed.

(** [reconnect_ssh] tries to connect at most [max_attempts] times and asks
    the operator for Enter between two attempts, never before the first nor
    after the last.  It returns [None] exactly after [max_attempts] failed
    attempts and [max_attempts - 1] acknowledgements; it returns a client
    right after its first successful attempt, each earlier attempt having
    failed and been acknowledged; the only exception that leaves it is the
    end of the operator's input, at an acknowledgement. *)
Theorem reconnect_ssh_attempts (env : Env) (max_attempts : nat) (s : State) :
  match reconnect_ssh env max_attempts s with
  | (Ret None, s') =>
      ∃ t, trace s' = trace s ++ t ∧
           connect_attempts t = max_attempts ∧
           failed_connects t = max_attempts ∧
           prompts t = (max_attempts - 1)%nat
  | (Ret (Some _), s') =>
      ∃ t, trace s' = trace s ++ t ++ [EvConnect (Returns tt)] ∧
           failed_connects t = connect_attempts t ∧
           (connect_attempts t < max_attempts)%nat ∧
           prompts t = connect_attempts t
  | (Raise e, s') =>
      e = EOF_TEXT ∧ stdin s' = [] ∧
      ∃ t, trace s' = trace s ++ t ∧
           failed_connects t = connect_attempts t ∧
           (connect_attempts t < max_attempts)%nat
  | _ => False
  end.
Proof. apply reconnect_loop_attempts. lia. Qed.

(** ** The prompt with the continue check *)

Lemma yes_no_loop_checked (env : Env) (prompt : string) (start : Q) :
  ∀ (pending : list string) (s : State),
    pending = stdin s →
    match operator_verdict (stdin s) with
    | Some (v, rest) =>
        ∃ d s', yes_no_loop env prompt true start pending s = (Ret (v, d), s') ∧
                stdin s' = rest ∧ test_result s' = test_result s ∧
                excel s' = excel s
    | None =>
        ∃ s', yes_no_loop env prompt true start pending s = (Raise EOF_TEXT, s') ∧
              test_result s' = test_result s ∧ excel s' = excel s
    end.
Proof.
  intros pending. induction pending as [|l rest IH]; intros s Hs.
  - rewrite yes_no_loop_eof by done. rewrite <- Hs. simpl. eauto.
  - rewrite (yes_no_loop_cons _ _ _ _ _ _ l rest) by done.
    rewrite <- Hs. cbn [operator_verdict]. cbv zeta.
    destruct (PyStr.is_yes (PyStr.lower (PyStr.strip l))).
    { do 2 eexists. split; [reflexivity|]. done. }
    destruct (PyStr.is_no (PyStr.lower (PyStr.strip l))).
    { destruct rest as [|l2 rest2].
      - eexists. unfold bind at 1. rewrite input_nil by done. done.
      - unfold bind at 1.
        rewrite (input_cons _ l2 rest2) by done.
        destruct (PyStr.is_yes (PyStr.lower (PyStr.strip l2))); cbn [negb];
          do 2 eexists; (split; [reflexivity|]); done. }
    match goal with |- context [yes_no_loop _ _ _ _ rest ?s1] =>
      specialize (IH s1 eq_refl) end.
    simpl in IH. apply IH.
Qed.

(** With the continue check enabled, [get_yes_no_input] skips the lines that
    are neither yes nor no (case and surrounding blanks ignored).  The first
    valid line decides: a yes returns [True]; a no makes it read exactly one
    more line, and it returns [False] when that line is a yes and the restart
    signal [None] on any other line, an empty one included.  The lines after
    the decision stay unread, the ledger and the workbook are untouched, and
    [EOFError] is raised when the input ends before the decision. *)
Theorem get_yes_no_input_checked (env : Env) (prompt : string) (s : State) :
  match operator_verdict (stdin s) with
  | Some (v, rest) =>
      ∃ duration s',
        get_yes_no_input env prompt true s = (Ret (v, duration), s') ∧
        stdin s' = rest ∧ test_result s' = test_result s ∧ excel s' = excel s
  | None =>
      ∃ s', get_yes_no_input env prompt true s = (Raise EOF_TEXT, s') ∧
            test_result s' = test_result s ∧ excel s' = excel s
  end.
Proof.
  unfold get_yes_no_input.
  pose proof (yes_no_loop_checked env prompt (clock env (now s)) (stdin s)
                (with_now (S (now s)) s) eq_refl) as H.
  simpl in H. exact H.
Qed.

(** ** The device id *)

Lemma int_go_nonneg (s : string) (acc : Z) : 0 ≤ acc → 0 ≤ PyStr.int_go acc s.
Proof.
  revert acc. induction s as [|c s IH]; intros acc Hacc; cbn [PyStr.int_go].
  - done.
  - apply IH. lia.
Qed.

Lemma device_id_loop_first_digits (env : Env) (pending : list string)
    (s : State) :
  pending = stdin s →
  match device_id_loop env pending s with
  | (Ret dev, s') =>
      ∃ skipped line,
        stdin s = skipped ++ line :: stdin s' ∧
        Forall (fun l => isdigit env l = false) skipped ∧
        isdigit env line = true ∧ int_of_str env line s' = (Ret dev, s')
  | (Raise e, s') =>
      (e = EOF_TEXT ∧ stdin s' = [] ∧
       Forall (fun l => isdigit env l = false) (stdin s))
      ∨ ∃ skipped line,
          stdin s = skipped ++ line :: stdin s' ∧
          Forall (fun l => isdigit env l = false) skipped ∧
          isdigit env line = true ∧ int_of_str env line s' = (Raise e, s')
  | _ => False
  end.
Proof.
  revert s. induction pending as [|l rest IH]; intros s Hs.
  - cbn [device_id_loop]. unfold bind. rewrite input_nil by done.
    rewrite <- Hs. left. done.
  - cbn [device_id_loop]. unfold bind at 1.
    rewrite (input_cons _ l rest) by done.
    destruct (isdigit env l) eqn:Hd.
    + match goal with |- context [int_of_str env l ?s1] =>
        destruct (int_of_str_state (env := env) l s1) as [Hst Hout];
        destruct (int_of_str env l s1) as [o s'] eqn:Hrun end.
      cbn [fst snd] in Hst, Hout. subst s'.
      destruct Hout as [[z ->]|[e ->]].
      * exists [], l. rewrite <- Hs. done.
      * right. exists [], l. rewrite <- Hs. done.
    + match goal with |- context [device_id_loop env rest ?s1] =>
        specialize (IH s1 eq_refl);
        destruct (device_id_loop env rest s1) as [[dev|e| |] s'] end;
        cbn [stdin with_now with_trace with_stdin] in IH; try done.
      * destruct IH as (skipped & line & Hrest & Hsk & Hline & Hint).
        exists (l :: skipped), line. rewrite <- Hs, Hrest.
        split; [done|]. split; [by constructor|]. done.
      * destruct IH as [(-> & Hnil & Hall)|(skipped & line & Hrest & Hsk & Hline & Hint)].
        -- left. rewrite <- Hs. split; [done|]. split; [done|]. by constructor.
        -- right. exists (l :: skipped), line. rewrite <- Hs, Hrest.
           split; [done|]. split; [by constructor|]. done.
Qed.

(** [get_device_id_with_qr] skips every line for which [isdigit()] does not
    hold (an empty line, a sign, a blank or a letter disqualifies the line:
    nothing is stripped) and hands the first line for which it holds to
    [int()], leaving the later lines unread.  It returns what [int()]
    returns, with version and manufacture id [None]: for a line of ASCII
    digits this is its decimal value, which is never negative.  It raises
    [EOFError] when the input ends after every line was rejected, and the
    [ValueError] of [int()] when that line cannot be converted (digits that
    are not decimal, or more digits than the interpreter's limit): the
    conversion is not guarded. *)
Theorem device_id_is_first_digit_line (env : Env) (s : State) :
  match get_device_id_with_qr env s with
  | (Ret (dev, ver, man), s') =>
      ver = None ∧ man = None ∧
      ∃ skipped line,
        stdin s = skipped ++ line :: stdin s' ∧
        Forall (fun l => isdigit env l = false) skipped ∧
        isdigit env line = true ∧
        int_of_str env line s' = (Ret dev, s') ∧
        (PyStr.is_ascii line = true →
         PyStr.isdigit line = true ∧ dev = PyStr.int_of_digits line ∧ 0 ≤ dev)
  | (Raise e, s') =>
      (e = EOF_TEXT ∧ stdin s' = [] ∧
       Forall (fun l => isdigit env l = false) (stdin s))
      ∨ ∃ skipped line,
          stdin s = skipped ++ line :: stdin s' ∧
          Forall (fun l => isdigit env l = false) skipped ∧
          isdigit env line = true ∧
          int_of_str env line s' = (Raise e, s')
  | _ => False
  end.
Proof.
  unfold get_device_id_with_qr. rewrite gets_bind.
  pose proof (device_id_loop_first_digits env (stdin s) s eq_refl) as H.
  unfold bind.
  destruct (device_id_loop env (stdin s) s) as [[dev|e| |] s']; try done.
  cbn. destruct H as (skipped & line & H1 & H2 & H3 & H4).
  split; [done|]. split; [done|]. exists skipped, line.
  repeat (split; [done|]).
  intros Hascii. unfold isdigit in H3. rewrite Hascii in H3.
  split; [done|].
  unfold int_of_str in H4. rewrite Hascii in H4.
  destruct (_ && _); [done|]. injection H4 as <-.
  split; [done|]. by apply int_go_nonneg.
Qed.

(** A superscript two passes [isdigit()] and [int()] rejects it: the
    exception leaves [get_device_id_with_qr]. *)
Lemma device_id_superscript_raises :
  let env := lab_env_superscript in
  (get_device_id_with_qr env (boot ["x"; SUPERSCRIPT_TWO; "7"])).1
    = Raise ("invalid literal for int() with base 10: '" +:+ SUPERSCRIPT_TWO +:+ "'").
Proof. vm_compute. reflexivity. Qed.

(** ** What the SSH group returns *)

Lemma ssh_group_body_returns_true (env : Env) :
  returns_only (λ ok : bool, ok = true)
    (ssh_usb_tests env ;; ssh_rgb_led_test env ;; ssh_sd_card_test env ;;
     ssh_camera_test env ;; close_if_open ;; ret true).
Proof. repeat (apply returns_bind; intros ?). by apply returns_ret. Qed.

Lemma no_ctl_ssh_group_body (env : Env) :
  no_loop_control
    (ssh_usb_tests env ;; ssh_rgb_led_test env ;; ssh_sd_card_test env ;;
     ssh_camera_test env ;; close_if_open ;; ret true).
Proof.
  pose proof (no_ctl_ssh_usb_tests env). pose proof (no_ctl_ssh_rgb_led_test env).
  pose proof (no_ctl_ssh_sd_card_test env). pose proof (no_ctl_ssh_camera_test env).
  noctl'.
Qed.

(** [perform_ssh_tests] returns [False] exactly when the initial connection
    fails after its five attempts.  Once that connection is up it returns
    [True] whatever happens to the tests of the group: failed tests, a lost
    connection, even an exception raised inside the group, which is caught.
    It raises only when the operator's input ends while the initial
    connection is being retried. *)
Theorem perform_ssh_tests_result (env : Env) (s : State) :
  match reconnect_ssh env 5 s with
  | (Ret (Some _), _) => (perform_ssh_tests env s).1 = Ret true
  | (Ret None, _) => (perform_ssh_tests env s).1 = Ret false
  | (Raise e, _) => e = EOF_TEXT ∧ (perform_ssh_tests env s).1 = Raise EOF_TEXT
  | _ => False
  end.
Proof.
  pose proof (reconnect_loop_attempts env 5 5 0 s eq_refl) as Hshape.
  fold (reconnect_ssh env 5) in Hshape.
  unfold perform_ssh_tests.
  destruct (reconnect_ssh env 5 s) as [[[c|]|e| |] s1] eqn:Hrc; try done.
  - rewrite (bind_eq _ _ _ _ _ (assign_ssh_eq _ _ _ _ _ Hrc)).
    unfold try_except.
    match goal with |- context [bind ?m ?k ?s0] =>
      pose proof (ssh_group_body_returns_true env s0) as Hret;
      pose proof (no_ctl_ssh_group_body env s0) as [Hc Hb];
      destruct (bind m k s0) as [[ok|e| |] s2] eqn:Hbody end.
    + by rewrite (Hret ok s2 eq_refl).
    + unfold append_notes, modify_test_result. unfold bind at 1.
      unfold modify at 1. unfold bind. by rewrite close_if_open_eq.
    + done.
    + done.
  - rewrite (bind_eq _ _ _ _ _ (assign_ssh_eq _ _ _ _ _ Hrc)).
    unfold append_notes, modify_test_result.
    unfold bind at 1. unfold modify at 1. unfold bind at 1.
    match goal with |- context [fail_ssh_tests env SSH_TEST_IDS ?s0] =>
      destruct (fail_ssh_tests_post env SSH_TEST_IDS ssh_test_ids_in_catalog s0)
        as (s2 & -> & _) end.
    done.
  - destruct Hshape as (-> & _). split; [done|].
    unfold assign_ssh. unfold bind. by rewrite Hrc.
Qed.

(** ** The ledger and its log during a session *)

Lemma init_tests_lookup_full (ids : list string) (sel : gset string)
    (acc : gmap string py_result * gmap string (option Z)) (tid : string) :
  (init_tests ids sel acc).1 !! tid =
    (if decide (tid ∈ ids)
     then Some (if bool_decide (tid ∈ sel) then PyNone else PySKIPPED)
     else acc.1 !! tid) ∧
  (init_tests ids sel acc).2 !! tid =
    (if decide (tid ∈ ids)
     then Some (if bool_decide (tid ∈ sel) then None else Some 0)
     else acc.2 !! tid).
Proof.
  revert acc. induction ids as [|k ids IH]; intros acc.
  - cbn [init_tests]. rewrite !decide_False by apply not_elem_of_nil. done.
  - cbn [init_tests]. destruct (IH (if bool_decide (k ∈ sel)
         then (<[k:=PyNone]> acc.1, <[k:=None]> acc.2)
         else (<[k:=PySKIPPED]> acc.1, <[k:=Some 0]> acc.2))) as [-> ->].
    destruct (decide (tid ∈ ids)) as [Hin|Hnin].
    + rewrite !decide_True by (apply elem_of_cons; by right). done.
    + destruct (decide (tid = k)) as [->|Hne].
      * rewrite !decide_True by (apply elem_of_cons; by left).
        destruct (bool_decide (k ∈ sel)); cbn; by rewrite !lookup_insert_eq.
      * assert (tid ∉ k :: ids) as Hout by (intros [->|?]%elem_of_cons; done).
        rewrite !decide_False by done.
        destruct (bool_decide (k ∈ sel)); cbn; by rewrite !lookup_insert_ne.
Qed.

Lemma init_ledger_at (stamp : Q) (dev : Z) (sel : gset string)
    (ver man : option string) :
  ledger_at sel 0 (TestResult_init stamp dev sel ver man).
Proof.
  split; [done|]. split; [by apply sublist_nil_l|].
  assert (∀ tid,
    test_results (TestResult_init stamp dev sel ver man) !! tid =
      (if decide (tid ∈ TEST_ID_KEYS)
       then Some (if bool_decide (tid ∈ sel) then PyNone else PySKIPPED)
       else None) ∧
    test_durations (TestResult_init stamp dev sel ver man) !! tid =
      (if decide (tid ∈ TEST_ID_KEYS)
       then Some (if bool_decide (tid ∈ sel) then None else Some 0)
       else None)) as Hlook.
  { intros tid. cbn [TestResult_init test_results test_durations].
    destruct (init_tests_lookup_full TEST_ID_KEYS sel (∅, ∅) tid) as [-> ->].
    destruct (decide (tid ∈ TEST_ID_KEYS)); [done|]. cbn. by rewrite !lookup_empty. }
  split; [|split].
  - intros tid. destruct (Hlook tid) as [-> _].
    destruct (decide (tid ∈ TEST_ID_KEYS));
      [split; [done|by eexists] | split; [by intros [? ?]|done]].
  - intros tid. destruct (Hlook tid) as [_ ->].
    destruct (decide (tid ∈ TEST_ID_KEYS));
      [split; [done|by eexists] | split; [by intros [? ?]|done]].
  - intros tid Hk. unfold entry_coherent. destruct (Hlook tid) as [-> ->].
    rewrite !decide_True by done.
    destruct (decide (tid ∈ sel)) as [Hs|Hs].
    + rewrite bool_decide_eq_true_2 by done.
      split; [done|]. split; [done|]. apply not_elem_of_nil.
    + rewrite bool_decide_eq_false_2 by done.
      split; [done|]. split; [done|]. apply not_elem_of_nil.
Qed.

Lemma ledger_at_mono (sel : gset string) (i j : nat) (r : TestResult) :
  (i ≤ j)%nat → ledger_at sel i r → ledger_at sel j r.
Proof.
  intros Hij (H1 & H2 & H3). split; [done|]. split; [|done].
  etrans; [exact H2|].
  replace i with (i `min` j)%nat by lia. rewrite <- take_take.
  apply sublist_take.
Qed.

Lemma catalog_keys_NoDup : NoDup TEST_ID_KEYS.
Proof. apply (bool_decide_unpack _). vm_compute. exact I. Qed.

Lemma catalog_name (tid : string) :
  tid ∈ TEST_ID_KEYS → is_Some (TEST_IDS !! tid).
Proof.
  intros H. destruct (TEST_IDS !! tid) eqn:E; [done|].
  apply not_elem_of_list_to_map_2 in E. done.
Qed.

Lemma logged_ids_append (entry : LogEntry) (r : TestResult) :
  logged_ids (append_log entry r) = logged_ids r ++ [log_test_id entry].
Proof. unfold logged_ids. cbn. by rewrite fmap_app. Qed.

(** Recording the test at position [i] of the catalog. *)
Lemma ledger_at_record (sel : gset string) (i : nat) (tid name : string)
    (b : bool) (d : Z) (stamp : Q) (details : string) (r : TestResult) :
  TEST_ID_KEYS !! i = Some tid → TEST_IDS !! tid = Some name → tid ∈ sel →
  ledger_at sel i r →
  ledger_at sel (S i)
    (append_log (mkLogEntry stamp tid name (status_text (PyBool b)) (Some d) details)
       (store_result tid (PyBool b) (Some d) r)).
Proof.
  intros Hi Hname Hsel (Ht & Hlog & Hk1 & Hk2 & Hcoh).
  assert (tid ∈ TEST_ID_KEYS) as Hin by (by eapply list_elem_of_lookup_2).
  split; [done|]. split; [|split; [|split]].
  - rewrite logged_ids_append. cbn [log_test_id].
    rewrite (take_S_r _ _ _ Hi). by apply sublist_app.
  - intros k. cbn [append_log store_result test_results].
    rewrite lookup_insert_is_Some, Hk1.
    destruct (decide (tid = k)) as [<-|Hne].
    + split; [done|]. intros _. by left.
    + split; [by intros [?|[_ ?]]|]. intros ?. by right.
  - intros k. cbn [append_log store_result test_durations].
    rewrite lookup_insert_is_Some, Hk2.
    destruct (decide (tid = k)) as [<-|Hne].
    + split; [done|]. intros _. by left.
    + split; [by intros [?|[_ ?]]|]. intros ?. by right.
  - intros k Hkin. unfold entry_coherent.
    rewrite logged_ids_append.
    cbn [append_log store_result test_results test_durations log_file log_test_id].
    destruct (decide (k = tid)) as [->|Hne].
    + rewrite !lookup_insert_eq. split; [done|].
      eexists _, d. split; [apply elem_of_app; right; by apply list_elem_of_singleton|].
      cbn. by destruct b.
    + rewrite !lookup_insert_ne by done.
      specialize (Hcoh k Hkin). unfold entry_coherent in Hcoh.
      destruct (test_results r !! k) as [[|b'|]|]; [| |.. ]; try done.
      * destruct Hcoh as (H1 & H2 & H3). split; [done|]. split; [done|].
        apply not_elem_of_app. split; [done|].
        by intros ->%list_elem_of_singleton.
      * destruct Hcoh as (H1 & entry & d' & H2 & H3).
        split; [done|]. exists entry, d'. split; [|done].
        apply elem_of_app. by left.
      * destruct Hcoh as (H1 & H2 & H3). split; [done|]. split; [done|].
        apply not_elem_of_app. split; [done|].
        by intros ->%list_elem_of_singleton.
Qed.

(** Changes of the notes and of [overall_pass] leave the rest alone. *)
Lemma ledger_at_notes (sel : gset string) (k : nat) (r : TestResult)
    (text : string) (b : bool) :
  ledger_at sel k r →
  ledger_at sel k
    (mkTestResult (device_id r) (version r) (manufacture_id r) (timestamp r)
       (test_results r) (test_durations r) (tests_to_run r) b text (log_file r)).
Proof. by intros H. Qed.

(** ** Rules for the triples *)

Section HoareRules.

Context {A B : Type}.

Lemma hoare_bind (I : State → Prop) (m : M A) (Q : A → State → Prop)
    (k : A → M B) (R : B → State → Prop) (E : State → Prop) :
  hoare I m Q E → (∀ a, hoare (Q a) (k a) R E) → hoare I (bind m k) R E.
Proof.
  intros Hm Hk s HI. specialize (Hm s HI). unfold bind.
  destruct (m s) as [[a|e| |] s1]; try done. by apply Hk.
Qed.

Lemma hoare_try (I : State → Prop) (m : M A) (Q : A → State → Prop)
    (h : string → M A) (E : State → Prop) :
  hoare I m Q E → (∀ e, hoare E (h e) Q E) → hoare I (try_except m h) Q E.
Proof.
  intros Hm Hh s HI. specialize (Hm s HI). unfold try_except.
  destruct (m s) as [[a|e| |] s1]; try done. by apply Hh.
Qed.

Lemma hoare_ret (I : State → Prop) (a : A) (Q : A → State → Prop)
    (E : State → Prop) :
  (∀ s, I s → Q a s) → hoare I (ret a) Q E.
Proof. intros H s HI. by apply H. Qed.

Lemma hoare_conseq (I I' : State → Prop) (m : M A) (Q Q' : A → State → Prop)
    (E : State → Prop) :
  hoare I m Q E → (∀ s, I' s → I s) → (∀ a s, Q a s → Q' a s) →
  hoare I' m Q' E.
Proof.
  intros Hm HI HQ s Hs. specialize (Hm s (HI s Hs)).
  destruct (m s) as [[a|e| |] s1]; try done. by apply HQ.
Qed.

(** A computation that keeps [I]. *)
Lemma hoare_frame (I : State → Prop) (m : M A) (E : State → Prop) :
  preserves I m → (∀ s, I s → E s) → hoare I m (λ _, I) E.
Proof.
  intros Hm HE s HI. specialize (Hm s HI).
  destruct (m s) as [[a|e| |] s1]; cbn in Hm; auto.
Qed.

(** A computation that keeps [I] and returns values in [P] only. *)
Lemma hoare_frame_returns (I : State → Prop) (P : A → Prop) (m : M A)
    (E : State → Prop) :
  preserves I m → returns_only P m → (∀ s, I s → E s) →
  hoare I m (λ a s, P a ∧ I s) E.
Proof.
  intros Hm Hr HE s HI. specialize (Hm s HI). specialize (Hr s).
  destruct (m s) as [[a|e| |] s1]; cbn in Hm; auto.
  split; [|done]. by eapply Hr.
Qed.

(** A fact that does not depend on the state. *)
Lemma hoare_pure (P : Prop) (I : State → Prop) (m : M A)
    (Q : A → State → Prop) (E : State → Prop) :
  (P → hoare I m Q E) → hoare (λ s, P ∧ I s) m Q E.
Proof. intros H s [HP HI]. by apply H. Qed.

End HoareRules.

Lemma hoare_gets {A} (I : State → Prop) (f : State → A) (E : State → Prop) :
  hoare I (gets f) (λ a s, a = f s ∧ I s) E.
Proof. by intros s HI. Qed.

Lemma hoare_when (I : State → Prop) (c : bool) (m : M unit)
    (Q : unit → State → Prop) (E : State → Prop) :
  (c = true → hoare I m Q E) → (c = false → ∀ s, I s → Q tt s) →
  hoare I (when c m) Q E.
Proof.
  destruct c; cbn [when]; intros H1 H2; [by apply H1|].
  apply hoare_ret. by apply H2.
Qed.

Global Instance session_phase_now (sel : gset string) (k : nat) :
  NowStable (session_phase sel k).
Proof. by intros n s H. Qed.
Global Instance session_phase_stdin (sel : gset string) (k : nat) :
  StdinStable (session_phase sel k).
Proof. by intros n s H. Qed.
Global Instance session_phase_trace (sel : gset string) (k : nat) :
  TraceStable (session_phase sel k).
Proof. by intros n s H. Qed.
Global Instance session_phase_ssh (sel : gset string) (k : nat) :
  SshStable (session_phase sel k).
Proof. by intros n s H. Qed.
Global Instance session_phase_restart (sel : gset string) (k : nat) :
  RestartStable (session_phase sel k).
Proof. by intros n s H. Qed.
Global Instance session_phase_excel (sel : gset string) (k : nat) :
  ExcelStable (session_phase sel k).
Proof. by intros n s H. Qed.

Section LedgerSession.

Variable env : Env.
Variable sel : gset string.

Local Abbreviation Ph := (session_phase sel).

Lemma phase_mono (i j : nat) (s : State) : (i ≤ j)%nat → Ph i s → Ph j s.
Proof. intros Hij. by apply ledger_at_mono. Qed.

Lemma phase_append_notes (k : nat) (text : string) :
  preserves (Ph k) (append_notes text).
Proof. intros s H. by apply ledger_at_notes. Qed.

Lemma phase_assign_notes (k : nat) (text : string) :
  preserves (Ph k) (assign_notes text).
Proof. intros s H. by apply ledger_at_notes. Qed.

Lemma phase_save_to_excel (k : nat) : preserves (Ph k) save_to_excel.
Proof. intros s H. rewrite save_to_excel_eq. by apply ledger_at_notes. Qed.

#[local] Hint Resolve phase_append_notes phase_assign_notes phase_save_to_excel
  : keeps.

Ltac mono :=
  let s := fresh "s" in
  let H := fresh "H" in
  intros s H; first [exact H | eapply phase_mono; [|exact H]; cbn; lia].

Ltac hframe := apply hoare_frame; [solve [keeps'] | mono].

Lemma hoare_guard (k : nat) (tid : string) (E : State → Prop) :
  hoare (Ph k) (in_tests_to_run tid) (λ b s, (b = true → tid ∈ sel) ∧ Ph k s) E.
Proof.
  intros s HI. cbn. split; [|done].
  intros Hb%bool_decide_eq_true. by destruct HI as [<- _].
Qed.

Lemma hoare_record (i : nat) (tid : string) (b : bool) (details : string)
    (d : Z) (E : State → Prop) :
  TEST_ID_KEYS !! i = Some tid → tid ∈ sel →
  hoare (Ph i) (set_test_result env tid (PyBool b) details (Some d))
    (λ _, Ph (S i)) E.
Proof.
  intros Hi Hsel s HI.
  destruct (catalog_name tid) as [name Hname]; [by eapply list_elem_of_lookup_2|].
  rewrite (set_test_result_eq _ _ name) by done.
  by apply ledger_at_record.
Qed.

Lemma hoare_operator_check (i : nat) (tid prompt : string) :
  TEST_ID_KEYS !! i = Some tid → tid ∈ sel →
  hoare (Ph i) (operator_check env tid prompt) (λ _, Ph (S i)) (Ph 13).
Proof.
  intros Hi Hsel. pose proof (lookup_lt_Some _ _ _ Hi) as Hlt. cbn in Hlt.
  unfold operator_check. eapply hoare_bind.
  { apply (hoare_frame_returns _ (λ x, x.1 ≠ PySKIPPED));
      [keeps' | apply get_yes_no_input_returns | mono]. }
  intros [result d]. apply hoare_pure. cbn [fst]. intros Hres.
  destruct result as [|b|]; [| |done].
  - eapply hoare_conseq; [apply (hoare_frame (Ph i)); [keeps'|mono] | done |].
    intros ?. mono.
  - eapply hoare_bind; [by apply hoare_record|].
    intros ?. by apply hoare_ret.
Qed.

Lemma hoare_guarded_check (i : nat) (tid prompt : string) :
  TEST_ID_KEYS !! i = Some tid →
  hoare (Ph i)
    (let* selected := in_tests_to_run tid in
     when selected (operator_check env tid prompt ;; ret tt))
    (λ _, Ph (S i)) (Ph 13).
Proof.
  intros Hi. pose proof (lookup_lt_Some _ _ _ Hi) as Hlt. cbn in Hlt.
  eapply hoare_bind; [apply hoare_guard|].
  intros selected. apply hoare_pure. intros Hsel.
  apply hoare_when.
  - intros ->. eapply hoare_bind; [by apply hoare_operator_check; auto|].
    intros ?. by apply hoare_ret.
  - intros _. mono.
Qed.

Lemma hoare_upload_firmware_wipe :
  "T01" ∈ sel →
  hoare (Ph 0) (upload_firmware_wipe env) (λ _, Ph 1) (Ph 13).
Proof.
  intros Hsel s HI.
  destruct (upload_firmware_wipe_post env s) as (b & s' & -> & t & d & details & Hr).
  unfold session_phase. rewrite Hr.
  apply (ledger_at_record sel 0 "T01" "Firmware Upload" b); done.
Qed.

Lemma hoare_firmware_step :
  hoare (Ph 0) (firmware_step env) (λ _, Ph 1) (Ph 13).
Proof.
  unfold firmware_step.
  eapply hoare_bind; [apply hoare_guard|].
  intros selected. apply hoare_pure. intros Hsel.
  apply hoare_when; [intros ->|intros _; mono].
  eapply hoare_bind; [hframe|]. intros ?.
  eapply hoare_bind; [by apply hoare_upload_firmware_wipe; auto|].
  intros ok. apply hoare_when; [intros _|intros _; mono].
  eapply hoare_conseq; [apply (hoare_frame (Ph 1)); [keeps'|mono] | done | done].
Qed.

Lemma hoare_visual_steps :
  hoare (Ph 1) (visual_steps env) (λ _, Ph 4) (Ph 13).
Proof.
  unfold visual_steps.
  eapply hoare_bind; [hframe|]. intros ?.
  eapply hoare_bind; [by apply (hoare_guarded_check 1 "T02")|]. intros ?.
  eapply hoare_bind; [by apply (hoare_guarded_check 2 "T03")|]. intros ?.
  by apply (hoare_guarded_check 3 "T04").
Qed.

Lemma hoare_ui_steps :
  hoare (Ph 4) (ui_steps env) (λ _, Ph 7) (Ph 13).
Proof.
  unfold ui_steps.
  eapply hoare_bind; [apply hoare_guard|].
  intros t05. apply hoare_pure. intros Hsel.
  eapply (hoare_bind _ _ (λ _, Ph 5)).
  { destruct t05.
    - eapply hoare_bind; [by apply (hoare_operator_check 4 "T05"); auto|].
      intros result. by apply hoare_ret.
    - apply hoare_ret. mono. }
  intros ui_appears. apply hoare_when; [intros _|intros _; mono].
  eapply hoare_bind; [by apply (hoare_guarded_check 5 "T06")|]. intros ?.
  by apply (hoare_guarded_check 6 "T07").
Qed.

Lemma yes_no_loop_unchecked_returns (prompt : string) (start : Q)
    (pending : list string) :
  returns_only (λ x, ∃ b, x.1 = PyBool b)
    (yes_no_loop env prompt false start pending).
Proof.
  induction pending as [|l pending IH]; cbn [yes_no_loop];
    repeat first
      [ apply returns_bind; intros ?
      | apply returns_ret; cbn; by eexists
      | apply returns_raise
      | exact IH
      | match goal with |- returns_only _ (if ?c then _ else _) => destruct c end ].
Qed.

Lemma get_yes_no_input_unchecked_returns (prompt : string) :
  returns_only (λ x, ∃ b, x.1 = PyBool b) (get_yes_no_input env prompt false).
Proof.
  unfold get_yes_no_input. do 2 (apply returns_bind; intros ?).
  apply yes_no_loop_unchecked_returns.
Qed.

Ltac hframes := repeat (eapply hoare_bind; [hframe|]; intros ?; cbv beta).

Ltac hguard :=
  eapply hoare_bind; [apply hoare_guard|];
  let selected := fresh "selected" in
  let Hsel := fresh "Hsel" in
  intros selected; apply hoare_pure; intros Hsel;
  apply hoare_when; [intros ->; specialize (Hsel eq_refl) | intros _; mono].

Lemma hoare_ssh_usb_tests :
  hoare (Ph 7) (ssh_usb_tests env) (λ _, Ph 10) (Ph 13).
Proof.
  unfold ssh_usb_tests, sleep.
  eapply hoare_bind; [hframe|]. intros [output error]. cbv beta iota.
  eapply (hoare_bind _ _ (λ _, Ph 8)).
  { hguard. hframes. by apply (hoare_record 7); auto. }
  intros ?. cbv beta. eapply (hoare_bind _ _ (λ _, Ph 9)).
  { hguard. hframes. by apply (hoare_record 8); auto. }
  intros ?. cbv beta.
  hguard. hframes. by apply (hoare_record 9); auto.
Qed.

Lemma hoare_ssh_rgb_led_test :
  hoare (Ph 10) (ssh_rgb_led_test env) (λ _, Ph 11) (Ph 13).
Proof.
  unfold ssh_rgb_led_test, sleep.
  hguard. hframes.
  match goal with |- hoare _ (match ?x with _ => _ end) _ _ =>
    destruct x as [check_output check_error] end.
  destruct (PyStr.str_in "NOT_FOUND" check_output).
  { hframes. by apply (hoare_record 10); auto. }
  hframes.
  match goal with |- hoare _ (match ?x with _ => _ end) _ _ =>
    destruct x as [output error] end.
  do 2 (eapply hoare_bind; [hframe|]; intros ?; cbv beta).
  eapply hoare_bind.
  { apply (hoare_frame_returns _ (λ x, ∃ b, x.1 = PyBool b));
      [keeps' | apply get_yes_no_input_unchecked_returns | mono]. }
  intros [rgb_led_result question_duration]. apply hoare_pure.
  cbn [fst]. intros [b ->]. hframes. by apply (hoare_record 10); auto.
Qed.

Lemma hoare_assign_ssh (I E : State → Prop)
    `{!NowStable I, !InputStable I, !TraceStable I, !SshStable I} (n : nat) :
  (∀ s, I s → E s) →
  hoare I (assign_ssh env n) (λ c s, ssh s = c ∧ I s) E.
Proof.
  intros HE. unfold assign_ssh.
  eapply hoare_bind; [apply hoare_frame; [keeps'|done]|]. intros c. cbv beta.
  eapply (hoare_bind _ _ (λ _ s, ssh s = c ∧ I s)).
  { intros s HI. cbn. split; [done|]. by apply ssh_stable. }
  intros ?. by apply hoare_ret.
Qed.

(** The reconnect-and-retry block: either its [else] branch did not run,
    or it ran with no client and no client is left. *)
Lemma hoare_run_with_reconnect (I J E : State → Prop)
    `{!NowStable I, !InputStable I, !TraceStable I, !SshStable I}
    (command : string) (on_failure : M unit) :
  hoare (λ s, ssh s = None ∧ I s) on_failure (λ _ s, ssh s = None ∧ J s) E →
  (∀ s, I s → E s) →
  hoare I (run_with_reconnect env command on_failure)
    (λ _ s, I s ∨ (ssh s = None ∧ J s)) E.
Proof.
  intros Honf HE. unfold run_with_reconnect.
  eapply hoare_bind; [apply hoare_frame; [keeps'|done]|]. intros c. cbv beta.
  eapply hoare_bind; [apply hoare_frame; [keeps'|done]|].
  intros [output error]. cbv beta iota.
  destruct (PyStr.str_in "SSH_ERROR" error).
  - eapply hoare_bind; [apply hoare_frame; [keeps'|done]|]. intros ?. cbv beta.
    eapply hoare_bind; [by apply hoare_assign_ssh|]. intros [c'|].
    + eapply hoare_conseq; [apply (hoare_frame I); [keeps'|done]| |].
      * by intros s [_ H].
      * intros ? s H. by left.
    + eapply hoare_bind; [exact Honf|]. intros ?. apply hoare_ret.
      intros s H. by right.
  - apply hoare_ret. intros s H. by left.
Qed.

(** Recording while there is no client. *)
Lemma hoare_record_offline (i : nat) (tid : string) (b : bool)
    (details : string) (start : Q) (E : State → Prop) :
  TEST_ID_KEYS !! i = Some tid → tid ∈ sel →
  hoare (λ s, ssh s = None ∧ Ph i s)
    (let* duration := elapsed_since env start in
     set_test_result env tid (PyBool b) details (Some duration))
    (λ _ s, ssh s = None ∧ Ph (S i) s) E.
Proof.
  intros Hi Hsel s [Hnone HI].
  destruct (catalog_name tid) as [name Hname]; [by eapply list_elem_of_lookup_2|].
  rewrite (bind_eq _ _ _ _ _ (elapsed_since_eq _ _ _)).
  rewrite (set_test_result_eq _ _ name) by done.
  split; [done|]. by apply ledger_at_record.
Qed.

(** The block shared by the SD card and the camera test, for the test at
    position [i] of the catalog. *)
Lemma hoare_retried_check (i : nat) (tid command : string) (start : Q)
    (verdict : string → string → bool) (details : string → string → string) :
  TEST_ID_KEYS !! i = Some tid → tid ∈ sel →
  hoare (Ph i)
    (let* '(output, error) :=
       run_with_reconnect env command
         (let* duration := elapsed_since env start in
          set_test_result env tid (PyBool false) "SSH reconnection failed"
            (Some duration)) in
     let* c := gets ssh in
     when (bool_decide (is_Some c) && negb (PyStr.str_in "SSH_ERROR" error))
       (let* duration := elapsed_since env start in
        set_test_result env tid (PyBool (verdict output error))
          (details output error) (Some duration)))
    (λ _, Ph (S i)) (Ph 13).
Proof.
  intros Hi Hsel. pose proof (lookup_lt_Some _ _ _ Hi) as Hlt. cbn in Hlt.
  eapply hoare_bind.
  { apply (hoare_run_with_reconnect (Ph i) (Ph (S i))); try apply _; [|mono].
    by apply hoare_record_offline. }
  intros [output error]. cbv beta iota.
  eapply hoare_bind; [apply hoare_gets|]. intros c. cbv beta.
  apply hoare_when.
  - intros [Hc _]%andb_prop. apply bool_decide_eq_true in Hc as [n ->].
    eapply hoare_conseq; [|
      instantiate (1 := Ph i); intros s [Hs [H|[Hn _]]]; [done|congruence] |
      intros ? s H; exact H].
    hframes. by apply (hoare_record i).
  - intros _ s [_ [H|[_ H]]]; [|done]. eapply phase_mono; [|exact H]. lia.
Qed.

Lemma hoare_ssh_sd_card_test :
  hoare (Ph 11) (ssh_sd_card_test env) (λ _, Ph 12) (Ph 13).
Proof.
  unfold ssh_sd_card_test, sleep. hguard. hframes. cbv zeta.
  by apply (hoare_retried_check 11 "T13" "lsblk" _
              (λ output _, PyStr.str_in "sda1" output)
              (λ output _, "lsblk output: " +:+ PyStr.take 100 output +:+ "...")).
Qed.

Lemma hoare_ssh_camera_test :
  hoare (Ph 12) (ssh_camera_test env) (λ _, Ph 13) (Ph 13).
Proof.
  unfold ssh_camera_test. hguard. hframes. cbv zeta.
  by apply (hoare_retried_check 12 "T14" "libcamera-hello" _
              (λ _ error,
                 negb (PyStr.str_in "ERROR: *** no cameras available ***" error))
              (λ _ error,
                 if bool_decide (error = "") then "Camera OK"
                 else PyStr.take 100 error)).
Qed.

Ltac hfail i :=
  eapply hoare_bind; [apply hoare_guard|];
  let selected := fresh "selected" in
  let Hsel := fresh "Hsel" in
  intros selected; apply hoare_pure; intros Hsel;
  eapply (hoare_bind _ _ (λ _, Ph (S i)));
  [ apply hoare_when;
    [intros ->; by apply (hoare_record i); auto | intros _; mono]
  | intros ?; cbv beta ].

Lemma hoare_fail_ssh_tests :
  hoare (Ph 7) (fail_ssh_tests env SSH_TEST_IDS) (λ _, Ph 13) (Ph 13).
Proof.
  unfold SSH_TEST_IDS. cbn [fail_ssh_tests].
  hfail 7%nat.
  hfail 8%nat.
  hfail 9%nat.
  hfail 10%nat.
  hfail 11%nat.
  hfail 12%nat.
  by apply hoare_ret.
Qed.

Lemma hoare_perform_ssh_tests :
  hoare (Ph 7) (perform_ssh_tests env) (λ _, Ph 13) (Ph 13).
Proof.
  unfold perform_ssh_tests.
  eapply hoare_bind; [hframe|]. intros [c|]; cbv beta.
  - apply hoare_try.
    + eapply hoare_bind; [apply hoare_ssh_usb_tests|]. intros ?. cbv beta.
      eapply hoare_bind; [apply hoare_ssh_rgb_led_test|]. intros ?. cbv beta.
      eapply hoare_bind; [apply hoare_ssh_sd_card_test|]. intros ?. cbv beta.
      eapply hoare_bind; [apply hoare_ssh_camera_test|]. intros ?. cbv beta.
      hframes. by apply hoare_ret.
    + intros e. hframes. by apply hoare_ret.
  - hframes. eapply hoare_bind; [apply hoare_fail_ssh_tests|]. intros ?.
    by apply hoare_ret.
Qed.

Lemma hoare_ssh_step :
  hoare (Ph 7) (ssh_step env) (λ _, Ph 13) (Ph 13).
Proof.
  unfold ssh_step. hframes. apply hoare_when; [intros _|intros _; mono].
  eapply hoare_bind; [apply hoare_perform_ssh_tests|]. intros ok. cbv beta.
  apply hoare_when; [intros _|by intros _].
  hframe.
Qed.

Lemma hoare_session_steps :
  hoare (Ph 0) (session_steps env) (λ _, Ph 13) (Ph 13).
Proof.
  unfold session_steps.
  eapply hoare_bind; [apply hoare_firmware_step|]. intros ?. cbv beta.
  eapply hoare_bind; [apply hoare_visual_steps|]. intros ?. cbv beta.
  eapply hoare_bind; [apply hoare_ui_steps|]. intros ?. cbv beta.
  eapply hoare_bind; [apply hoare_ssh_step|]. intros ?. cbv beta.
  eapply hoare_bind; [hframe|]. intros ?. cbv beta.
  eapply hoare_bind.
  { apply hoare_frame; [|done]. apply preserves_shutdown_step; apply _. }
  intros ?. cbv beta. hframes. hframe.
Qed.

Lemma hoare_session_on_error (e : string) :
  hoare (Ph 13) (session_on_error e) (λ _, Ph 13) (Ph 13).
Proof. unfold session_on_error. hframe. Qed.

(** The ledger a session leaves, however it ends. *)
Lemma session_ledger_at (stamp : Q) (dev : Z) (ver man : option string)
    (s : State) :
  ledger_at sel 13
    (test_result
       (try_except (session_steps env) session_on_error
          (with_test_result (TestResult_init stamp dev sel ver man) s)).2).
Proof.
  pose proof (hoare_try _ _ _ _ _ hoare_session_steps hoare_session_on_error
                (with_test_result (TestResult_init stamp dev sel ver man) s)
                (init_ledger_at stamp dev sel ver man)) as H.
  destruct (try_except _ _ _) as [[[]|e| |] s']; exact H.
Qed.

End LedgerSession.

(** Within one session the tests are recorded in the order of the catalog
    and each of them at most once, however the session ends (normally, by a
    restart, or through the error handler): the ids of the log lines form a
    subsequence of the catalog keys, without repetition. *)
Theorem tests_recorded_in_catalog_order (env : Env) (sel : gset string)
    (stamp : Q) (dev : Z) (ver man : option string) (s : State) :
  let s0 := with_test_result (TestResult_init stamp dev sel ver man) s in
  let r := test_result (try_except (session_steps env) session_on_error s0).2 in
  logged_ids r `sublist_of` TEST_ID_KEYS ∧ NoDup (logged_ids r).
Proof.
  intros s0 r.
  destruct (session_ledger_at env sel stamp dev ver man s) as (_ & Hsub & _).
  fold s0 in Hsub. fold r in Hsub.
  assert (logged_ids r `sublist_of` TEST_ID_KEYS) as H.
  { etrans; [exact Hsub|]. apply sublist_take. }
  split; [exact H|]. eapply sublist_NoDup; [apply catalog_keys_NoDup|exact H].
Qed.

(** When a session is over, however it ended, the status map and the
    duration map of its ledger hold exactly the catalog ids, and for every
    catalog test ledger and log agree: a test outside the selection is
    SKIPPED with duration 0 and no log line; a selected test is either unset,
    with no duration and no log line, or Pass/Fail, and then a log line
    carries its id, its catalog name, the same status and the duration that
    the ledger stores. *)
Theorem ledger_and_log_agree (env : Env) (sel : gset string)
    (stamp : Q) (dev : Z) (ver man : option string) (s : State) :
  let s0 := with_test_result (TestResult_init stamp dev sel ver man) s in
  let r := test_result (try_except (session_steps env) session_on_error s0).2 in
  (∀ tid, is_Some (test_results r !! tid) ↔ tid ∈ TEST_ID_KEYS) ∧
  (∀ tid, is_Some (test_durations r !! tid) ↔ tid ∈ TEST_ID_KEYS) ∧
  Forall (entry_coherent sel r) TEST_ID_KEYS.
Proof.
  intros s0 r.
  destruct (session_ledger_at env sel stamp dev ver man s)
    as (_ & _ & Hk1 & Hk2 & Hcoh).
  fold s0 in Hk1, Hk2, Hcoh. fold r in Hk1, Hk2, Hcoh.
  split; [exact Hk1|]. split; [exact Hk2|].
  apply Forall_forall. exact Hcoh.
Qed.

(** ** The gate of the UI group, in the session *)

Lemma leads_bind {A B} (I J P : State → Prop) (m : M A) (k : A → M B) :
  leads I m J → (∀ s, J s → P s) → (∀ a, leads J (k a) P) →
  leads I (bind m k) P.
Proof.
  intros Hm HJ Hk s Hs. specialize (Hm s Hs). unfold bind.
  destruct (m s) as [[a|e| |] s1]; cbn [snd] in *; auto. by apply Hk.
Qed.

Lemma leads_try {A} (I J P : State → Prop) (m : M A) (h : string → M A) :
  leads I m J → (∀ s, J s → P s) → (∀ e, leads J (h e) P) →
  leads I (try_except m h) P.
Proof.
  intros Hm HJ Hh s Hs. specialize (Hm s Hs). unfold try_except.
  destruct (m s) as [[a|e| |] s1]; cbn [snd] in *; auto. by apply Hh.
Qed.

Lemma followup_mundane (p line : string) :
  p ∈ MUNDANE_PROMPTS → followup (EvInput p line) = false.
Proof.
  intros Hp. cbn [followup].
  destruct (decide (p = T06_PROMPT)) as [->|H6].
  { exfalso. revert Hp. apply (bool_decide_unpack _). vm_compute. exact I. }
  destruct (decide (p = T07_PROMPT)) as [->|H7].
  { exfalso. revert Hp. apply (bool_decide_unpack _). vm_compute. exact I. }
  by rewrite !bool_decide_eq_false_2.
Qed.

Lemma mundane_not_followup (tid : string) :
  tid ∈ MUNDANE_IDS → tid ≠ "T05" ∧ tid ≠ "T06" ∧ tid ≠ "T07".
Proof.
  intros H. repeat split; intros ->; revert H;
    apply (bool_decide_unpack _); vm_compute; exact I.
Qed.

Lemma filter_nil_Forall {A} (P : A → Prop) `{∀ x, Decision (P x)} (l : list A) :
  filter P l = [] → Forall (λ x, ¬ P x) l.
Proof.
  induction l as [|x l IH]; [done|]. rewrite filter_cons.
  destruct (decide (P x)); [done|]. intros Hl. constructor; auto.
Qed.

Ltac gate_side :=
  try done;
  try (intros ? ? ?; by apply followup_mundane);
  try (let H := fresh in
       intros ? H; by apply mundane_not_followup in H as (? & ? & ?)).

Section Gate.

Variable env : Env.

(** Everything but the two follow-up blocks stays away from T06 and T07;
    what comes after the UI group stays away from T05 as well. *)
Lemma firmware_footprint :
  footprint (λ e, followup e = false) (λ tid, tid ≠ "T06" ∧ tid ≠ "T07") false
    (firmware_step env).
Proof.
  apply footprint_firmware_step; gate_side.
Qed.

Lemma visual_footprint :
  footprint (λ e, followup e = false) (λ tid, tid ≠ "T06" ∧ tid ≠ "T07") false
    (visual_steps env).
Proof.
  apply footprint_visual_steps; gate_side.
Qed.

Lemma T05_check_footprint :
  footprint (λ e, followup e = false) (λ tid, tid ≠ "T06" ∧ tid ≠ "T07") false
    (operator_check env "T05" UI_PROMPT).
Proof.
  apply footprint_operator_check; gate_side.
Qed.

Lemma followup_blocks_footprint :
  footprint (λ _, True) (λ tid, tid ≠ "T05") false
    ((let* selected := in_tests_to_run "T06" in
      when selected
        (operator_check env "T06" "Press a button. Does the button show on dmesg?" ;;
         ret tt)) ;;
     (let* selected := in_tests_to_run "T07" in
      when selected
        (operator_check env "T07" "Was your voice successfully transcribed?" ;;
         ret tt))).
Proof.
  assert (∀ tid : string, tid ∈ MUNDANE_IDS → tid ≠ "T05") as Hm.
  { intros tid Hid. by apply mundane_not_followup in Hid as (? & _). }
  apply footprint_bind; [|intros _]; apply footprint_guarded_check; done.
Qed.

Lemma session_rest_footprint :
  footprint (λ e, followup e = false)
    (λ tid, tid ≠ "T05" ∧ tid ≠ "T06" ∧ tid ≠ "T07") false
    (ssh_step env ;;
     save_to_excel ;;
     shutdown_step env ;;
     let* line := input "Do you want to test another device? (y/n): " in
     let another := PyStr.lower (PyStr.strip line) in
     when (negb (PyStr.is_yes another)) loop_break).
Proof.
  apply footprint_session_rest; gate_side.
Qed.

Lemma session_on_error_footprint (e : string) :
  footprint (λ e, followup e = false)
    (λ tid, tid ≠ "T05" ∧ tid ≠ "T06" ∧ tid ≠ "T07") false
    (session_on_error e).
Proof.
  apply footprint_session_on_error; gate_side.
Qed.

(** The gate stays as it is when T05 is left alone. *)
Lemma within_gate_open (ev : event → Prop) (ids : string → Prop) (s s' : State) :
  ¬ ids "T05" → within ev ids false s s' →
  (gate_open (test_result s) ↔ gate_open (test_result s')).
Proof.
  intros Hn (_ & Hsel & Hent & _). destruct (Hent "T05" Hn) as (Hres & _).
  unfold gate_open. by rewrite Hsel, Hres.
Qed.

Variable s0 : State.

Lemma rest_keeps_gated {A} (m : M A) :
  footprint (λ e, followup e = false)
    (λ tid, tid ≠ "T05" ∧ tid ≠ "T06" ∧ tid ≠ "T07") false m →
  leads (gated s0) m (gated s0).
Proof.
  intros Hm s [HK|Hopen].
  - left. eapply within_trans; [exact HK|].
    eapply within_mono; [| |apply (Hm s)]; [done|]. by intros tid (_ & ? & ?).
  - right.
    apply (within_gate_open _ (λ tid, tid ≠ "T05" ∧ tid ≠ "T06" ∧ tid ≠ "T07")
             s (m s).2 ltac:(cbv beta; by intros (? & _)) (Hm s)).
    done.
Qed.

Lemma blocks_keep_open {A} (m : M A) :
  footprint (λ _, True) (λ tid, tid ≠ "T05") false m →
  leads (λ s, gate_open (test_result s)) m (gated s0).
Proof.
  intros Hm s Hopen. right.
  apply (within_gate_open _ (λ tid, tid ≠ "T05") s (m s).2
           ltac:(cbv beta; by intros ?) (Hm s)).
  done.
Qed.

Lemma ui_steps_gated : leads (followups_not_run s0) (ui_steps env) (gated s0).
Proof.
  intros s HK. unfold ui_steps. unfold in_tests_to_run at 1. rewrite gets_bind.
  destruct (bool_decide ("T05" ∈ tests_to_run (test_result s))) eqn:Hsel.
  - unfold bind at 1. unfold bind at 1. fold UI_PROMPT.
    pose proof (T05_check_footprint s) as Hfoot.
    destruct (operator_check env "T05" UI_PROMPT s) as [[r|e| |] s5] eqn:Hop;
      cbn [snd] in *;
      try (left; eapply within_trans; [exact HK|exact Hfoot]).
    apply operator_check_ret in Hop as (b & -> & Hres & Hsel5).
    destruct b; cbn [truthy orb when].
    + apply blocks_keep_open; [apply followup_blocks_footprint|].
      right. rewrite Hres. by simplify_map_eq.
    + cbn. left. eapply within_trans; [exact HK|exact Hfoot].
  - apply bool_decide_eq_false in Hsel. cbn [negb orb when].
    apply blocks_keep_open; [apply followup_blocks_footprint|]. by left.
Qed.

Lemma session_body_gated :
  leads (followups_not_run s0) (try_except (session_steps env) session_on_error)
    (gated s0).
Proof.
  assert (∀ s, followups_not_run s0 s → (gated s0) s) as Hweak by (intros s H; by left).
  apply (leads_try _ (gated s0)); [|done|intros e; apply rest_keeps_gated,
                                     session_on_error_footprint].
  unfold session_steps.
  assert (∀ A (m : M A),
            footprint (λ e, followup e = false)
              (λ tid, tid ≠ "T06" ∧ tid ≠ "T07") false m →
            leads (followups_not_run s0) m (followups_not_run s0)) as Hframe.
  { intros A m Hm s HK. eapply within_trans; [exact HK|apply Hm]. }
  apply (leads_bind _ (followups_not_run s0));
    [apply Hframe, firmware_footprint|done|intros _].
  apply (leads_bind _ (followups_not_run s0));
    [apply Hframe, visual_footprint|done|intros _].
  apply (leads_bind _ (gated s0)); [apply ui_steps_gated|done|intros _].
  apply rest_keeps_gated, session_rest_footprint.
Qed.

End Gate.

Lemma session_rest_try_footprint (env : Env) :
  footprint (λ e, followup e = false)
    (λ tid, tid ≠ "T05" ∧ tid ≠ "T06" ∧ tid ≠ "T07") false
    (try_except
       (ssh_step env ;;
        save_to_excel ;;
        shutdown_step env ;;
        let* line := input "Do you want to test another device? (y/n): " in
        let another := PyStr.lower (PyStr.strip line) in
        when (negb (PyStr.is_yes another)) loop_break)
       session_on_error).
Proof.
  apply footprint_try; [apply session_rest_footprint|intros e].
  apply session_on_error_footprint.
Qed.

(** C7 (amended): in every session, T06 and T07 are run only if T05 passed
    or was not selected at all.  When T05 was selected and did not pass,
    neither of their questions is asked in the whole session, their entries
    stay as the ledger was built (Unset when selected, Skipped otherwise)
    and no log line is written for them.  When T05 passed or was not
    selected, every selected one of T06 and T07 carries a boolean verdict
    in a session that gets through the UI group (a restart, a firmware
    failure or the end of the input can cut it short before).  Finalize
    computes the overall-pass AND over the entries that are not Unset: after
    [save_to_excel], [overall_pass] is true iff some entry is not Unset and
    every entry that is not Unset is truthy. *)
Theorem ui_followups_gated_by_T05 (env : Env) (sel : gset string) (stamp : Q)
    (dev : Z) (ver man : option string) (s : State) :
  let s0 := with_test_result (TestResult_init stamp dev sel ver man) s in
  let run := try_except (session_steps env) session_on_error s0 in
  let r' := test_result run.2 in
  let asked := drop (length (trace s)) (trace run.2) in
  tests_to_run r' = sel ∧
  ((∃ e, e ∈ asked ∧ followup e = true) → gate_open r') ∧
  (¬ gate_open r' →
   Forall (λ e, followup e = false) asked ∧
   ∀ tid, tid = "T06" ∨ tid = "T07" →
     test_results r' !! tid
       = Some (if bool_decide (tid ∈ sel) then PyNone else PySKIPPED) ∧
     Forall (λ entry, log_test_id entry ≠ tid) (log_file r')) ∧
  (gate_open r' →
   ∀ s3, steps_through_ui env s0 = (Ret tt, s3) →
   ∀ tid, tid = "T06" ∨ tid = "T07" → tid ∈ sel →
     ∃ b, test_results r' !! tid = Some (PyBool b)) ∧
  (∀ s1,
     let r := test_result s1 in
     overall_pass (test_result (save_to_excel s1).2) = true ↔
     (∃ tid v, test_results r !! tid = Some v ∧ v ≠ PyNone) ∧
     (∀ tid v, test_results r !! tid = Some v → v ≠ PyNone →
               truthy v = true)).
Proof.
  intros s0 run r' asked.
  pose proof (session_body_gated env s0 s0 (within_refl _ _ _ s0)) as Hgated.
  fold run in Hgated.
  assert (tests_to_run r' = sel) as Hsel.
  { pose proof (footprint_try (λ _, True) (λ _, True) false
                  (session_steps env) session_on_error) as Hfoot.
    assert (footprint (λ _, True) (λ _, True) false (session_steps env)) as Hsteps.
    { unfold session_steps.
      apply footprint_bind; [by apply footprint_firmware_step|intros _].
      apply footprint_bind; [by apply footprint_visual_steps|intros _].
      apply footprint_bind; [|intros _; by apply footprint_session_rest].
      unfold ui_steps.
      apply footprint_bind; [apply footprint_gets|intros t05].
      apply footprint_bind.
      { destruct t05; [|apply footprint_ret].
        apply footprint_bind; [by apply footprint_operator_check|intros ?].
        apply footprint_ret. }
      intros ui. apply footprint_when.
      apply footprint_bind; [|intros _]; by apply footprint_guarded_check. }
    assert (∀ e, footprint (λ _, True) (λ _, True) false (session_on_error e))
      as Hh by (intros e; by apply footprint_session_on_error).
    destruct (Hfoot Hsteps Hh s0) as (_ & Hs & _). exact Hs. }
  assert (¬ gate_open r' →
          Forall (λ e, followup e = false) asked ∧
          ∀ tid, tid = "T06" ∨ tid = "T07" →
            test_results r' !! tid
              = Some (if bool_decide (tid ∈ sel) then PyNone else PySKIPPED) ∧
            Forall (λ entry, log_test_id entry ≠ tid) (log_file r')) as Hclosed.
  { intros Hn. destruct Hgated as [HK|Hopen]; [|done].
    destruct HK as ((t & Ht & Hev) & _ & Hent & _). split.
    { subst asked. rewrite Ht. subst s0. cbn [trace with_test_result].
      by rewrite drop_app_length. }
    intros tid Htid.
    destruct (Hent tid) as (Hres & _ & Hlog).
    { intros [H6 H7]. by destruct Htid. }
    fold r' in Hres, Hlog. split.
    - rewrite Hres. subst s0. cbn [test_result with_test_result TestResult_init
                                   test_results].
      destruct (init_tests_lookup_full TEST_ID_KEYS sel (∅, ∅) tid) as [H1 _].
      rewrite H1. rewrite decide_True; [done|].
      destruct Htid as [-> | ->]; apply (bool_decide_unpack _); vm_compute;
        exact I.
    - subst s0. cbn [test_result with_test_result TestResult_init log_file] in Hlog.
      rewrite filter_nil in Hlog.
      apply filter_nil_Forall in Hlog. exact Hlog. }
  split; [exact Hsel|]. split.
  { intros (e & He & Hfollow).
    destruct (decide ("T05" ∈ tests_to_run r')) as [Hin|Hnin]; [|by left].
    destruct (decide (test_results r' !! "T05" = Some (PyBool true)))
      as [Hp|Hnp]; [by right|].
    destruct Hclosed as [Hall _].
    { intros [H|H]; done. }
    rewrite Forall_forall in Hall. specialize (Hall e He). congruence. }
  split; [exact Hclosed|]. split.
  2: { intros s1. rewrite save_to_excel_eq. cbn.
       apply compute_overall_pass_true. }
  intros Hopen s3 Hthrough tid Htid Htsel.
  unfold steps_through_ui in Hthrough.
  apply bind_ret_inv in Hthrough as ([] & s1 & Hf & Hthrough).
  apply bind_ret_inv in Hthrough as ([] & s2 & Hv & Hu).
  assert (run = try_except
                  (ssh_step env ;;
                   save_to_excel ;;
                   shutdown_step env ;;
                   let* line := input "Do you want to test another device? (y/n): " in
                   let another := PyStr.lower (PyStr.strip line) in
                   when (negb (PyStr.is_yes another)) loop_break)
                  session_on_error s3) as Hrun.
  { subst run. unfold try_except, session_steps.
    by rewrite (bind_eq _ _ _ _ _ Hf), (bind_eq _ _ _ _ _ Hv),
      (bind_eq _ _ _ _ _ Hu). }
  pose proof (session_rest_try_footprint env s3) as Hrest.
  rewrite <- Hrun in Hrest. fold r' in Hrest.
  assert (tests_to_run (test_result s2) = sel) as Hsel2.
  { destruct (firmware_footprint env s0) as (_ & H1 & _).
    destruct (visual_footprint env s1) as (_ & H2 & _).
    rewrite Hf in H1. rewrite Hv in H2. cbn [snd] in *.
    rewrite H2, H1. subst s0. done. }
  destruct (ui_steps_ret env s2 s3 Hu) as (Hsel3 & Hrec & _).
  assert (gate_open (test_result s3)) as Hopen3.
  { apply (within_gate_open _ (λ tid, tid ≠ "T05" ∧ tid ≠ "T06" ∧ tid ≠ "T07")
             s3 run.2 ltac:(cbv beta; by intros (? & _)) Hrest).
    exact Hopen. }
  destruct (Hrec Hopen3 tid Htid ltac:(by rewrite Hsel2)) as [b Hb].
  exists b. destruct Hrest as (_ & _ & Hent & _).
  destruct (Hent tid) as (Hres & _).
  { intros (_ & H6 & H7). by destruct Htid. }
  fold r' in Hres. by rewrite Hres.
Qed.

(** C7 (as stated, refuted): T05, T06 and T07 are selected; T05 passes, the
    operator answers No at T06 and declines to continue.  The session
    restarts and T07 is never run, although T05 passed: its question is not
    asked and its entry stays Unset. *)
Lemma followup_cut_by_restart :
  let r := session (lab_env {["T05"; "T06"; "T07"]})
             (boot ["7"; ""; "y"; "n"; "n"]) in
  r.1 = Continue ∧
  test_results (test_result r.2) !! "T05" = Some (PyBool true) ∧
  test_results (test_result r.2) !! "T07" = Some PyNone ∧
  filter (λ e, followup e = true) (trace r.2) = [EvInput T06_PROMPT "n"].
Proof. vm_compute. repeat split. Qed.

(** ** The ledger object *)

(** [TestResult.__init__] gives every catalog id exactly one status and one
    duration: unset ([None], [None]) when the id is in [tests_to_run],
    ['SKIPPED'] with duration 0 otherwise.  Ids of [tests_to_run] that are
    not in the catalog leave no entry; the log is empty, the notes are empty
    and [overall_pass] is false. *)
Theorem TestResult_init_entries (stamp : Q) (dev : Z) (sel : gset string)
    (ver man : option string) (tid : string) :
  let r := TestResult_init stamp dev sel ver man in
  test_results r !! tid =
    (if decide (tid ∈ TEST_ID_KEYS)
     then Some (if bool_decide (tid ∈ sel) then PyNone else PySKIPPED)
     else None) ∧
  test_durations r !! tid =
    (if decide (tid ∈ TEST_ID_KEYS)
     then Some (if bool_decide (tid ∈ sel) then None else Some 0)
     else None) ∧
  log_file r = [] ∧ notes r = "" ∧ overall_pass r = false ∧
  tests_to_run r = sel.
Proof.
  intros r. subst r. cbn [TestResult_init test_results test_durations log_file
    notes overall_pass tests_to_run].
  destruct (init_tests_lookup_full TEST_ID_KEYS sel (∅, ∅) tid) as [-> ->].
  destruct (decide (tid ∈ TEST_ID_KEYS)); cbn; by rewrite ?lookup_empty.
Qed.

(** [set_test_result] with an id that is not in the catalog raises (the
    [KeyError] of [TEST_IDS[test_id]]) only after it has stored the result
    and the duration: the status map keeps the unknown id, and no log line
    is written. *)
Theorem set_test_result_unknown_id (env : Env) (test_id : string)
    (result : py_result) (details : string) (duration : Z) (s : State) :
  TEST_IDS !! test_id = None →
  ∃ e s',
    set_test_result env test_id result details (Some duration) s = (Raise e, s') ∧
    test_results (test_result s') !! test_id = Some result ∧
    test_durations (test_result s') !! test_id = Some (Some duration) ∧
    log_file (test_result s') = log_file (test_result s).
Proof.
  intros Hnone. unfold set_test_result. rewrite Hnone.
  do 2 eexists. split; [reflexivity|]. cbn.
  by rewrite !lookup_insert_eq.
Qed.

Lemma set_test_result_unknown_id_witness :
  ∃ e s',
    set_test_result (lab_env ∅) "T08" (PyBool true) "" (Some 3) (boot [])
      = (Raise e, s') ∧
    test_results (test_result s') !! "T08" = Some (PyBool true) ∧
    test_durations (test_result s') !! "T08" = Some (Some 3) ∧
    log_file (test_result s') = log_file (test_result (boot [])).
Proof.
  apply (set_test_result_unknown_id (lab_env ∅) "T08" (PyBool true) "" 3 (boot [])).
  vm_compute. reflexivity.
Defined.

(** ** Firmware upload *)

(** [upload_firmware_wipe] never raises.  It returns a boolean, and that
    boolean is the status it has recorded for T01: the status map changes at
    T01 only, exactly one log line is appended, for T01 and with the matching
    PASS or FAIL; the notes, the operator's input, the interaction trace and
    the workbook are left alone. *)
Theorem upload_firmware_wipe_records_T01 (env : Env) (s : State) :
  ∃ b s',
    upload_firmware_wipe env s = (Ret b, s') ∧
    test_results (test_result s') =
      <["T01" := PyBool b]> (test_results (test_result s)) ∧
    (∃ entry, log_file (test_result s') = log_file (test_result s) ++ [entry] ∧
              log_test_id entry = "T01" ∧
              log_status entry = (if b then "PASS" else "FAIL")) ∧
    notes (test_result s') = notes (test_result s) ∧
    stdin s' = stdin s ∧ trace s' = trace s ∧ excel s' = excel s.
Proof.
  destruct (upload_firmware_wipe_post env s) as (b & s' & Hrun & Hrec).
  pose proof (preserves_upload_firmware_wipe env (same_io s) s) as Hio.
  rewrite Hrun in Hio. destruct Hio as (H1 & H2 & H3 & _); [done|].
  destruct (T01_recorded_fields _ _ _ Hrec) as (Hres & _ & Hlog).
  destruct Hrec as (t & d & details & Hr).
  exists b, s'. split; [done|]. split; [done|]. split; [done|].
  split; [by rewrite Hr|]. done.
Qed.

(** The upload loop skips a source file that does not exist, without
    failing: when none of the files exists the loop runs to its end, whatever
    [ampy] would answer, and leaves the ledger untouched. *)
Theorem missing_files_are_skipped (env : Env) (port : string) (start : Q)
    (files : list string) (s : State) :
  (∀ n f, f ∈ files → bhv_exists env n f = false) →
  (upload_files env port start files s).1 = Ret true ∧
  test_result (upload_files env port start files s).2 = test_result s.
Proof.
  revert s. induction files as [|f files IH]; intros s Hmissing.
  - done.
  - cbn [upload_files]. rewrite gets_bind, tick_bind.
    rewrite Hmissing by (apply elem_of_cons; by left). cbn [negb].
    destruct (IH (with_now (S (now s)) s)) as [H1 H2].
    { intros n g Hg. apply Hmissing, elem_of_cons. by right. }
    by rewrite H1, H2.
Qed.

Lemma missing_files_are_skipped_witness :
  (upload_files (without_sources (lab_env ∅)) "/dev/cu.usbmodem1" 0
     PYTHON_FILES (boot [])).1 = Ret true ∧
  test_result
    (upload_files (without_sources (lab_env ∅)) "/dev/cu.usbmodem1" 0
       PYTHON_FILES (boot [])).2 = test_result (boot []).
Proof.
  apply (missing_files_are_skipped (without_sources (lab_env ∅))
           "/dev/cu.usbmodem1" 0 PYTHON_FILES (boot [])).
  reflexivity.
Defined.

(** ** The report row *)

Lemma failed_tests_over (r : TestResult) (items : list (string * string)) :
  omap (fun '(tid, name) =>
          match test_results r !! tid with
          | Some (PyBool false) => Some (tid +:+ "(" +:+ name +:+ ")")
          | _ => None
          end) items = [] ↔
  ∀ tid, tid ∈ items.*1 → test_results r !! tid ≠ Some (PyBool false).
Proof.
  induction items as [|[k name] items IH]; cbn.
  - split; [|done]. intros _ tid Hin. by apply elem_of_nil in Hin.
  - destruct (test_results r !! k) as [[|[]|]|] eqn:Hk; cbn.
    all: try (rewrite IH; split;
      [ intros H tid [->|Hin]%elem_of_cons; [by rewrite Hk|by apply H]
      | intros H tid Hin; apply H, elem_of_cons; by right ]).
    split; [done|]. intros H. exfalso. apply (H k); [apply elem_of_cons; by left|done].
Qed.

Lemma failed_tests_start (r : TestResult) (items : list (string * string)) :
  Forall (λ item, ∃ t, item.1 = String "T" t) items →
  Forall (λ x, ∃ t, x = String "T" t)
    (omap (fun '(tid, name) =>
             match test_results r !! tid with
             | Some (PyBool false) => Some (tid +:+ "(" +:+ name +:+ ")")
             | _ => None
             end) items).
Proof.
  induction 1 as [|[k name] items [t Ht] _ IH]; cbn; [constructor|].
  destruct (test_results r !! k) as [[|[]|]|]; cbn; try done.
  constructor; [|done]. cbn in Ht. subst k. by eexists.
Qed.

Lemma join_start (sep : string) (l : list string) :
  l ≠ [] → Forall (λ x, ∃ t, x = String "T" t) l → join sep l ≠ "None".
Proof.
  intros Hne Hall. destruct Hall as [|x l [t ->] _]; [done|].
  cbn [join]. by destruct l.
Qed.

Lemma catalog_ids_start :
  Forall (λ item : string * string, ∃ t, item.1 = String "T" t) TEST_ID_ITEMS.
Proof. unfold TEST_ID_ITEMS. repeat constructor; by eexists. Qed.

(** The row that [save_to_excel] builds, for a ledger whose keys are
    catalog ids: it repeats the [overall_pass] computed from the statuses,
    and its summary columns agree with its test cells.  "Failed Tests" reads
    None exactly when no test has the status Fail, that is when no test cell
    reads FAIL, and an overall pass implies both. *)
Theorem report_row_columns (r : TestResult) :
  dom (test_results r) ⊆ list_to_set (C := gset string) TEST_ID_KEYS →
  let row := make_row (assign_overall_pass (compute_overall_pass r) r) in
  row_overall_pass row = compute_overall_pass r ∧
  (row_failed_tests row = "None" ↔
   ∀ tid, test_results r !! tid ≠ Some (PyBool false)) ∧
  (row_failed_tests row = "None" ↔ ∀ tid, (tid, "FAIL") ∉ row_tests row) ∧
  (row_overall_pass row = true → row_failed_tests row = "None").
Proof.
  intros Hdom.
  assert (∀ tid, is_Some (test_results r !! tid) → tid ∈ TEST_ID_KEYS) as Hkeys.
  { intros tid Htid%elem_of_dom. by apply Hdom, elem_of_list_to_set in Htid. }
  cbv zeta. split; [done|].
  assert (row_failed_tests
            (make_row (assign_overall_pass (compute_overall_pass r) r)) = "None"
          ↔ ∀ tid, test_results r !! tid ≠ Some (PyBool false)) as Hnone.
  { cbn [make_row row_failed_tests]. unfold failed_tests.
    cbn [assign_overall_pass test_results].
    pose proof (failed_tests_over r TEST_ID_ITEMS) as Hnil.
    pose proof (failed_tests_start r TEST_ID_ITEMS catalog_ids_start) as Hstart.
    destruct (omap _ TEST_ID_ITEMS) as [|x l] eqn:Hl.
    - split; [|done]. intros _ tid Htid.
      apply (proj1 Hnil eq_refl tid); [|done]. apply Hkeys. by rewrite Htid.
    - split.
      + intros Hj. by apply join_start in Hj.
      + intros Hall. exfalso. assert (x :: l = []) as Hcontra; [|done].
        apply Hnil. intros tid _. apply Hall. }
  split; [exact Hnone|]. split.
  - rewrite Hnone. cbn [make_row row_tests assign_overall_pass test_results].
    split.
    + intros Hall tid [k [[= -> Hcell] _]]%list_elem_of_fmap.
      specialize (Hall k). destruct (test_results r !! k) as [[|[]|]|]; done.
    + intros Hall tid Htid. apply (Hall tid).
      apply list_elem_of_fmap. exists tid. rewrite Htid. split; [done|].
      apply Hkeys. by rewrite Htid.
  - cbn [make_row row_overall_pass assign_overall_pass overall_pass].
    intros Hpass. apply Hnone. intros tid Htid.
    by rewrite (overall_pass_false_of_fail r tid Htid) in Hpass.
Qed.

Lemma report_row_columns_witness :
  let r := TestResult_init 0 7 {["T02"; "T13"]} None None in
  let row := make_row (assign_overall_pass (compute_overall_pass r) r) in
  row_overall_pass row = compute_overall_pass r ∧
  (row_failed_tests row = "None" ↔
   ∀ tid, test_results r !! tid ≠ Some (PyBool false)) ∧
  (row_failed_tests row = "None" ↔ ∀ tid, (tid, "FAIL") ∉ row_tests row) ∧
  (row_overall_pass row = true → row_failed_tests row = "None").
Proof.
  apply (report_row_columns (TestResult_init 0 7 {["T02"; "T13"]} None None)).
  apply (bool_decide_unpack _). vm_compute. exact I.
Defined.

(** ** Test selection without the menu *)

Lemma catalog_ids_nonempty (tid : string) : tid ∈ TEST_ID_KEYS → tid ≠ "".
Proof.
  intros Hin ->. revert Hin. apply (bool_decide_unpack _). vm_compute. exact I.
Qed.

(** When the curses menu fails, [select_tests_to_run] falls back to one
    line of text.  The selection it returns holds catalog ids only: exactly
    those that the line does not name, an id being named by any
    comma-separated piece that equals it once stripped and upper-cased.
    Unknown names are ignored, and a blank line selects the whole catalog.
    [EOFError] is raised when there is no line to read. *)
Theorem text_selection_within_catalog (env : Env) (s : State) (e : string) :
  curses_menu env (now s) = Raises e →
  match stdin s with
  | [] => (select_tests_to_run env s).1 = Raise EOF_TEXT
  | line :: rest =>
      ∃ sel s',
        select_tests_to_run env s = (Ret sel, s') ∧ stdin s' = rest ∧
        (∀ tid, tid ∈ sel ↔ tid ∈ TEST_ID_KEYS ∧ tid ∉ skip_tokens line) ∧
        (PyStr.strip line = "" → sel = list_to_set TEST_ID_KEYS)
  end.
Proof.
  intros Hmenu. unfold select_tests_to_run. rewrite gets_bind, Hmenu, tick_bind.
  destruct (stdin s) as [|line rest] eqn:Hs.
  - unfold bind. by rewrite input_nil.
  - unfold bind at 1. rewrite (input_cons _ line rest) by done.
    unfold skip_tokens.
    destruct (decide (PyStr.strip line = "")) as [Hblank|Hblank].
    + rewrite bool_decide_eq_true_2 by done.
      do 2 eexists. split; [reflexivity|]. split; [done|]. split; [|done].
      intros tid. rewrite elem_of_list_to_set, Hblank. cbn.
      split; [|by intros [? _]]. intros Hin. split; [done|].
      intros Heq%list_elem_of_singleton. by apply catalog_ids_nonempty in Hin.
    + rewrite bool_decide_eq_false_2 by done.
      do 2 eexists. split; [reflexivity|]. split; [done|]. split; [|done].
      intros tid. by rewrite elem_of_difference, !elem_of_list_to_set.
Qed.

Lemma text_selection_within_catalog_witness :
  ∃ sel s',
    select_tests_to_run (without_menu (lab_env ∅)) (boot [" t01, T99 ,t14"])
      = (Ret sel, s') ∧ stdin s' = [] ∧
    (∀ tid, tid ∈ sel ↔
            tid ∈ TEST_ID_KEYS ∧ tid ∉ skip_tokens " t01, T99 ,t14") ∧
    (PyStr.strip " t01, T99 ,t14" = "" → sel = list_to_set TEST_ID_KEYS).
Proof.
  apply (text_selection_within_catalog (without_menu (lab_env ∅))
           (boot [" t01, T99 ,t14"]) "setupterm: could not find terminal").
  reflexivity.
Defined.

(** ** The session loop *)

(** An iteration of the loop of [main] that leads to a further iteration
    (it ran to its end with the operator asking for another device, or it
    was left by [continue]) has read at least one line of operator input:
    the loop cannot spin without the operator. *)
Theorem session_reads_operator_input (env : Env) (s : State) :
  (session env s).1 = Ret tt ∨ (session env s).1 = Continue →
  (length (stdin (session env s).2) < length (stdin s))%nat.
Proof.
  intros Ho. destruct (session env s) as [o s'] eqn:Hrun.
  by apply (session_consumes env s s' o).
Qed.

Lemma session_reads_operator_input_witness :
  (length (stdin (session (lab_env ∅) (boot ["7"; "n"; "y"])).2)
   < length (stdin (boot ["7"; "n"; "y"])))%nat.
Proof.
  apply (session_reads_operator_input (lab_env ∅) (boot ["7"; "n"; "y"])).
  left. vm_compute. reflexivity.
Defined.

(** ** The interactive round *)

(** [ssh_execute_interactive] never raises.  Without a client, or when the
    shell round raises, it returns an empty output together with the bare
    text of the exception: unlike [ssh_execute_command] it does not prefix
    the text with "SSH_ERROR: ", the marker its caller looks for before
    reconnecting.  When the round succeeds it returns what was received, with
    an empty error text. *)
Theorem ssh_execute_interactive_outcome (env : Env) (ssh_client : option nat)
    (command : string) (num_enters : nat) (s : State) :
  ∃ s',
    ssh_execute_interactive env ssh_client command num_enters s =
      (Ret match ssh_client, ssh_shell env (now s) command num_enters with
           | None, _ => ("", NONE_HAS_NO "invoke_shell")
           | Some _, Raises e => ("", e)
           | Some _, Returns chunks => (foldr String.app "" chunks, "")
           end, s') ∧
    stdin s' = stdin s ∧ test_result s' = test_result s ∧
    connect_attempts (trace s') = connect_attempts (trace s).
Proof.
  unfold ssh_execute_interactive, try_except.
  destruct ssh_client as [c|]; [|by eexists].
  rewrite gets_bind, tick_bind. unfold bind at 1.
  unfold log_event at 1, modify at 1.
  destruct (ssh_shell env (now s) command num_enters) as [chunks|e];
    cbn [perform bind ret raise];
    eexists; (split; [reflexivity|]); norm_state;
    rewrite connect_attempts_app; cbn; (split; [done|]); (split; [done|]); lia.
Qed.

(** ** The USB tests *)

Global Instance judged_now (ids : list string) : NowStable (judged ids).
Proof. by intros n s H. Qed.
Global Instance judged_stdin (ids : list string) : StdinStable (judged ids).
Proof. by intros n s H. Qed.
Global Instance judged_trace (ids : list string) : TraceStable (judged ids).
Proof. by intros n s H. Qed.
Global Instance judged_ssh (ids : list string) : SshStable (judged ids).
Proof. by intros n s H. Qed.

Global Instance selection_is_now (sel : gset string) : NowStable (selection_is sel).
Proof. by intros n s H. Qed.
Global Instance selection_is_stdin (sel : gset string) :
  StdinStable (selection_is sel).
Proof. by intros n s H. Qed.
Global Instance selection_is_trace (sel : gset string) :
  TraceStable (selection_is sel).
Proof. by intros n s H. Qed.
Global Instance selection_is_ssh (sel : gset string) : SshStable (selection_is sel).
Proof. by intros n s H. Qed.

Section Raises.

Context {A B : Type}.

Lemma raises_bind (P : string → Prop) (m : M A) (k : A → M B) :
  raises_only P m → (∀ a, raises_only P (k a)) → raises_only P (bind m k).
Proof.
  intros Hm Hk s e s' H. unfold bind in H.
  destruct (m s) as [[a|e'| |] s1] eqn:Hms; try done.
  - by eapply Hk.
  - injection H as -> ->. by eapply Hm.
Qed.

Lemma raises_try (P : string → Prop) (m : M A) (h : string → M A) :
  (∀ e, raises_only P (h e)) → raises_only P (try_except m h).
Proof.
  intros Hh s e s' H. unfold try_except in H.
  destruct (m s) as [[a|e'| |] s1]; try done. by eapply Hh.
Qed.

Lemma raises_ret (P : string → Prop) (a : A) : raises_only P (ret a).
Proof. by intros s e s' H. Qed.

Lemma raises_gets (P : string → Prop) (f : State → A) : raises_only P (gets f).
Proof. by intros s e s' H. Qed.

End Raises.

Lemma raises_modify (P : string → Prop) (f : State → State) :
  raises_only P (modify f).
Proof. by intros s e s' H. Qed.

Lemma raises_when (P : string → Prop) (c : bool) (m : M unit) :
  raises_only P m → raises_only P (when c m).
Proof. destruct c; [done|]. intros _. apply raises_ret. Qed.

Lemma raises_input (prompt : string) :
  raises_only (λ e, e = EOF_TEXT) (input prompt).
Proof.
  intros s e s' H. unfold input in H. destruct (stdin s); by inversion H.
Qed.

Lemma raises_set_test_result (env : Env) (P : string → Prop) (tid : string)
    (result : py_result) (details : string) (duration : option Z) :
  is_Some (TEST_IDS !! tid) →
  raises_only P (set_test_result env tid result details duration).
Proof.
  intros [name Hname] s e s' H.
  by rewrite (set_test_result_eq _ _ name) in H.
Qed.

Ltac raises_step :=
  match goal with
  | |- raises_only _ (bind _ _) => apply raises_bind; [|intros ?]
  | |- raises_only _ (try_except _ _) => apply raises_try; intros ?
  | |- raises_only _ (when _ _) => apply raises_when
  | |- raises_only _ (ret _) => apply raises_ret
  | |- raises_only _ (gets _) => apply raises_gets
  | |- raises_only _ (in_tests_to_run _) => apply raises_gets
  | |- raises_only _ (modify _) => apply raises_modify
  | |- raises_only _ tick => apply raises_modify
  | |- raises_only _ (log_event _) => apply raises_modify
  | |- raises_only _ (input _) => apply raises_input
  | |- raises_only _ (set_test_result _ _ _ _ _) =>
      apply raises_set_test_result; eexists; vm_compute; reflexivity
  | |- raises_only _ (if ?c then _ else _) => destruct c
  | |- raises_only _ (match ?x with _ => _ end) => destruct x
  end.

Lemma raises_reconnect_loop (env : Env) (max attempt remaining : nat) :
  raises_only (λ e, e = EOF_TEXT) (reconnect_loop env max attempt remaining).
Proof.
  revert attempt. induction remaining as [|r IH]; intros attempt;
    cbn [reconnect_loop]; unfold wait_for_enter; repeat raises_step.
  apply IH.
Qed.

Lemma raises_run_with_reconnect (env : Env) (command : string)
    (on_failure : M unit) :
  raises_only (λ e, e = EOF_TEXT) on_failure →
  raises_only (λ e, e = EOF_TEXT) (run_with_reconnect env command on_failure).
Proof.
  intros Honf. unfold run_with_reconnect, ssh_execute_command, close_if_open,
    ssh_close, assign_ssh, reconnect_ssh.
  repeat first [apply raises_reconnect_loop | exact Honf | raises_step].
Qed.

Lemma raises_ssh_usb_tests (env : Env) :
  raises_only (λ e, e = EOF_TEXT) (ssh_usb_tests env).
Proof.
  unfold ssh_usb_tests, sleep, elapsed_since, time_time.
  repeat first [apply raises_run_with_reconnect | raises_step].
Qed.

Section Judged.

Variable env : Env.
Variable sel : gset string.

Lemma hoare_judge (ids : list string) (tid : string) (b : bool)
    (details : string) (d : Z) :
  is_Some (TEST_IDS !! tid) →
  hoare (λ s, selection_is sel s ∧ judged ids s)
    (set_test_result env tid (PyBool b) details (Some d))
    (λ _ s, selection_is sel s ∧ judged (tid :: ids) s) (λ _, True).
Proof.
  intros [name Hname] s [Hsel HJ].
  rewrite (set_test_result_eq _ _ name) by done.
  split; [done|]. intros k Hk Hksel.
  cbn [test_result with_now with_test_result append_log store_result
       test_results tests_to_run] in *.
  destruct (decide (k = tid)) as [->|Hne].
  - exists b. by rewrite lookup_insert_eq.
  - rewrite lookup_insert_ne by done. apply HJ; [|done].
    apply elem_of_cons in Hk as [?|?]; done.
Qed.

Lemma judged_frame (ids : list string) {A} (m : M A) :
  preserves (selection_is sel) m → preserves (judged ids) m →
  hoare (λ s, selection_is sel s ∧ judged ids s) m
    (λ _ s, selection_is sel s ∧ judged ids s) (λ _, True).
Proof.
  intros H1 H2 s [Hs HJ]. specialize (H1 s Hs). specialize (H2 s HJ).
  destruct (m s) as [[a|e| |] s1]; done.
Qed.

(** The blocks of T09, T10 and T11: when the test is selected, wait and
    record a boolean. *)
Lemma hoare_judged_block (ids : list string) (tid : string) (b : bool)
    (details : string) (wait : M unit) :
  is_Some (TEST_IDS !! tid) →
  preserves (selection_is sel) wait → preserves (judged ids) wait →
  hoare (λ s, selection_is sel s ∧ judged ids s)
    (let* selected := in_tests_to_run tid in
     when selected
       (let* start_time := time_time env in
        wait ;;
        let* duration := elapsed_since env start_time in
        set_test_result env tid (PyBool b) details (Some duration)))
    (λ _ s, selection_is sel s ∧ judged (tid :: ids) s) (λ _, True).
Proof.
  intros Hname Hw1 Hw2.
  eapply hoare_bind; [apply hoare_gets|]. intros selected. cbv beta.
  apply hoare_when.
  - intros _. eapply hoare_conseq;
      [|intros s [_ H]; exact H|intros ? s H; exact H].
    eapply hoare_bind; [apply judged_frame; keeps'|]. intros ?. cbv beta.
    eapply hoare_bind; [by apply judged_frame|]. intros ?. cbv beta.
    eapply hoare_bind; [apply judged_frame; keeps'|]. intros ?. cbv beta.
    by apply hoare_judge.
  - intros -> s [Hsel [Hs HJ]]. split; [done|].
    intros k [->|Hk]%elem_of_cons Hksel; [|by apply HJ].
    symmetry in Hsel. by apply bool_decide_eq_false in Hsel.
Qed.

Lemma hoare_usb_judged :
  hoare (λ s, selection_is sel s ∧ judged [] s) (ssh_usb_tests env)
    (λ _ s, selection_is sel s ∧ judged ["T11"; "T10"; "T09"] s) (λ _, True).
Proof.
  unfold ssh_usb_tests.
  eapply hoare_bind; [apply judged_frame; keeps'|].
  intros [output error]. cbv beta iota zeta.
  eapply hoare_bind.
  { apply (hoare_judged_block [] "T09"); [by eexists|unfold sleep; keeps'..]. }
  intros ?. cbv beta. eapply hoare_bind.
  { apply (hoare_judged_block ["T09"] "T10" _ _ (ret tt)); [by eexists|keeps'..]. }
  intros ?. cbv beta.
  apply (hoare_judged_block ["T10"; "T09"] "T11" _ _ (ret tt)); [by eexists|keeps'..].
Qed.

End Judged.

(** The USB block judges every selected test among T09, T10 and T11: when
    it returns, each of them has a boolean status, also when [lsusb] could
    not be run at all (the tests are then judged on an empty output, and
    fail).  The block leaves no pending [continue] or [break], and the only
    exception that leaves it is the end of the operator's input, while a
    reconnection is being retried. *)
Theorem usb_tests_are_always_judged (env : Env) (s : State) :
  match ssh_usb_tests env s with
  | (Ret _, s') =>
      tests_to_run (test_result s') = tests_to_run (test_result s) ∧
      ∀ tid, tid ∈ ["T09"; "T10"; "T11"] →
             tid ∈ tests_to_run (test_result s) →
             ∃ b, test_results (test_result s') !! tid = Some (PyBool b)
  | (Raise e, _) => e = EOF_TEXT
  | _ => False
  end.
Proof.
  pose proof (hoare_usb_judged env (tests_to_run (test_result s)) s) as H.
  pose proof (raises_ssh_usb_tests env s) as Hraise.
  pose proof (no_ctl_ssh_usb_tests env s) as [Hc Hb].
  destruct (ssh_usb_tests env s) as [[[]|e| |] s'] eqn:Hrun; try done.
  - destruct H as [Hsel HJ].
    { split; [done|]. intros tid Hin. by apply elem_of_nil in Hin. }
    split; [done|]. intros tid Hin Htid. apply HJ.
    + repeat (apply elem_of_cons in Hin as [->|Hin]);
        [repeat constructor..|by apply elem_of_nil in Hin].
    + by rewrite Hsel.
  - by eapply Hraise.
Qed.

(** ** The SD card and the camera test *)

Lemma run_with_reconnect_clean (env : Env) (command : string)
    (on_failure : M unit) (s : State) (c : nat) (out err : string) :
  ssh s = Some c →
  exec_call (ssh_exec env (now s) command) = Returns tt →
  stdout_text (ssh_exec env (now s) command) = Returns out →
  stderr_text (ssh_exec env (now s) command) = Returns err →
  PyStr.str_in "SSH_ERROR" err = false →
  run_with_reconnect env command on_failure s =
    (Ret (out, err),
     with_trace (trace s ++ [EvExec command]) (with_now (S (now s)) s)).
Proof.
  intros Hssh Hcall Hout Herr Hmark. unfold run_with_reconnect.
  rewrite gets_bind, Hssh.
  assert (ssh_execute_command env (Some c) command false s =
            (Ret (out, err),
             with_trace (trace s ++ [EvExec command]) (with_now (S (now s)) s)))
    as Hexec.
  { unfold ssh_execute_command, try_except. rewrite gets_bind, tick_bind.
    unfold bind at 1. unfold log_event at 1, modify at 1.
    rewrite Hcall, Hout, Herr. reflexivity. }
  rewrite (bind_eq _ _ _ _ _ Hexec). cbv beta iota. by rewrite Hmark.
Qed.

(** The SD card test on a live connection: when [lsblk] runs and its error
    text carries no transport marker, the command is sent once, no
    reconnection takes place, and T13 is recorded as passed exactly when the
    output mentions "sda1". *)
Theorem sd_card_verdict (env : Env) (s : State) (c : nat) (b : exec_behaviour)
    (out err : string) :
  "T13" ∈ tests_to_run (test_result s) → ssh s = Some c →
  (∀ n, ssh_exec env n "lsblk" = b) →
  exec_call b = Returns tt → stdout_text b = Returns out →
  stderr_text b = Returns err → PyStr.str_in "SSH_ERROR" err = false →
  ∃ s',
    ssh_sd_card_test env s = (Ret tt, s') ∧
    test_results (test_result s') !! "T13"
      = Some (PyBool (PyStr.str_in "sda1" out)) ∧
    trace s' = trace s ++ [EvExec "lsblk"].
Proof.
  intros Hsel Hssh Hb Hcall Hout Herr Hmark.
  unfold ssh_sd_card_test, in_tests_to_run, sleep, time_time.
  rewrite gets_bind, bool_decide_eq_true_2 by done. cbn [when].
  rewrite read_tick_bind, tick_bind. norm_state.
  match goal with |- context [bind (run_with_reconnect env "lsblk" ?onf) _ ?s0] =>
    pose proof (run_with_reconnect_clean env "lsblk" onf s0 c out err) as Hrun
  end.
  norm_state_in Hrun. rewrite Hb in Hrun.
  specialize (Hrun Hssh Hcall Hout Herr Hmark).
  rewrite (bind_eq _ _ _ _ _ Hrun). cbv beta iota.
  rewrite gets_bind. norm_state. rewrite Hssh, Hmark.
  cbn [bool_decide decide_rel is_Some_dec andb negb when].
  rewrite (bind_eq _ _ _ _ _ (elapsed_since_eq _ _ _)).
  rewrite (set_test_result_eq _ _ "SD Card Detection") by done.
  eexists. split; [reflexivity|]. norm_state.
  cbn [append_log store_result test_results]. by rewrite lookup_insert_eq.
Qed.

Lemma sd_card_verdict_witness :
  ∃ s',
    ssh_sd_card_test (lab_env {["T13"]})
      (with_ssh (Some 0%nat)
         (with_test_result (TestResult_init 0 7 {["T13"]} None None) (boot [])))
      = (Ret tt, s') ∧
    test_results (test_result s') !! "T13"
      = Some (PyBool (PyStr.str_in "sda1" "")) ∧
    trace s' = [] ++ [EvExec "lsblk"].
Proof.
  apply (sd_card_verdict (lab_env {["T13"]})
           (with_ssh (Some 0%nat)
              (with_test_result (TestResult_init 0 7 {["T13"]} None None)
                 (boot [])))
           0%nat quiet_exec "" "").
  - apply (bool_decide_unpack _). vm_compute. exact I.
  - reflexivity.
  - reflexivity.
  - reflexivity.
  - reflexivity.
  - reflexivity.
  - reflexivity.
Defined.

(** The camera test on a live connection: when [libcamera-hello] runs and
    its error text carries no transport marker, the command is sent once and
    T14 is recorded as passed exactly when that error text does not contain
    "ERROR: *** no cameras available ***", whatever else the command printed
    or reported. *)
Theorem camera_verdict (env : Env) (s : State) (c : nat) (b : exec_behaviour)
    (out err : string) :
  "T14" ∈ tests_to_run (test_result s) → ssh s = Some c →
  (∀ n, ssh_exec env n "libcamera-hello" = b) →
  exec_call b = Returns tt → stdout_text b = Returns out →
  stderr_text b = Returns err → PyStr.str_in "SSH_ERROR" err = false →
  ∃ s',
    ssh_camera_test env s = (Ret tt, s') ∧
    test_results (test_result s') !! "T14"
      = Some (PyBool
                (negb (PyStr.str_in "ERROR: *** no cameras available ***" err))) ∧
    trace s' = trace s ++ [EvExec "libcamera-hello"].
Proof.
  intros Hsel Hssh Hb Hcall Hout Herr Hmark.
  unfold ssh_camera_test, in_tests_to_run, time_time.
  rewrite gets_bind, bool_decide_eq_true_2 by done. cbn [when].
  rewrite read_tick_bind. norm_state.
  match goal with
  | |- context [bind (run_with_reconnect env "libcamera-hello" ?onf) _ ?s0] =>
    pose proof (run_with_reconnect_clean env "libcamera-hello" onf s0 c out err)
      as Hrun
  end.
  norm_state_in Hrun. rewrite Hb in Hrun.
  specialize (Hrun Hssh Hcall Hout Herr Hmark).
  rewrite (bind_eq _ _ _ _ _ Hrun). cbv beta iota.
  rewrite gets_bind. norm_state. rewrite Hssh, Hmark.
  cbn [bool_decide decide_rel is_Some_dec andb negb when].
  rewrite (bind_eq _ _ _ _ _ (elapsed_since_eq _ _ _)).
  rewrite (set_test_result_eq _ _ "Camera Detection") by done.
  eexists. split; [reflexivity|]. norm_state.
  cbn [append_log store_result test_results]. by rewrite lookup_insert_eq.
Qed.

Lemma camera_verdict_witness :
  ∃ s',
    ssh_camera_test (lab_env {["T14"]})
      (with_ssh (Some 0%nat)
         (with_test_result (TestResult_init 0 7 {["T14"]} None None) (boot [])))
      = (Ret tt, s') ∧
    test_results (test_result s') !! "T14"
      = Some (PyBool
                (negb (PyStr.str_in "ERROR: *** no cameras available ***" ""))) ∧
    trace s' = [] ++ [EvExec "libcamera-hello"].
Proof.
  apply (camera_verdict (lab_env {["T14"]})
           (with_ssh (Some 0%nat)
              (with_test_result (TestResult_init 0 7 {["T14"]} None None)
                 (boot [])))
           0%nat quiet_exec "" "").
  - apply (bool_decide_unpack _). vm_compute. exact I.
  - reflexivity.
  - reflexivity.
  - reflexivity.
  - reflexivity.
  - reflexivity.
  - reflexivity.
Defined.

(** ** The shutdown of the CM5 *)

(** The shutdown step after the save.  It raises only when there is no
    line to read at its prompt; otherwise it returns normally whatever the
    network does (every exception of the attempt is swallowed, the end of the
    operator's input during the retries included).  It makes at most three
    connection attempts and sends "sudo shutdown now" at most once; on the
    answer n (case and blanks ignored) it does nothing at all.  Ledger and
    workbook are never touched. *)
Theorem shutdown_never_disturbs (env : Env) (s : State) :
  match stdin s with
  | [] => (shutdown_step env s).1 = Raise EOF_TEXT
  | line :: rest =>
      (shutdown_step env s).1 = Ret tt ∧
      test_result (shutdown_step env s).2 = test_result s ∧
      excel (shutdown_step env s).2 = excel s ∧
      ∃ t,
        trace (shutdown_step env s).2 =
          trace s ++
          EvInput "Press Enter to safely shutdown the CM5, or 'n' to skip: " line
          :: t ∧
        (connect_attempts t ≤ 3)%nat ∧
        (executions "sudo shutdown now" t ≤ 1)%nat ∧
        (PyStr.lower (PyStr.strip line) = "n" → t = [])
  end.
Proof.
  destruct (stdin s) as [|line rest] eqn:Hs.
  { unfold shutdown_step, bind. by rewrite input_nil. }
  pose proof (preserves_shutdown_step env (same_ledger s) s) as Hled.
  destruct Hled as [Hl1 Hl2]; [done|].
  split; [|split; [exact Hl1|split; [exact Hl2|]]]; clear Hl1 Hl2.
  all: unfold shutdown_step; unfold bind at 1;
    rewrite (input_cons _ line rest) by done; cbv zeta;
    destruct (decide (PyStr.lower (PyStr.strip line) = "n")) as [Hn|Hn];
    [ rewrite bool_decide_eq_true_2 by done
    | rewrite bool_decide_eq_false_2 by done ]; cbn [negb when].
  - done.
  - unfold try_except, reconnect_ssh. unfold bind at 1.
    match goal with |- context [reconnect_loop env 3 0 3 ?s1] =>
      pose proof (no_ctl_reconnect_loop env 3 0 3 s1) as [Hctl Hbrk];
      destruct (reconnect_loop env 3 0 3 s1) as [[[c|]|e| |] s2] end;
      try done.
    unfold bind at 1.
    destruct (ssh_execute_command_total env (Some c) "sudo shutdown now" false s2)
      as (o & e & s3 & ->). done.
  - exists []. cbn. split; [done|]. split; [lia|]. split; [lia|done].
  - unfold try_except, reconnect_ssh. unfold bind at 1.
    match goal with |- context [reconnect_loop env 3 0 3 ?s1] =>
      destruct (reconnect_loop_trace env 3 3 0 s1) as (t & Ht & He & Hc);
      pose proof (no_ctl_reconnect_loop env 3 0 3 s1) as [Hctl Hbrk];
      destruct (reconnect_loop env 3 0 3 s1) as [[[c|]|e| |] s2] end;
      cbn [fst snd] in *; norm_state_in Ht; try done.
    + pose proof (ssh_execute_command_trace env (Some c) "sudo shutdown now"
                    false s2) as Hx.
      unfold bind at 1.
      destruct (ssh_execute_command_total env (Some c) "sudo shutdown now"
                  false s2) as (o & e & s3 & Heq).
      rewrite Heq in *. cbn [snd] in Hx.
      unfold ssh_close, log_event, modify. norm_state.
      exists (t ++ [EvExec "sudo shutdown now"; EvClose]).
      rewrite Hx, Ht, <- !app_assoc. split; [done|].
      rewrite connect_attempts_app, executions_app, He. cbn.
      split; [lia|]. split; [|done].
      apply (bool_decide_unpack _). vm_compute. exact I.
    + exists t. unfold ret. cbn [snd]. rewrite Ht, <- app_assoc. split; [done|].
      rewrite He. split; [lia|]. split; [lia|done].
    + exists t. unfold ret. cbn [snd]. rewrite Ht, <- app_assoc. split; [done|].
      rewrite He. split; [lia|]. split; [lia|done].
Qed.

(** ** The selection menu *)

Lemma draw_rows_raised (f : Frame) (height : Z) (selected : gset string)
    (idx : nat) (items : list (string * string)) (e : string) :
  draw_rows f height selected idx items = Raises e → raised_in f e.
Proof.
  revert idx. induction items as [|[tid name] items IH]; intros idx;
    cbn [draw_rows]; [done|].
  destruct (_ <=? _); [done|].
  destruct (addstr f _ 2 _) as [[]|e'] eqn:Hadd.
  - apply IH.
  - intros [= <-]. left. eauto.
Qed.

Lemma draw_rows_draws (f : Frame) (height : Z) (selected : gset string)
    (idx : nat) (items : list (string * string)) :
  draws f → draw_rows f height selected idx items = Returns tt.
Proof.
  intros Hd. revert idx. induction items as [|[tid name] items IH]; intros idx;
    cbn [draw_rows]; [done|].
  destruct (_ <=? _); [done|]. rewrite Hd. apply IH.
Qed.

Lemma menu_loop_within_catalog (frames : list Frame) (selected : gset string)
    (row : nat) :
  selected ⊆ list_to_set TEST_ID_KEYS → (row < length TEST_ID_KEYS)%nat →
  match menu_loop frames selected row with
  | Some (Returns sel) => sel ⊆ list_to_set TEST_ID_KEYS
  | Some (Raises e) => ∃ f, f ∈ frames ∧ raised_in f e
  | None => True
  end.
Proof.
  revert selected row.
  induction frames as [|f frames IH]; intros selected row Hsub Hrow; [done|].
  assert (∀ sel' row',
            sel' ⊆ list_to_set TEST_ID_KEYS → (row' < length TEST_ID_KEYS)%nat →
            match menu_loop frames sel' row' with
            | Some (Returns sel) => sel ⊆ list_to_set TEST_ID_KEYS
            | Some (Raises e) => ∃ f0, f0 ∈ f :: frames ∧ raised_in f0 e
            | None => True
            end) as IH'.
  { intros sel' row' Hs Hr. specialize (IH sel' row' Hs Hr).
    destruct (menu_loop frames sel' row') as [[sel|e]|]; [done| |done].
    destruct IH as (f0 & Hin & Hf0). exists f0. split; [by right|done]. }
  cbn [menu_loop]. destruct (getmaxyx f) as [height width].
  destruct (addstr f 0 _ MENU_TITLE) as [[]|e] eqn:Htitle.
  2: { exists f. split; [by left|]. left. eauto. }
  destruct (draw_rows f height selected 0 TEST_ID_ITEMS) as [[]|e] eqn:Hrows.
  2: { exists f. split; [by left|]. by eapply draw_rows_raised. }
  destruct (addstr f (height - 1) 2 MENU_HELP) as [[]|e] eqn:Hhelp.
  2: { exists f. split; [by left|]. left. eauto. }
  destruct (getch f) as [key|e] eqn:Hkey.
  2: { exists f. split; [by left|]. by right. }
  destruct ((key =? KEY_UP) && (0 <? row)%nat) eqn:Hup.
  { apply IH'; [done|lia]. }
  destruct ((key =? KEY_DOWN) && (row <? length TEST_ID_KEYS - 1)%nat) eqn:Hdown.
  { apply andb_prop in Hdown as [_ Hlt%Nat.ltb_lt]. apply IH'; [done|lia]. }
  destruct (key =? 32).
  { destruct (lookup_lt_is_Some_2 TEST_ID_KEYS row Hrow) as [tid Htid].
    rewrite Htid. destruct (bool_decide (tid ∈ selected)).
    - apply IH'; [by apply subseteq_difference_l|done].
    - apply IH'; [|done]. apply union_subseteq. split; [done|].
      apply singleton_subseteq_l, elem_of_list_to_set.
      by eapply list_elem_of_lookup_2. }
  destruct ((key =? 97) || (key =? 65)); [by apply IH'|].
  destruct ((key =? 110) || (key =? 78));
    [apply IH'; [apply empty_subseteq|done]|].
  destruct (key =? 10); [done|].
  destruct (key =? 27); [done|].
  by apply IH'.
Qed.

(** Whatever the terminal does and whatever keys are pressed, the menu
    never fails on its row index: the current row stays within the catalog,
    and an exception that leaves the menu is one that a call into curses
    raised ([curs_set], an [addstr] or the [getch] of some round).  When the
    menu is left with a selection, the selection holds catalog ids only. *)
Theorem menu_selection_within_catalog (curs_set : io unit)
    (frames : list Frame) :
  match menu curs_set frames with
  | Some (Returns sel) => sel ⊆ list_to_set TEST_ID_KEYS
  | Some (Raises e) =>
      curs_set = Raises e ∨ ∃ f, f ∈ frames ∧ raised_in f e
  | None => True
  end.
Proof.
  unfold menu. destruct curs_set as [[]|e]; [|by left].
  pose proof (menu_loop_within_catalog frames (list_to_set TEST_ID_KEYS) 0
                ltac:(done) ltac:(cbn; lia)) as H.
  destruct (menu_loop frames _ 0) as [[sel|e]|]; [done|by right|done].
Qed.

(** On a screen of 80 columns the title of 90 characters is written at the
    column -5: a terminal that refuses it makes the menu raise before any
    key is read, and [select_tests_to_run] falls back to the text mode. *)
Lemma menu_title_does_not_fit :
  menu (Returns tt) [lab_frame 80 10]
    = Some (Raises "addstr() returned ERR") ∧
  menu (Returns tt) [lab_frame 90 10]
    = Some (Returns (list_to_set TEST_ID_KEYS)).
Proof. split; vm_compute; reflexivity. Qed.

Lemma menu_loop_escape (frames rest : list Frame) (f : Frame)
    (selected : gset string) (row : nat) :
  (row < length TEST_ID_KEYS)%nat →
  Forall (λ f, draws f ∧ ∃ key, getch f = Returns key ∧ key ≠ 10 ∧ key ≠ 27)
    frames →
  draws f → getch f = Returns 27 →
  menu_loop (frames ++ f :: rest) selected row
    = Some (Returns (list_to_set TEST_ID_KEYS)).
Proof.
  intros Hrow Hall Hdraw Hesc. revert selected row Hrow.
  induction Hall as [|f0 frames (Hd0 & key & Hkey & Hk10 & Hk27) _ IH];
    intros selected row Hrow.
  - cbn [app menu_loop]. destruct (getmaxyx f) as [height width].
    rewrite !Hdraw, (draw_rows_draws _ _ _ _ _ Hdraw), Hesc.
    cbn [Z.eqb KEY_UP KEY_DOWN Pos.eqb andb orb]. done.
  - cbn [app menu_loop]. destruct (getmaxyx f0) as [height width].
    rewrite !Hd0, (draw_rows_draws _ _ _ _ _ Hd0), Hkey.
    destruct ((key =? KEY_UP) && (0 <? row)%nat) eqn:Hup.
    { apply IH. lia. }
    destruct ((key =? KEY_DOWN) && (row <? length TEST_ID_KEYS - 1)%nat) eqn:Hdown.
    { apply andb_prop in Hdown as [_ Hlt%Nat.ltb_lt]. apply IH. lia. }
    destruct (key =? 32).
    { destruct (lookup_lt_is_Some_2 TEST_ID_KEYS row Hrow) as [tid Htid].
      rewrite Htid. destruct (bool_decide (tid ∈ selected)); by apply IH. }
    destruct ((key =? 97) || (key =? 65)); [by apply IH|].
    destruct ((key =? 110) || (key =? 78)); [by apply IH|].
    destruct (key =? 10) eqn:H10; [apply Z.eqb_eq in H10; congruence|].
    destruct (key =? 27) eqn:H27; [apply Z.eqb_eq in H27; congruence|].
    by apply IH.
Qed.

(** Leaving the menu with ESC discards what the operator selected: when the
    cursor could be hidden and, up to the round of the ESC, the screen
    could be drawn and neither Enter nor ESC was pressed, ESC returns the
    whole catalog, whatever was toggled or cleared. *)
Theorem menu_escape_selects_all (frames rest : list Frame) (f : Frame) :
  Forall (λ f, draws f ∧ ∃ key, getch f = Returns key ∧ key ≠ 10 ∧ key ≠ 27)
    frames →
  draws f → getch f = Returns 27 →
  menu (Returns tt) (frames ++ f :: rest)
    = Some (Returns (list_to_set TEST_ID_KEYS)).
Proof. intros Hall Hd Hesc. apply menu_loop_escape; [cbn; lia|done..]. Qed.

Lemma menu_escape_selects_all_witness :
  menu (Returns tt)
    ([easy_frame 110; easy_frame 258; easy_frame 32] ++ easy_frame 27
       :: [easy_frame 10])
    = Some (Returns (list_to_set TEST_ID_KEYS)).
Proof.
  apply (menu_escape_selects_all
           [easy_frame 110; easy_frame 258; easy_frame 32] [easy_frame 10]
           (easy_frame 27)).
  - repeat constructor; eexists; (split; [reflexivity|]); split; discriminate.
  - intros y x text. reflexivity.
  - reflexivity.
Defined.

(** ** The RP2 volume *)

Lemma find_in_first (fs : Volume.FS) (paths : list string) :
  match Volume.find_in fs paths with
  | Some volume_path =>
      ∃ before after, paths = before ++ volume_path :: after ∧
                      Volume.mounted fs volume_path ∧
                      Forall (λ p, ¬ Volume.mounted fs p) before
  | None => Forall (λ p, ¬ Volume.mounted fs p) paths
  end.
Proof.
  induction paths as [|p paths IH]; cbn [Volume.find_in]; [done|].
  assert (¬ Volume.mounted fs p →
          match Volume.find_in fs paths with
          | Some volume_path =>
              ∃ before after, p :: paths = before ++ volume_path :: after ∧
                              Volume.mounted fs volume_path ∧
                              Forall (λ p, ¬ Volume.mounted fs p) before
          | None => Forall (λ p, ¬ Volume.mounted fs p) (p :: paths)
          end) as Hskip.
  { intros Hp. destruct (Volume.find_in fs paths) as [v|].
    - destruct IH as (before & after & -> & Hv & Hb).
      exists (p :: before), after. split; [done|]. split; [done|].
      by constructor.
    - by constructor. }
  destruct (Volume.path_exists fs p) eqn:Hex.
  2: { apply Hskip. intros [H _]. congruence. }
  destruct (Volume.listdir fs p) as [files|e] eqn:Hls.
  2: { apply Hskip. intros [_ (files & H & _)]. congruence. }
  destruct (decide ("INFO_UF2.TXT" ∈ files)) as [Hin|Hout].
  - rewrite bool_decide_eq_true_2 by done.
    exists [], paths. split; [done|]. split; [|done].
    split; [done|]. by exists files.
  - rewrite bool_decide_eq_false_2 by done.
    apply Hskip. intros [_ (files' & H & Hin)]. congruence.
Qed.

(** [find_rp2_volume] returns the first of the two volume paths on which
    the boot volume is mounted (the path exists and its listing holds
    INFO_UF2.TXT); a path whose listing raises is passed over like a missing
    one.  It returns [None] exactly when the volume is mounted on neither
    path. *)
Theorem find_rp2_volume_first (fs : Volume.FS) :
  match Volume.find_rp2_volume fs with
  | Some volume_path =>
      ∃ before after,
        Volume.VOLUME_PATHS = before ++ volume_path :: after ∧
        Volume.mounted fs volume_path ∧
        Forall (λ p, ¬ Volume.mounted fs p) before
  | None => Forall (λ p, ¬ Volume.mounted fs p) Volume.VOLUME_PATHS
  end.
Proof. apply find_in_first. Qed.

Lemma find_rp2_volume_path (fs : Volume.FS) (v : string) :
  Volume.find_rp2_volume fs = Some v → v ∈ Volume.VOLUME_PATHS.
Proof.
  intros H. pose proof (find_in_first fs Volume.VOLUME_PATHS) as Hf.
  unfold Volume.find_rp2_volume in H. rewrite H in Hf.
  destruct Hf as (before & after & -> & _). apply elem_of_app. right.
  apply elem_of_cons. by left.
Qed.

Lemma wait_for_rp2_device_loop_sound (h : Volume.Host) (start timeout : Q)
    (fuel m : nat) (r : option string) (n' : nat) :
  Volume.wait_for_rp2_device_loop h start timeout fuel m = Some (r, n') →
  match r with
  | Some v =>
      ∃ k, (m < k < n')%nat ∧
           Volume.find_rp2_volume (Volume.host_fs h k) = Some v
  | None => (timeout <= Volume.host_clock h (n' - 1) - start)%Q
  end.
Proof.
  revert m. induction fuel as [|fuel IH]; intros m; [done|].
  cbn [Volume.wait_for_rp2_device_loop].
  destruct (Qlt_le_dec _ _) as [Hlt|Hle].
  - destruct (Volume.find_rp2_volume (Volume.host_fs h (S m))) as [v|] eqn:Hf.
    + intros [= <- <-]. exists (S m). split; [lia|done].
    + intros H. apply IH in H. destruct r as [v|]; [|done].
      destruct H as (k & Hk & Hv). exists k. split; [lia|done].
  - intros [= <- <-]. by replace (S m - 1)%nat with m by lia.
Qed.

Lemma wait_for_rp2_device_loop_ends (h : Volume.Host) (start timeout : Q) :
  (∀ k, (Volume.host_clock h k + 1 <= Volume.host_clock h (k + 3))%Q) →
  ∀ (f m : nat),
    (timeout - (Volume.host_clock h m - start) < inject_Z (Z.of_nat f))%Q →
    is_Some (Volume.wait_for_rp2_device_loop h start timeout (S f) m).
Proof.
  intros Hsleep f. induction f as [|f IH]; intros m Hf;
    cbn [Volume.wait_for_rp2_device_loop];
    destruct (Qlt_le_dec _ _) as [Hlt|Hle]; try (by eexists).
  - exfalso. change (inject_Z (Z.of_nat 0)) with (0 # 1) in Hf. lra.
  - destruct (Volume.find_rp2_volume _); [by eexists|].
    apply IH. specialize (Hsleep m).
    replace (m + 3)%nat with (S (S (S m))) in Hsleep by lia.
    rewrite Nat2Z.inj_succ, <- Z.add_1_r, inject_Z_plus in Hf.
    change (inject_Z 1) with 1%Q in Hf. lra.
Qed.

(** [wait_for_rp2_device] polls once per second until its timeout.  On a
    host whose clock never runs backwards and advances by at least one
    second over an iteration of the loop, a timeout of [T] seconds ends the
    wait within [T + 2] iterations.  A volume path is returned only if
    [find_rp2_volume] found it at one of the polls (so it is one of the two
    volume paths), and [None] only once the clock has reached the timeout. *)
Theorem wait_for_rp2_device_ends (h : Volume.Host) (T n : nat) :
  (∀ i j, (i ≤ j)%nat → (Volume.host_clock h i <= Volume.host_clock h j)%Q) →
  (∀ k, (Volume.host_clock h k + 1 <= Volume.host_clock h (k + 3))%Q) →
  ∃ r n',
    Volume.wait_for_rp2_device h (inject_Z (Z.of_nat T)) (T + 2) n
      = Some (r, n') ∧
    match r with
    | Some v =>
        v ∈ Volume.VOLUME_PATHS ∧
        ∃ k, (n < k < n')%nat ∧
             Volume.find_rp2_volume (Volume.host_fs h k) = Some v
    | None =>
        (inject_Z (Z.of_nat T)
         <= Volume.host_clock h (n' - 1) - Volume.host_clock h n)%Q
    end.
Proof.
  intros Hmono Hsleep. unfold Volume.wait_for_rp2_device.
  replace (T + 2)%nat with (S (S T)) by lia.
  destruct (wait_for_rp2_device_loop_ends h (Volume.host_clock h n)
              (inject_Z (Z.of_nat T)) Hsleep (S T) (S n)) as [[r n'] Hrun].
  { specialize (Hmono n (S n) ltac:(lia)).
    rewrite Nat2Z.inj_succ, <- Z.add_1_r, inject_Z_plus.
    change (inject_Z 1) with 1%Q. lra. }
  exists r, n'. split; [done|].
  apply wait_for_rp2_device_loop_sound in Hrun. destruct r as [v|]; [|done].
  destruct Hrun as (k & Hk & Hv). split; [by eapply find_rp2_volume_path|].
  exists k. split; [lia|done].
Qed.

Lemma bare_host_clock_mono (i j : nat) :
  (i ≤ j)%nat → (Volume.host_clock bare_host i <= Volume.host_clock bare_host j)%Q.
Proof. intros Hij. cbn. rewrite <- Zle_Qle. lia. Qed.

Lemma bare_host_clock_advances (k : nat) :
  (Volume.host_clock bare_host k + 1 <= Volume.host_clock bare_host (k + 3))%Q.
Proof.
  cbn. rewrite Nat2Z.inj_add, inject_Z_plus.
  change (inject_Z (Z.of_nat 3)) with (3 # 1). lra.
Qed.

Lemma wait_for_rp2_device_ends_witness :
  ∃ r n',
    Volume.wait_for_rp2_device bare_host (inject_Z (Z.of_nat 2)) (2 + 2) 0
      = Some (r, n') ∧
    match r with
    | Some v =>
        v ∈ Volume.VOLUME_PATHS ∧
        ∃ k, (0 < k < n')%nat ∧
             Volume.find_rp2_volume (Volume.host_fs bare_host k) = Some v
    | None =>
        (inject_Z (Z.of_nat 2)
         <= Volume.host_clock bare_host (n' - 1) - Volume.host_clock bare_host 0)%Q
    end.
Proof.
  apply (wait_for_rp2_device_ends bare_host 2 0).
  - exact bare_host_clock_mono.
  - exact bare_host_clock_advances.
Defined.

Lemma wait_for_rp2_disappear_loop_sound (h : Volume.Host) (start timeout : Q)
    (fuel m : nat) (r : bool) (n' : nat) :
  Volume.wait_for_rp2_disappear_loop h start timeout fuel m = Some (r, n') →
  if r then
    ∃ k, (m < k < n')%nat ∧ Volume.find_rp2_volume (Volume.host_fs h k) = None
  else (timeout <= Volume.host_clock h (n' - 1) - start)%Q.
Proof.
  revert m. induction fuel as [|fuel IH]; intros m; [done|].
  cbn [Volume.wait_for_rp2_disappear_loop].
  destruct (Qlt_le_dec _ _) as [Hlt|Hle].
  - destruct (Volume.find_rp2_volume (Volume.host_fs h (S m))) as [v|] eqn:Hf.
    + intros H. apply IH in H. destruct r; [|done].
      destruct H as (k & Hk & Hv). exists k. split; [lia|done].
    + intros [= <- <-]. exists (S m). split; [lia|done].
  - intros [= <- <-]. by replace (S m - 1)%nat with m by lia.
Qed.

Lemma wait_for_rp2_disappear_loop_ends (h : Volume.Host) (start timeout : Q) :
  (∀ k, (Volume.host_clock h k + 1 <= Volume.host_clock h (k + 3))%Q) →
  ∀ (f m : nat),
    (timeout - (Volume.host_clock h m - start) < inject_Z (Z.of_nat f))%Q →
    is_Some (Volume.wait_for_rp2_disappear_loop h start timeout (S f) m).
Proof.
  intros Hsleep f. induction f as [|f IH]; intros m Hf;
    cbn [Volume.wait_for_rp2_disappear_loop];
    destruct (Qlt_le_dec _ _) as [Hlt|Hle]; try (by eexists).
  - exfalso. change (inject_Z (Z.of_nat 0)) with (0 # 1) in Hf. lra.
  - destruct (Volume.find_rp2_volume _); [|by eexists].
    apply IH. specialize (Hsleep m).
    replace (m + 3)%nat with (S (S (S m))) in Hsleep by lia.
    rewrite Nat2Z.inj_succ, <- Z.add_1_r, inject_Z_plus in Hf.
    change (inject_Z 1) with 1%Q in Hf. lra.
Qed.

(** [wait_for_rp2_disappear] likewise: under the same assumptions on the
    clock, a timeout of [T] seconds ends the wait within [T + 2] iterations;
    it returns [True] only if a poll found no volume, and [False] only once
    the clock has reached the timeout. *)
Theorem wait_for_rp2_disappear_ends (h : Volume.Host) (T n : nat) :
  (∀ i j, (i ≤ j)%nat → (Volume.host_clock h i <= Volume.host_clock h j)%Q) →
  (∀ k, (Volume.host_clock h k + 1 <= Volume.host_clock h (k + 3))%Q) →
  ∃ r n',
    Volume.wait_for_rp2_disappear h (inject_Z (Z.of_nat T)) (T + 2) n
      = Some (r, n') ∧
    if r then
      ∃ k, (n < k < n')%nat ∧
           Volume.find_rp2_volume (Volume.host_fs h k) = None
    else
      (inject_Z (Z.of_nat T)
       <= Volume.host_clock h (n' - 1) - Volume.host_clock h n)%Q.
Proof.
  intros Hmono Hsleep. unfold Volume.wait_for_rp2_disappear.
  replace (T + 2)%nat with (S (S T)) by lia.
  destruct (wait_for_rp2_disappear_loop_ends h (Volume.host_clock h n)
              (inject_Z (Z.of_nat T)) Hsleep (S T) (S n)) as [[r n'] Hrun].
  { specialize (Hmono n (S n) ltac:(lia)).
    rewrite Nat2Z.inj_succ, <- Z.add_1_r, inject_Z_plus.
    change (inject_Z 1) with 1%Q. lra. }
  exists r, n'. split; [done|].
  apply wait_for_rp2_disappear_loop_sound in Hrun. destruct r; [|done].
  destruct Hrun as (k & Hk & Hv). exists k. split; [lia|done].
Qed.

Lemma wait_for_rp2_disappear_ends_witness :
  ∃ r n',
    Volume.wait_for_rp2_disappear bare_host (inject_Z (Z.of_nat 2)) (2 + 2) 0
      = Some (r, n') ∧
    if r then
      ∃ k, (0 < k < n')%nat ∧
           Volume.find_rp2_volume (Volume.host_fs bare_host k) = None
    else
      (inject_Z (Z.of_nat 2)
       <= Volume.host_clock bare_host (n' - 1) - Volume.host_clock bare_host 0)%Q.
Proof.
  apply (wait_for_rp2_disappear_ends bare_host 2 0).
  - exact bare_host_clock_mono.
  - exact bare_host_clock_advances.
Defined.

(** [flash_uf2_file] when the UF2 file exists, the boot volume is mounted
    and the copy raises: the failure is forgiven, and [True] returned,
    exactly when the file name contains "RPI_PICO" and the text of the error
    contains "Invalid argument".  The same error therefore fails the flash
    nuke and passes the MicroPython firmware. *)
Theorem flash_uf2_file_forgives_auto_eject (fs : Volume.FS)
    (uf2_filename volume_path e : string) :
  Volume.path_exists fs (Volume.path_join Volume.UF2_DIRECTORY uf2_filename)
    = true →
  Volume.find_rp2_volume fs = Some volume_path →
  Volume.copy2 fs (Volume.path_join Volume.UF2_DIRECTORY uf2_filename)
    (Volume.path_join volume_path uf2_filename) = Raises e →
  Volume.flash_uf2_file fs uf2_filename =
    PyStr.str_in "RPI_PICO" uf2_filename && PyStr.str_in "Invalid argument" e ∧
  (PyStr.str_in "Invalid argument" e = true →
   (uf2_filename = FLASH_NUKE_UF2 → Volume.flash_uf2_file fs uf2_filename = false) ∧
   (uf2_filename = MICROPYTHON_UF2 → Volume.flash_uf2_file fs uf2_filename = true)).
Proof.
  intros Hex Hvol Hcopy. unfold Volume.flash_uf2_file. cbv zeta.
  rewrite Hex, Hvol, Hcopy. cbn [negb]. split; [done|].
  intros ->. split; intros ->; vm_compute; reflexivity.
Qed.

Lemma flash_uf2_file_forgives_auto_eject_witness :
  Volume.flash_uf2_file ejecting_fs MICROPYTHON_UF2 =
    PyStr.str_in "RPI_PICO" MICROPYTHON_UF2
    && PyStr.str_in "Invalid argument" "[Errno 22] Invalid argument" ∧
  (PyStr.str_in "Invalid argument" "[Errno 22] Invalid argument" = true →
   (MICROPYTHON_UF2 = FLASH_NUKE_UF2 →
    Volume.flash_uf2_file ejecting_fs MICROPYTHON_UF2 = false) ∧
   (MICROPYTHON_UF2 = MICROPYTHON_UF2 →
    Volume.flash_uf2_file ejecting_fs MICROPYTHON_UF2 = true)).
Proof.
  apply (flash_uf2_file_forgives_auto_eject ejecting_fs MICROPYTHON_UF2
           "/Volumes/RPI-RP2 1" "[Errno 22] Invalid argument").
  - reflexivity.
  - vm_compute. reflexivity.
  - reflexivity.
Defined.
